(** * GreenPulse AI: the streaming core, embedded and verified

    A shallow embedding of the computation core of GreenPulse AI
    (the temporal join, the window aggregations, the anomaly detectors, the
    risk score, the vehicle state machine and the fuel forecast).

    Numeric model.  A Python [float] is a real number of [R]: the
    development reasons about the formulas the code evaluates, and leaves the
    rounding error of binary64 arithmetic out.  A Python [int] is a [Z], a
    [str] a [string], an event time (parsed to whole seconds by
    [strptime("%Y-%m-%dT%H:%M:%S")]) a [Z] number of seconds.

    Table model.  A Pathway table is the list of its rows, in arrival order.
    The relational operators the code calls ([select], [filter],
    [join_left], [interval_join], [groupby(..).reduce(..)],
    [windowby(..).reduce(..)]) are Pathway's, not this repository's; module
    [Pathway] states them after the library's documentation. *)

From Stdlib Require Import Reals Lra Lia ZArith List String Bool Permutation.
Import ListNotations.

Open Scope R_scope.

(** ** Python builtins on numbers *)

Module Py.

(** [a < b], [a <= b], [a > b], [a >= b] on floats, as booleans. *)
Definition ltb (a b : R) : bool := if Rlt_dec a b then true else false.
Definition leb (a b : R) : bool := if Rle_dec a b then true else false.
Definition gtb (a b : R) : bool := ltb b a.
Definition geb (a b : R) : bool := leb b a.

(** [min(a, b)] keeps [a] unless [b < a]; [max(a, b)] keeps [a] unless
      [b > a]. *)
Definition min (a b : R) : R := if Rlt_dec b a then b else a.
Definition max (a b : R) : R := if Rlt_dec a b then b else a.

(** [abs(x)]. *)
Definition abs (x : R) : R := if Rlt_dec x 0 then - x else x.

(** [float(n)] for an int. *)
Definition float (n : Z) : R := IZR n.

(** [round(x, ndigits)]: the nearest multiple of [10^-ndigits], a tie going
      to the even one. *)
Definition round_half_even (y : R) : Z :=
    let f := Int_part y in
    let r := y - IZR f in
    if Rlt_dec r (1 / 2) then f
    else if Rlt_dec (1 / 2) r then (f + 1)%Z
    else if Z.even f then f else (f + 1)%Z.

Definition round (x : R) (ndigits : nat) : R :=
    IZR (round_half_even (x * 10 ^ ndigits)) / 10 ^ ndigits.

(** [math.exp] is [exp] of the reals; [min] and [max] of two ints are
    [Z.min] and [Z.max]. *)

End Py.

(** ** The Pathway operators the pipeline is built from *)

Module Pathway.

Definition Table (A : Type) : Type := list A.

Section Relational.
Context {A B K : Type}.

(** [t.select(..)] and [t.with_columns(..)] compute each output row from
        one input row. *)
Definition select (f : A -> B) (t : Table A) : Table B := map f t.

(** [t.filter(p)]. *)
Definition filter (p : A -> bool) (t : Table A) : Table A :=
      List.filter p t.

(** [pw.coalesce(x, d)]. *)
Definition coalesce (x : option A) (d : A) : A :=
      match x with Some v => v | None => d end.

(** [l.join_left(r, on)]: every left row, once per matching right row,
        and once with no right row when nothing matches. *)
Definition join_left (on : A -> B -> bool) (l : Table A) (r : Table B)
      : Table (A * option B) :=
      flat_map
        (fun a =>
           match List.filter (on a) r with
           | [] => [(a, None)]
           | ms => map (fun b => (a, Some b)) ms
           end) l.

(** [pw.temporal.interval_join(l, r, tl, tr, interval(lo, hi), on)]: the
        inner join of the rows with [tl + lo <= tr <= tl + hi] that satisfy
        [on]; one output row per such pair. *)
Definition interval_join (tl : A -> Z) (tr : B -> Z) (lo hi : Z)
        (on : A -> B -> bool) (l : Table A) (r : Table B) : Table (A * B) :=
      flat_map
        (fun a =>
           map (fun b => (a, b))
             (List.filter
                (fun b => on a b && (tl a + lo <=? tr b)%Z
                                 && (tr b <=? tl a + hi)%Z) r)) l.

(** The distinct keys of a table, in order of first appearance. *)
Fixpoint distinct_from (eqb : K -> K -> bool) (seen ks : list K)
      : list K :=
      match ks with
      | [] => []
      | k :: ks' =>
          if existsb (eqb k) seen then distinct_from eqb seen ks'
          else k :: distinct_from eqb (k :: seen) ks'
      end.

Definition distinct (eqb : K -> K -> bool) (ks : list K) : list K :=
      distinct_from eqb [] ks.

(** [t.groupby(key)]: one group per distinct key, holding the rows of
        that key in arrival order. *)
Definition groupby (eqb : K -> K -> bool) (key : A -> K) (t : Table A)
      : list (K * list A) :=
      map (fun k => (k, List.filter (fun a => eqb (key a) k) t))
          (distinct eqb (map key t)).
End Relational.

(** Reducers over the rows of one group. *)
Module reducers.
Definition count {A} (g : list A) : Z := Z.of_nat (List.length g).
Definition sum (xs : list R) : R := fold_right Rplus 0 xs.
Definition avg (xs : list R) : R := sum xs / IZR (count xs).
(** A group is never empty; on [[]] these return [0]. *)
Definition max (xs : list R) : R :=
      match xs with [] => 0 | x :: xs' => fold_left Rmax xs' x end.
Definition min (xs : list R) : R :=
      match xs with [] => 0 | x :: xs' => fold_left Rmin xs' x end.
(** [latest]: the value of the row that arrived last. *)
Definition latest (xs : list R) : R := last xs 0.
(** [sum] of an int column. *)
Definition sum_int (xs : list Z) : Z := fold_right Z.add 0%Z xs.
End reducers.

(** Window assignment.  [tumbling(duration)] puts an event of time [t] in
      the window starting at the multiple of [duration] at or below [t];
      [sliding(duration, hop)] puts it in every window that starts at a
      multiple of [hop] and contains [t]. *)
Module temporal.
Definition tumbling (duration t : Z) : list Z :=
      [(t / duration * duration)%Z].

Definition sliding (duration hop t : Z) : list Z :=
      List.filter (fun s => (t <? s + duration)%Z)
        (map (fun i => ((t / hop - Z.of_nat i) * hop)%Z)
             (seq 0 (S (Z.to_nat (duration / hop))))).
End temporal.

(** [t.windowby(time, window, instance)]: the rows grouped by instance and
      window start; a row appears in each window it is assigned to. *)
Definition windowby {A} (time : A -> Z) (window : Z -> list Z)
      (instance : A -> string) (t : Table A)
    : list ((string * Z) * list A) :=
    map (fun '(k, g) => (k, map snd g))
      (groupby
         (fun k k' : string * Z =>
            String.eqb (fst k) (fst k') && (snd k =? snd k')%Z)
         fst
         (flat_map
            (fun a => map (fun s => ((instance a, s), a)) (window (time a)))
            t)).

End Pathway.

(** ** config/__init__.py *)

Module config.
Module emission.
Definition diesel_emission_factor : R := 268 / 100.
Definition gasoline_emission_factor : R := 231 / 100.
Definition default_emission_factor : R := 268 / 100.
End emission.
Module window.
Definition window_duration_sec : Z := 300.
Definition slide_step_sec : Z := 60.
Definition hop_sec : Z := 300.
End window.
Module anomaly.
Definition max_speed_kmh : R := 120.
Definition min_fuel_efficiency_km_per_l : R := 3.
Definition zscore_threshold : R := 25 / 10.
Definition route_bounds_km : R := 5.
Definition max_idle_duration_sec : Z := 600.
Definition max_acceleration_kmh_per_sec : R := 15.
Definition fuel_drop_threshold_liters : R := 5.
End anomaly.
End config.

(** ** ingestion/gps_stream.py, ingestion/fuel_stream.py: the input rows

    [parsed_time] is the column added by [strptime]; the text column
    [timestamp] it is parsed from is not kept. *)

Module gps_stream.
Record GPSRow : Type := {
  vehicle_id : string;
  latitude : R;
  longitude : R;
  speed : R;
  parsed_time : Z }.
End gps_stream.

Module fuel_stream.
Record FuelRow : Type := {
  vehicle_id : string;
  fuel_liters : R;
  distance_km : R;
  fuel_type : string;
  parsed_time : Z }.
End fuel_stream.

(** ** ingestion/shipment_stream.py *)

Module shipment_stream.
Record ShipmentRow : Type := {
  shipment_id : string;
  vehicle_id : string;
  status : string;
  origin : string;
  destination : string;
  parsed_time : Z }.

(** The column [is_delayed] that [create_shipment_stream] adds. *)
Definition is_delayed (s : ShipmentRow) : bool := String.eqb (status s) "delayed".
End shipment_stream.

(** ** streaming/joins.py *)

Module joins.

Record TelemetryRecord : Type := {
  vehicle_id : string;
  latitude : R;
  longitude : R;
  speed : R;
  fuel_liters : R;
  distance_km : R;
  fuel_type : string;
  timestamp : Z }.

(** The [select] of [join_gps_fuel]: the columns of one joined pair. *)
Definition joined_row (p : gps_stream.GPSRow * fuel_stream.FuelRow)
  : TelemetryRecord :=
  let (gps, fuel) := p in
  {| vehicle_id := gps_stream.vehicle_id gps;
     latitude := gps_stream.latitude gps;
     longitude := gps_stream.longitude gps;
     speed := gps_stream.speed gps;
     fuel_liters := fuel_stream.fuel_liters fuel;
     distance_km := fuel_stream.distance_km fuel;
     fuel_type := fuel_stream.fuel_type fuel;
     timestamp := gps_stream.parsed_time gps |}.

Definition join_gps_fuel (gps : Pathway.Table gps_stream.GPSRow)
    (fuel : Pathway.Table fuel_stream.FuelRow)
  : Pathway.Table TelemetryRecord :=
  Pathway.select joined_row
    (Pathway.interval_join
       gps_stream.parsed_time fuel_stream.parsed_time (-30) 30
       (fun g f =>
          String.eqb (gps_stream.vehicle_id g) (fuel_stream.vehicle_id f))
       gps fuel).

(** A row of [latest_shipments]: per vehicle, the columns of the shipment
    row that arrived last. *)
Record LatestShipment : Type := {
  ls_vehicle_id : string;
  ls_shipment_id : string;
  ls_status : string;
  ls_origin : string;
  ls_destination : string;
  ls_is_delayed : bool }.

Definition latest_shipments (shipments : Pathway.Table shipment_stream.ShipmentRow)
  : Pathway.Table LatestShipment :=
  flat_map
    (fun kg : string * list shipment_stream.ShipmentRow =>
       match snd kg with
       | [] => []
       | s0 :: g =>
           let s := last g s0 in
           [ {| ls_vehicle_id := fst kg;
                ls_shipment_id := shipment_stream.shipment_id s;
                ls_status := shipment_stream.status s;
                ls_origin := shipment_stream.origin s;
                ls_destination := shipment_stream.destination s;
                ls_is_delayed := shipment_stream.is_delayed s |} ]
       end)
    (Pathway.groupby String.eqb shipment_stream.vehicle_id shipments).

(** A row of [join_all_streams]: the telemetry columns and the three
    shipment columns, null when the vehicle has no shipment. *)
Record Enriched : Type := {
  telemetry : TelemetryRecord;
  shipment_id : option string;
  shipment_status : option string;
  is_delayed : option bool }.

Definition join_all_streams (gps : Pathway.Table gps_stream.GPSRow)
    (fuel : Pathway.Table fuel_stream.FuelRow)
    (shipments : Pathway.Table shipment_stream.ShipmentRow)
  : Pathway.Table Enriched :=
  let telemetry := join_gps_fuel gps fuel in
  Pathway.select
    (fun lr : TelemetryRecord * option LatestShipment =>
       {| telemetry := fst lr;
          shipment_id := option_map ls_shipment_id (snd lr);
          shipment_status := option_map ls_status (snd lr);
          is_delayed := option_map ls_is_delayed (snd lr) |})
    (Pathway.join_left
       (fun t s => String.eqb (vehicle_id t) (ls_vehicle_id s))
       telemetry (latest_shipments shipments)).

End joins.

(** ** features/carbon.py, features/efficiency.py: the telemetry table

    The rows the windows and the detectors read: a joined record with the
    columns [carbon_kg] and [fuel_efficiency] added.  The shipment columns
    of [join_all_streams] are read by none of the functions below and are
    left out. *)

Module features.

Record Telemetry : Type := {
  vehicle_id : string;
  latitude : R;
  longitude : R;
  speed : R;
  fuel_liters : R;
  distance_km : R;
  fuel_type : string;
  timestamp : Z;
  carbon_kg : R;
  fuel_efficiency : R }.

Definition carbon_emission (fuel_type : string) (fuel_liters : R) : R :=
  if String.eqb fuel_type "diesel"
  then fuel_liters * config.emission.diesel_emission_factor
  else if String.eqb fuel_type "gasoline"
  then fuel_liters * config.emission.gasoline_emission_factor
  else fuel_liters * config.emission.default_emission_factor.

Definition efficiency (distance_km fuel_liters : R) : R :=
  if Py.gtb fuel_liters 0 then distance_km / fuel_liters else 0.

(** [compute_fuel_efficiency(compute_carbon_emissions(t))]. *)
Definition compute_features (t : Pathway.Table joins.TelemetryRecord)
  : Pathway.Table Telemetry :=
  Pathway.select
    (fun r =>
       {| vehicle_id := joins.vehicle_id r;
          latitude := joins.latitude r;
          longitude := joins.longitude r;
          speed := joins.speed r;
          fuel_liters := joins.fuel_liters r;
          distance_km := joins.distance_km r;
          fuel_type := joins.fuel_type r;
          timestamp := joins.timestamp r;
          carbon_kg :=
            carbon_emission (joins.fuel_type r) (joins.fuel_liters r);
          fuel_efficiency :=
            efficiency (joins.distance_km r) (joins.fuel_liters r) |})
    t.

End features.

(** ** streaming/windows.py *)

Module windows.

Record WindowRow : Type := {
  vehicle_id : string;
  window_start : Z;
  window_end : Z;
  avg_speed : R;
  max_speed : R;
  min_speed : R;
  total_fuel : R;
  total_distance : R;
  data_points : Z;
  carbon_kg : R;
  fuel_efficiency : R;
  speed_variance : R }.

(** One snapshot: the [reduce] over the rows of a window, then the derived
    columns of [with_columns]. *)
Definition snapshot (duration : Z) (emission_factor : R)
    (w : (string * Z) * list features.Telemetry) : WindowRow :=
  let '((instance, start), g) := w in
  let max_speed := Pathway.reducers.max (map features.speed g) in
  let min_speed := Pathway.reducers.min (map features.speed g) in
  let total_fuel := Pathway.reducers.sum (map features.fuel_liters g) in
  let total_distance := Pathway.reducers.sum (map features.distance_km g) in
  {| vehicle_id := instance;
     window_start := start;
     window_end := (start + duration)%Z;
     avg_speed := Pathway.reducers.avg (map features.speed g);
     max_speed := max_speed;
     min_speed := min_speed;
     total_fuel := total_fuel;
     total_distance := total_distance;
     data_points := Pathway.reducers.count g;
     carbon_kg := total_fuel * emission_factor;
     fuel_efficiency :=
       if Py.gtb total_fuel 0 then total_distance / total_fuel else 0;
     speed_variance := max_speed - min_speed |}.

Definition compute_rolling_windows (telemetry : Pathway.Table features.Telemetry)
  : Pathway.Table WindowRow :=
  let emission_factor := config.emission.default_emission_factor in
  let duration := config.window.window_duration_sec in
  Pathway.select (snapshot duration emission_factor)
    (Pathway.windowby features.timestamp
       (Pathway.temporal.tumbling duration)
       features.vehicle_id telemetry).

End windows.

(** ** anomalies/threshold.py

    The [message] column of the three alert tables is text formatted from
    floats; it is read by no function below and is left out. *)

Module threshold.

Record Alert : Type := {
  vehicle_id : string;
  anomaly_type : string;
  severity : string;
  speed : R;
  fuel_efficiency : R;
  timestamp : Z }.

Definition is_speed_anomaly (r : features.Telemetry) : bool :=
  Py.gtb (features.speed r) config.anomaly.max_speed_kmh.

Definition is_efficiency_anomaly (r : features.Telemetry) : bool :=
  if Py.gtb (features.fuel_efficiency r) 0
  then Py.ltb (features.fuel_efficiency r)
         config.anomaly.min_fuel_efficiency_km_per_l
  else false.

Definition detect_threshold_anomalies
    (telemetry : Pathway.Table features.Telemetry) : Pathway.Table Alert :=
  Pathway.select
    (fun r =>
       {| vehicle_id := features.vehicle_id r;
          anomaly_type :=
            if is_speed_anomaly r then "speed_threshold"
            else "efficiency_threshold";
          severity :=
            if is_speed_anomaly r && Py.gtb (features.speed r) 140
            then "critical"
            else if is_speed_anomaly r then "high" else "medium";
          speed := features.speed r;
          fuel_efficiency := features.fuel_efficiency r;
          timestamp := features.timestamp r |})
    (Pathway.filter
       (fun r => is_speed_anomaly r || is_efficiency_anomaly r) telemetry).

End threshold.

(** ** anomalies/zscore.py *)

Module zscore.

(** A row of the table [zscores]: the reduced window statistics with the
    standard deviations and the z-scores added. *)
Record Stats : Type := {
  vehicle_id : string;
  mean_speed : R;
  avg_speed_sq : R;
  mean_carbon : R;
  avg_carbon_sq : R;
  count : Z;
  latest_speed : R;
  latest_carbon : R;
  window_time : Z;
  std_speed : R;
  std_carbon : R;
  speed_zscore : R;
  carbon_zscore : R }.

Record Alert : Type := {
  alert_vehicle_id : string;
  anomaly_type : string;
  severity : string;
  alert_speed_zscore : R;
  alert_carbon_zscore : R;
  timestamp : Z }.

(** [lambda avg_sq, avg: max(math.sqrt(max(avg_sq - avg * avg, 0)), 0.001)] *)
Definition std (avg_sq avg : R) : R :=
  Py.max (sqrt (Py.max (avg_sq - avg * avg) 0)) (1 / 1000).

(** [lambda val, mean, std: abs(val - mean) / std] *)
Definition zscore_of (val mean std : R) : R := Py.abs (val - mean) / std.

Definition window_stats (w : (string * Z) * list features.Telemetry)
  : Stats :=
  let '((instance, start), g) := w in
  let speeds := map features.speed g in
  let carbons := map features.carbon_kg g in
  let mean_speed := Pathway.reducers.avg speeds in
  let avg_speed_sq := Pathway.reducers.avg (map (fun x => x * x) speeds) in
  let mean_carbon := Pathway.reducers.avg carbons in
  let avg_carbon_sq := Pathway.reducers.avg (map (fun x => x * x) carbons) in
  let latest_speed := Pathway.reducers.latest speeds in
  let latest_carbon := Pathway.reducers.latest carbons in
  let std_speed := std avg_speed_sq mean_speed in
  let std_carbon := std avg_carbon_sq mean_carbon in
  {| vehicle_id := instance;
     mean_speed := mean_speed;
     avg_speed_sq := avg_speed_sq;
     mean_carbon := mean_carbon;
     avg_carbon_sq := avg_carbon_sq;
     count := Pathway.reducers.count g;
     latest_speed := latest_speed;
     latest_carbon := latest_carbon;
     window_time := start;
     std_speed := std_speed;
     std_carbon := std_carbon;
     speed_zscore := zscore_of latest_speed mean_speed std_speed;
     carbon_zscore := zscore_of latest_carbon mean_carbon std_carbon |}.

(** The sliding windows of the telemetry table, per vehicle. *)
Definition sliding_windows (telemetry : Pathway.Table features.Telemetry)
  : list ((string * Z) * list features.Telemetry) :=
  Pathway.windowby features.timestamp
    (Pathway.temporal.sliding config.window.window_duration_sec 60)
    features.vehicle_id telemetry.

(** The table [zscores] of [detect_zscore_anomalies]. *)
Definition zscores (telemetry : Pathway.Table features.Telemetry)
  : Pathway.Table Stats :=
  Pathway.select window_stats (sliding_windows telemetry).

Definition is_anomaly (threshold : R) (s : Stats) : bool :=
  Py.gtb (speed_zscore s) threshold || Py.gtb (carbon_zscore s) threshold.

Definition alert_of (threshold : R) (s : Stats) : Alert :=
  {| alert_vehicle_id := vehicle_id s;
     anomaly_type :=
       if Py.gtb (speed_zscore s) threshold then "speed_zscore"
       else "carbon_zscore";
     severity :=
       if Py.gtb (speed_zscore s) (threshold * (15 / 10))
          || Py.gtb (carbon_zscore s) (threshold * (15 / 10))
       then "critical" else "high";
     alert_speed_zscore := speed_zscore s;
     alert_carbon_zscore := carbon_zscore s;
     timestamp := window_time s |}.

Definition detect_zscore_anomalies
    (telemetry : Pathway.Table features.Telemetry) : Pathway.Table Alert :=
  let threshold := config.anomaly.zscore_threshold in
  Pathway.select (alert_of threshold)
    (Pathway.filter (is_anomaly threshold) (zscores telemetry)).

End zscore.

(** ** anomalies/route_deviation.py *)

Module math.
(** [math.radians], [math.atan2]; [math.sin], [math.cos] and [math.sqrt]
    are [sin], [cos] and [sqrt] of the reals. *)
Definition radians (x : R) : R := x * PI / 180.

Definition atan2 (y x : R) : R :=
  if Rlt_dec 0 x then atan (y / x)
  else if Rlt_dec x 0
  then (if Rle_dec 0 y then atan (y / x) + PI else atan (y / x) - PI)
  else if Rlt_dec 0 y then PI / 2
  else if Rlt_dec y 0 then - (PI / 2)
  else 0.
End math.

Module route_deviation.

Definition EXPECTED_ROUTES : list (string * (R * R)) :=
  [ ("V-101", (407128 / 10000, - (740060 / 10000)));
    ("V-102", (423601 / 10000, - (710589 / 10000)));
    ("V-103", (399526 / 10000, - (751652 / 10000)));
    ("V-104", (407357 / 10000, - (741724 / 10000)));
    ("V-105", (417658 / 10000, - (726734 / 10000)));
    ("V-106", (392904 / 10000, - (766122 / 10000))) ]%string.

(** [d.get(key, default)] on a dict given by its items. *)
Fixpoint get {V : Type} (d : list (string * V)) (key : string) (default : V)
  : V :=
  match d with
  | [] => default
  | (k, v) :: d' => if String.eqb k key then v else get d' key default
  end.

Definition haversine_km (lat1 lon1 lat2 lon2 : R) : R :=
  let R0 := 6371 in
  let dlat := math.radians (lat2 - lat1) in
  let dlon := math.radians (lon2 - lon1) in
  let a :=
    sin (dlat / 2) ^ 2
    + cos (math.radians lat1) * cos (math.radians lat2) * sin (dlon / 2) ^ 2
  in
  let c := 2 * math.atan2 (sqrt a) (sqrt (1 - a)) in
  R0 * c.

Definition _compute_deviation (vehicle_id : string) (lat lon : R) : R :=
  let expected :=
    get EXPECTED_ROUTES vehicle_id (407128 / 10000, - (740060 / 10000)) in
  haversine_km lat lon (fst expected) (snd expected).

Record Alert : Type := {
  vehicle_id : string;
  anomaly_type : string;
  severity : string;
  deviation_km : R;
  latitude : R;
  longitude : R;
  timestamp : Z }.

Definition route_deviation_km (r : features.Telemetry) : R :=
  _compute_deviation (features.vehicle_id r) (features.latitude r)
    (features.longitude r).

Definition alert_of (max_deviation : R) (r : features.Telemetry) : Alert :=
  {| vehicle_id := features.vehicle_id r;
     anomaly_type := "route_deviation";
     severity :=
       if Py.gtb (route_deviation_km r) (max_deviation * 3) then "critical"
       else if Py.gtb (route_deviation_km r) (max_deviation * 2) then "high"
       else "medium";
     deviation_km := route_deviation_km r;
     latitude := features.latitude r;
     longitude := features.longitude r;
     timestamp := features.timestamp r |}.

Definition detect_route_deviations
    (telemetry : Pathway.Table features.Telemetry) : Pathway.Table Alert :=
  let max_deviation := config.anomaly.route_bounds_km in
  Pathway.select (alert_of max_deviation)
    (Pathway.filter
       (fun r => Py.gtb (route_deviation_km r) max_deviation) telemetry).

End route_deviation.

(** ** services/risk_scoring.py *)

Module risk_scoring.

(** [t.groupby(vehicle_id).reduce(vehicle_id, n=count())] *)
Definition count_by_vehicle {A : Type} (vehicle_id : A -> string)
    (t : Pathway.Table A) : Pathway.Table (string * Z) :=
  map (fun kg : string * list A => (fst kg, Pathway.reducers.count (snd kg)))
    (Pathway.groupby String.eqb vehicle_id t).

Record VehicleStats : Type := {
  stats_vehicle_id : string;
  stats_avg_speed : R;
  stats_avg_efficiency : R;
  stats_avg_carbon_kg : R;
  stats_speed_var : R }.

Definition vehicle_stats (windowed : Pathway.Table windows.WindowRow)
  : Pathway.Table VehicleStats :=
  map (fun kg : string * list windows.WindowRow =>
         let g := snd kg in
         {| stats_vehicle_id := fst kg;
            stats_avg_speed :=
              Pathway.reducers.avg (map windows.avg_speed g);
            stats_avg_efficiency :=
              Pathway.reducers.avg (map windows.fuel_efficiency g);
            stats_avg_carbon_kg :=
              Pathway.reducers.avg (map windows.carbon_kg g);
            stats_speed_var :=
              Pathway.reducers.avg (map windows.speed_variance g) |})
    (Pathway.groupby String.eqb windows.vehicle_id windowed).

(** One [join_left] with a table of counts followed by its [select]: the
    left columns and the count, [0] where the vehicle has none. *)
Definition with_count {A : Type} (vehicle_id : A -> string)
    (left : Pathway.Table A) (counts : Pathway.Table (string * Z))
  : Pathway.Table (A * Z) :=
  Pathway.select
    (fun lr : A * option (string * Z) =>
       (fst lr, Pathway.coalesce (option_map snd (snd lr)) 0%Z))
    (Pathway.join_left (fun l r => String.eqb (vehicle_id l) (fst r))
       left counts).

Record RiskRow : Type := {
  vehicle_id : string;
  avg_speed : R;
  avg_efficiency : R;
  avg_carbon_kg : R;
  speed_var : R;
  threshold_alert_count : Z;
  zscore_alert_count : Z;
  route_alert_count : Z;
  total_alerts : Z;
  alert_impact : R;
  efficiency_impact : R;
  carbon_impact : R;
  status_impact : R;
  risk_score : R;
  alert_impact_pct : R;
  efficiency_impact_pct : R;
  carbon_impact_pct : R;
  status_impact_pct : R }.

(** The four lambdas of [explainable] and the one of the [_pct] columns. *)
Definition alert_impact_of (total : Z) : R :=
  Py.min 100 (Py.float total * 20).

Definition efficiency_impact_of (eff : R) : R :=
  if Py.geb eff 8 then 10
  else if Py.geb eff 6 then 25
  else if Py.geb eff 4 then 55
  else 85.

Definition carbon_impact_of (carbon : R) : R := Py.min 100 (carbon * 5).

Definition status_impact_of (route_cnt : Z) (speed_var : R) : R :=
  Py.min 100
    (Py.float route_cnt * 35 + (if Py.gtb speed_var 30 then 35 else 10)).

Definition pct_of (part risk : R) : R :=
  if Py.gtb risk 0 then part / risk * 100 else 0.

(** [explainable] and [scores]: the columns computed from one joined row. *)
Definition score_row (row : ((VehicleStats * Z) * Z) * Z) : RiskRow :=
  let '(((s, threshold_alert_count), zscore_alert_count),
        route_alert_count) := row in
  let total_alerts :=
    (threshold_alert_count + zscore_alert_count + route_alert_count)%Z in
  let alert_impact := alert_impact_of total_alerts in
  let efficiency_impact := efficiency_impact_of (stats_avg_efficiency s) in
  let carbon_impact := carbon_impact_of (stats_avg_carbon_kg s) in
  let status_impact :=
    status_impact_of route_alert_count (stats_speed_var s) in
  let risk_score :=
    35 / 100 * alert_impact
    + 25 / 100 * efficiency_impact
    + 25 / 100 * carbon_impact
    + 15 / 100 * status_impact in
  {| vehicle_id := stats_vehicle_id s;
     avg_speed := stats_avg_speed s;
     avg_efficiency := stats_avg_efficiency s;
     avg_carbon_kg := stats_avg_carbon_kg s;
     speed_var := stats_speed_var s;
     threshold_alert_count := threshold_alert_count;
     zscore_alert_count := zscore_alert_count;
     route_alert_count := route_alert_count;
     total_alerts := total_alerts;
     alert_impact := alert_impact;
     efficiency_impact := efficiency_impact;
     carbon_impact := carbon_impact;
     status_impact := status_impact;
     risk_score := risk_score;
     alert_impact_pct := pct_of (35 / 100 * alert_impact) risk_score;
     efficiency_impact_pct :=
       pct_of (25 / 100 * efficiency_impact) risk_score;
     carbon_impact_pct := pct_of (25 / 100 * carbon_impact) risk_score;
     status_impact_pct := pct_of (15 / 100 * status_impact) risk_score |}.

Definition compute_risk_scores
    (windowed : Pathway.Table windows.WindowRow)
    (threshold_alerts : Pathway.Table threshold.Alert)
    (zscore_alerts : Pathway.Table zscore.Alert)
    (route_alerts : Pathway.Table route_deviation.Alert)
  : Pathway.Table RiskRow :=
  let threshold_counts :=
    count_by_vehicle threshold.vehicle_id threshold_alerts in
  let zscore_counts :=
    count_by_vehicle zscore.alert_vehicle_id zscore_alerts in
  let route_counts :=
    count_by_vehicle route_deviation.vehicle_id route_alerts in
  let with_threshold :=
    with_count stats_vehicle_id (vehicle_stats windowed) threshold_counts in
  let with_zscore :=
    with_count (fun r => stats_vehicle_id (fst r))
      with_threshold zscore_counts in
  let with_all_alerts :=
    with_count (fun r => stats_vehicle_id (fst (fst r)))
      with_zscore route_counts in
  Pathway.select score_row with_all_alerts.

End risk_scoring.

(** ** state_machine/vehicle_state.py: the classifier *)

Module vehicle_state.

Definition STATE_NORMAL : string := "NORMAL".
Definition STATE_EFFICIENT : string := "EFFICIENT".
Definition STATE_HIGH_EMISSION : string := "HIGH_EMISSION".
Definition STATE_ROUTE_DEVIATION : string := "ROUTE_DEVIATION".
Definition STATE_IDLE : string := "IDLE".
Definition STATE_CRITICAL_RISK : string := "CRITICAL_RISK".

Definition EMISSION_THRESHOLD_KG : R := 15.
Definition EFFICIENCY_GOOD_THRESHOLD : R := 7.
Definition IDLE_SPEED_KMH : R := 5.
Definition CRITICAL_RISK_SCORE : R := 80.
Definition CRITICAL_ALERT_COUNT : Z := 3.

Definition _determine_state
    (carbon_kg avg_speed fuel_efficiency risk_score : R)
    (alert_count route_deviation : Z) : string :=
  if Py.gtb risk_score CRITICAL_RISK_SCORE
     || (alert_count >=? CRITICAL_ALERT_COUNT)%Z
  then STATE_CRITICAL_RISK
  else if (route_deviation =? 1)%Z then STATE_ROUTE_DEVIATION
  else if Py.gtb carbon_kg EMISSION_THRESHOLD_KG then STATE_HIGH_EMISSION
  else if Py.ltb avg_speed IDLE_SPEED_KMH then STATE_IDLE
  else if Py.gtb fuel_efficiency EFFICIENCY_GOOD_THRESHOLD
          && (alert_count =? 0)%Z
  then STATE_EFFICIENT
  else STATE_NORMAL.

(** [mapping.get(state, "low")] *)
Definition _state_to_risk_level (state : string) : string :=
  route_deviation.get
    [ (STATE_CRITICAL_RISK, "critical");
      (STATE_HIGH_EMISSION, "high");
      (STATE_ROUTE_DEVIATION, "high");
      (STATE_IDLE, "medium");
      (STATE_NORMAL, "low");
      (STATE_EFFICIENT, "minimal") ]%string
    state "low"%string.

(** A row of the vehicle state table.  The column [transition_reason] is
    text formatted from floats and is left out. *)
Record StateRow : Type := {
  vehicle_id : string;
  current_state : string;
  previous_state : string;
  risk_level : string;
  risk_score : R }.

(** The tables [with_risk] and [combined] of [compute_vehicle_states]. *)
Record WithRisk : Type := {
  wr_vehicle_id : string;
  wr_avg_carbon_kg : R;
  wr_avg_speed : R;
  wr_avg_efficiency : R;
  wr_alert_count : Z;
  wr_risk_score : R }.

Record Combined : Type := {
  c_vehicle_id : string;
  avg_carbon_kg : R;
  avg_speed : R;
  avg_efficiency : R;
  alert_count : Z;
  c_risk_score : R;
  route_deviation : Z }.

Definition with_risk (windowed : Pathway.Table windows.WindowRow)
    (risk_scores : Pathway.Table risk_scoring.RiskRow)
  : Pathway.Table WithRisk :=
  Pathway.select
    (fun lr : windows.WindowRow * option risk_scoring.RiskRow =>
       let (left, right) := lr in
       {| wr_vehicle_id := windows.vehicle_id left;
          wr_avg_carbon_kg := windows.carbon_kg left;
          wr_avg_speed := windows.avg_speed left;
          wr_avg_efficiency := windows.fuel_efficiency left;
          wr_alert_count :=
            Pathway.coalesce (option_map risk_scoring.total_alerts right) 0%Z;
          wr_risk_score :=
            Pathway.coalesce (option_map risk_scoring.risk_score right) 0 |})
    (Pathway.join_left
       (fun l r =>
          String.eqb (windows.vehicle_id l) (risk_scoring.vehicle_id r))
       windowed risk_scores).

(** [route_flag]: the number of route alerts of each vehicle that has
    some. *)
Definition route_flag (route_alerts : Pathway.Table route_deviation.Alert)
  : Pathway.Table (string * Z) :=
  risk_scoring.count_by_vehicle route_deviation.vehicle_id route_alerts.

Definition combined (windowed : Pathway.Table windows.WindowRow)
    (risk_scores : Pathway.Table risk_scoring.RiskRow)
    (route_alerts : Pathway.Table route_deviation.Alert)
  : Pathway.Table Combined :=
  Pathway.select
    (fun lr : WithRisk * option (string * Z) =>
       let (left, right) := lr in
       {| c_vehicle_id := wr_vehicle_id left;
          avg_carbon_kg := wr_avg_carbon_kg left;
          avg_speed := wr_avg_speed left;
          avg_efficiency := wr_avg_efficiency left;
          alert_count := wr_alert_count left;
          c_risk_score := wr_risk_score left;
          route_deviation := Pathway.coalesce (option_map snd right) 0%Z |})
    (Pathway.join_left
       (fun l r => String.eqb (wr_vehicle_id l) (fst r))
       (with_risk windowed risk_scores) (route_flag route_alerts)).

Definition state_row (c : Combined) : StateRow :=
  let current_state :=
    _determine_state (avg_carbon_kg c) (avg_speed c) (avg_efficiency c)
      (c_risk_score c) (alert_count c) (route_deviation c) in
  {| vehicle_id := c_vehicle_id c;
     current_state := current_state;
     previous_state := STATE_NORMAL;
     risk_level := _state_to_risk_level current_state;
     risk_score := c_risk_score c |}.

Definition compute_vehicle_states
    (windowed : Pathway.Table windows.WindowRow)
    (risk_scores : Pathway.Table risk_scoring.RiskRow)
    (route_alerts : Pathway.Table route_deviation.Alert)
  : Pathway.Table StateRow :=
  Pathway.select state_row (combined windowed risk_scores route_alerts).

(** A row of the history table; its text column [reason] is left out. *)
Record StateTransitionRecord : Type := {
  h_vehicle_id : string;
  state : string;
  h_risk_level : string }.

Definition compute_state_history (vehicle_states : Pathway.Table StateRow)
  : Pathway.Table StateTransitionRecord :=
  Pathway.select
    (fun r =>
       {| h_vehicle_id := vehicle_id r;
          state := current_state r;
          h_risk_level := risk_level r |})
    vehicle_states.

End vehicle_state.

(** ** forecasting/predictor.py *)

Module predictor.

Definition _fuel_exhaustion_minutes
    (avg_fuel_consumed avg_efficiency avg_speed : R) : R :=
  let window_minutes := 5 in
  let fuel_rate_per_min := avg_fuel_consumed / window_minutes in
  if Py.ltb fuel_rate_per_min (1 / 100) then - 1
  else
    let typical_remaining_litres := 40 in
    let critical_threshold_litres := 10 in
    let usable_fuel := typical_remaining_litres - critical_threshold_litres in
    let minutes_remaining := usable_fuel / fuel_rate_per_min in
    Py.round (Py.max 0 minutes_remaining) 1.

Definition _predict_carbon_10min
    (avg_carbon_kg avg_efficiency avg_speed : R) : R :=
  let window_minutes := 5 in
  let carbon_rate_per_min := avg_carbon_kg / window_minutes in
  let speed_factor := 1 + Py.max (avg_speed - 60) 0 / 100 in
  let efficiency_penalty := Py.max 0 ((5 - avg_efficiency) / 5) in
  let adjusted_rate :=
    carbon_rate_per_min * speed_factor
    * (1 + efficiency_penalty * (3 / 10)) in
  let predicted := avg_carbon_kg + adjusted_rate * 10 in
  Py.round (Py.max 0 (Py.min 200 predicted)) 2.

Definition _predict_risk_score (current_risk : R) (alert_count : Z)
    (avg_carbon_kg avg_speed : R) : R :=
  let risk_trend_contribution := current_risk * (55 / 100) in
  let alert_contribution := Py.min (Py.float alert_count * 8) 30 in
  let carbon_contribution := Py.min (avg_carbon_kg * (5 / 10)) 20 in
  let speed_contribution := Py.max 0 ((avg_speed - 90) * (25 / 100)) in
  let raw :=
    risk_trend_contribution + alert_contribution + carbon_contribution
    + speed_contribution in
  let predicted := Py.min 100 (Py.max 0 raw) in
  Py.round predicted 1.

Definition _risk_escalation_probability (current_risk predicted_risk : R)
    (alert_count : Z) : R :=
  let delta_risk := predicted_risk - current_risk in
  let alert_pressure := Z.min (alert_count * 5) 25 in
  let combined := delta_risk + Py.float alert_pressure in
  let k := 8 / 100 in
  let prob := 1 / (1 + exp (- k * combined)) in
  Py.round prob 3.

Record Prediction : Type := {
  vehicle_id : string;
  predicted_carbon_10min : R;
  predicted_risk_score : R;
  risk_escalation_probability : R;
  fuel_exhaustion_minutes : R }.

(** The table [base] of [compute_predictions]. *)
Record Base : Type := {
  b_vehicle_id : string;
  avg_carbon_kg : R;
  avg_efficiency : R;
  avg_speed : R;
  avg_fuel_consumed : R;
  alert_count : Z;
  risk_score : R }.

Definition base (windowed : Pathway.Table windows.WindowRow)
    (risk_scores : Pathway.Table risk_scoring.RiskRow)
  : Pathway.Table Base :=
  Pathway.select
    (fun lr : windows.WindowRow * option risk_scoring.RiskRow =>
       let (left, right) := lr in
       {| b_vehicle_id := windows.vehicle_id left;
          avg_carbon_kg := windows.carbon_kg left;
          avg_efficiency := windows.fuel_efficiency left;
          avg_speed := windows.avg_speed left;
          avg_fuel_consumed := windows.total_fuel left;
          alert_count :=
            Pathway.coalesce (option_map risk_scoring.total_alerts right) 0%Z;
          risk_score :=
            Pathway.coalesce (option_map risk_scoring.risk_score right) 0 |})
    (Pathway.join_left
       (fun l r =>
          String.eqb (windows.vehicle_id l) (risk_scoring.vehicle_id r))
       windowed risk_scores).

Definition predict (b : Base) : Prediction :=
  let predicted_risk_score :=
    _predict_risk_score (risk_score b) (alert_count b) (avg_carbon_kg b)
      (avg_speed b) in
  {| vehicle_id := b_vehicle_id b;
     predicted_carbon_10min :=
       _predict_carbon_10min (avg_carbon_kg b) (avg_efficiency b)
         (avg_speed b);
     predicted_risk_score := predicted_risk_score;
     risk_escalation_probability :=
       _risk_escalation_probability (risk_score b) predicted_risk_score
         (alert_count b);
     fuel_exhaustion_minutes :=
       _fuel_exhaustion_minutes (avg_fuel_consumed b) (avg_efficiency b)
         (avg_speed b) |}.

Definition compute_predictions (windowed : Pathway.Table windows.WindowRow)
    (risk_scores : Pathway.Table risk_scoring.RiskRow)
  : Pathway.Table Prediction :=
  Pathway.select predict (base windowed risk_scores).

End predictor.



(** ** features/derived.py *)

Module derived.

Record MicroWindow : Type := {
  vehicle_id : string;
  max_speed : R;
  min_speed : R;
  window_time : Z;
  speed_delta : R;
  is_acceleration_spike : bool }.

Definition detect_acceleration_spikes
    (telemetry : Pathway.Table features.Telemetry)
  : Pathway.Table MicroWindow :=
  let threshold := config.anomaly.max_acceleration_kmh_per_sec in
  Pathway.select
    (fun w : (string * Z) * list features.Telemetry =>
       let max_speed := Pathway.reducers.max (map features.speed (snd w)) in
       let min_speed := Pathway.reducers.min (map features.speed (snd w)) in
       {| vehicle_id := fst (fst w);
          max_speed := max_speed;
          min_speed := min_speed;
          window_time := snd (fst w);
          speed_delta := max_speed - min_speed;
          is_acceleration_spike := Py.gtb (max_speed - min_speed) threshold |})
    (Pathway.windowby features.timestamp (Pathway.temporal.tumbling 10)
       features.vehicle_id telemetry).

Record IdleCheck : Type := {
  idle_vehicle_id : string;
  avg_speed : R;
  data_points : Z;
  idle_window_time : Z;
  is_idle : bool }.

Definition detect_idle_vehicles (telemetry : Pathway.Table features.Telemetry)
  : Pathway.Table IdleCheck :=
  let idle_threshold := config.anomaly.max_idle_duration_sec in
  Pathway.select
    (fun w : (string * Z) * list features.Telemetry =>
       let avg_speed := Pathway.reducers.avg (map features.speed (snd w)) in
       let data_points := Pathway.reducers.count (snd w) in
       {| idle_vehicle_id := fst (fst w);
          avg_speed := avg_speed;
          data_points := data_points;
          idle_window_time := snd (fst w);
          is_idle := Py.ltb avg_speed 5 && (data_points >=? 3)%Z |})
    (Pathway.windowby features.timestamp
       (Pathway.temporal.tumbling idle_threshold)
       features.vehicle_id telemetry).

(** [detect_fuel_drops]: each telemetry row with its flag. *)
Definition detect_fuel_drops (telemetry : Pathway.Table features.Telemetry)
  : Pathway.Table (features.Telemetry * bool) :=
  let threshold := config.anomaly.fuel_drop_threshold_liters in
  Pathway.select
    (fun r => (r, Py.gtb (features.fuel_liters r) threshold)) telemetry.

End derived.

(** ** services/sustainability.py *)

Module sustainability.

Definition _compute_score (carbon_per_km efficiency avg_speed : R) : R :=
  let carbon_score :=
    Py.max 0 (Py.min 100 ((5 - carbon_per_km) / (45 / 10) * 100)) in
  let fuel_score := Py.max 0 (Py.min 100 ((efficiency - 2) / 8 * 100)) in
  let speed_deviation := Py.abs (avg_speed - 80) in
  let speed_score :=
    Py.max 0 (Py.min 100 ((40 - speed_deviation) / 40 * 100)) in
  carbon_score * (35 / 100) + fuel_score * (35 / 100)
  + speed_score * (30 / 100).

Definition _compute_grade (score : R) : string :=
  if Py.geb score 90 then "A+"
  else if Py.geb score 80 then "A"
  else if Py.geb score 70 then "B"
  else if Py.geb score 60 then "C"
  else if Py.geb score 50 then "D"
  else "F".

Record Score : Type := {
  vehicle_id : string;
  avg_carbon_per_km : R;
  avg_efficiency : R;
  avg_speed : R;
  total_carbon : R;
  total_distance : R;
  sustainability_score : R;
  grade : string }.

Definition score_of (kg : string * list windows.WindowRow) : Score :=
  let g := snd kg in
  let avg_carbon_per_km :=
    (fun carbon dist => carbon / Py.max dist (1 / 10))
      (Pathway.reducers.sum (map windows.carbon_kg g))
      (Pathway.reducers.sum (map windows.total_distance g)) in
  let avg_efficiency :=
    Pathway.reducers.avg (map windows.fuel_efficiency g) in
  let avg_speed := Pathway.reducers.avg (map windows.avg_speed g) in
  {| vehicle_id := fst kg;
     avg_carbon_per_km := avg_carbon_per_km;
     avg_efficiency := avg_efficiency;
     avg_speed := avg_speed;
     total_carbon := Pathway.reducers.sum (map windows.carbon_kg g);
     total_distance := Pathway.reducers.sum (map windows.total_distance g);
     sustainability_score :=
       _compute_score avg_carbon_per_km avg_efficiency avg_speed;
     grade :=
       _compute_grade
         (_compute_score avg_carbon_per_km avg_efficiency avg_speed) |}.

Definition compute_sustainability_scores
    (windowed : Pathway.Table windows.WindowRow) : Pathway.Table Score :=
  map score_of (Pathway.groupby String.eqb windows.vehicle_id windowed).

End sustainability.

(** ** services/ranking.py *)

Module ranking.



End ranking.

(** ** services/leaderboard.py *)

Module leaderboard.

Record Entry : Type := {
  vehicle_id : string;
  total_carbon_kg : R;
  total_distance_km : R;
  avg_efficiency : R;
  windows_counted : Z;
  carbon_per_km : R }.

Definition compute_carbon_leaderboard
    (windowed : Pathway.Table windows.WindowRow) : Pathway.Table Entry :=
  map (fun kg : string * list windows.WindowRow =>
         let g := snd kg in
         let total_carbon_kg :=
           Pathway.reducers.sum (map windows.carbon_kg g) in
         let total_distance_km :=
           Pathway.reducers.sum (map windows.total_distance g) in
         {| vehicle_id := fst kg;
            total_carbon_kg := total_carbon_kg;
            total_distance_km := total_distance_km;
            avg_efficiency :=
              Pathway.reducers.avg (map windows.fuel_efficiency g);
            windows_counted := Pathway.reducers.count g;
            carbon_per_km :=
              if Py.gtb total_distance_km 0
              then total_carbon_kg / total_distance_km else 0 |})
    (Pathway.groupby String.eqb windows.vehicle_id windowed).

End leaderboard.

(** ** reporting/fleet_report.py

    The column [executive_summary], text formatted from floats, is left
    out. *)

Module fleet_report.

(** [lambda alerts: "critical" if alerts > 10 else "degraded" if alerts > 5
    else "healthy"] *)
Definition fleet_health_of (alerts : Z) : string :=
  if (alerts >? 10)%Z then "critical"
  else if (alerts >? 5)%Z then "degraded"
  else "healthy".

Record WithRisk : Type := {
  wr_vehicle_id : string;
  wr_avg_carbon_kg : R;
  wr_avg_efficiency : R;
  wr_alert_count : Z;
  wr_risk_score : R }.

Record WithSustainability : Type := {
  ws_vehicle_id : string;
  ws_avg_carbon_kg : R;
  ws_avg_efficiency : R;
  ws_alert_count : Z;
  ws_risk_score : R;
  ws_sustainability_score : R }.

Record FleetAgg : Type := {
  vehicle_id : string;
  agg_total_carbon : R;
  alert_count : Z;
  agg_avg_risk : R;
  agg_avg_sustainability : R;
  max_carbon_vehicle : string }.

Record Report : Type := {
  total_carbon : R;
  active_vehicles : Z;
  total_alerts : Z;
  avg_risk : R;
  avg_sustainability : R;
  fleet_health : string }.

Definition with_risk (windowed : Pathway.Table windows.WindowRow)
    (risk_scores : Pathway.Table risk_scoring.RiskRow)
  : Pathway.Table WithRisk :=
  Pathway.select
    (fun lr : windows.WindowRow * option risk_scoring.RiskRow =>
       let (left, right) := lr in
       {| wr_vehicle_id := windows.vehicle_id left;
          wr_avg_carbon_kg := windows.carbon_kg left;
          wr_avg_efficiency := windows.fuel_efficiency left;
          wr_alert_count :=
            Pathway.coalesce (option_map risk_scoring.total_alerts right) 0%Z;
          wr_risk_score :=
            Pathway.coalesce (option_map risk_scoring.risk_score right) 0 |})
    (Pathway.join_left
       (fun l r =>
          String.eqb (windows.vehicle_id l) (risk_scoring.vehicle_id r))
       windowed risk_scores).

Definition with_sustainability (wr : Pathway.Table WithRisk)
    (sustainability : Pathway.Table sustainability.Score)
  : Pathway.Table WithSustainability :=
  Pathway.select
    (fun lr : WithRisk * option sustainability.Score =>
       let (left, right) := lr in
       {| ws_vehicle_id := wr_vehicle_id left;
          ws_avg_carbon_kg := wr_avg_carbon_kg left;
          ws_avg_efficiency := wr_avg_efficiency left;
          ws_alert_count := wr_alert_count left;
          ws_risk_score := wr_risk_score left;
          ws_sustainability_score :=
            Pathway.coalesce
              (option_map sustainability.sustainability_score right) 50 |})
    (Pathway.join_left
       (fun l r =>
          String.eqb (wr_vehicle_id l) (sustainability.vehicle_id r))
       wr sustainability).

Definition fleet_agg (ws : Pathway.Table WithSustainability)
  : Pathway.Table FleetAgg :=
  map (fun kg : string * list WithSustainability =>
         let g := snd kg in
         {| vehicle_id := fst kg;
            agg_total_carbon :=
              Pathway.reducers.sum (map ws_avg_carbon_kg g);
            alert_count := Pathway.reducers.sum_int (map ws_alert_count g);
            agg_avg_risk := Pathway.reducers.avg (map ws_risk_score g);
            agg_avg_sustainability :=
              Pathway.reducers.avg (map ws_sustainability_score g);
            max_carbon_vehicle := fst kg |})
    (Pathway.groupby String.eqb ws_vehicle_id ws).

(** [fleet_agg.reduce(..)]: the reduction of the whole table to one row;
    a table without rows has no group to reduce. *)
Definition fleet_summary (agg : Pathway.Table FleetAgg)
  : Pathway.Table Report :=
  match agg with
  | [] => []
  | _ :: _ =>
      let total_alerts := Pathway.reducers.sum_int (map alert_count agg) in
      [ {| total_carbon := Pathway.reducers.sum (map agg_total_carbon agg);
           active_vehicles := Pathway.reducers.count agg;
           total_alerts := total_alerts;
           avg_risk := Pathway.reducers.avg (map agg_avg_risk agg);
           avg_sustainability :=
             Pathway.reducers.avg (map agg_avg_sustainability agg);
           fleet_health := fleet_health_of total_alerts |} ]
  end.

(** [latest_report] and [report_history] hold the same rows. *)
Definition compute_fleet_reports {A : Type}
    (windowed : Pathway.Table windows.WindowRow)
    (all_alerts : Pathway.Table A)
    (risk_scores : Pathway.Table risk_scoring.RiskRow)
    (sustainability : Pathway.Table sustainability.Score)
  : Pathway.Table Report * Pathway.Table Report :=
  let reports :=
    fleet_summary
      (fleet_agg
         (with_sustainability (with_risk windowed risk_scores)
            sustainability)) in
  (reports, Pathway.select (fun r => r) reports).

End fleet_report.

(** ** Reference definitions and scenarios

    Definitions the properties are stated with.  They are not part of the
    program: [join_spec] and [history_spec] say what the docstrings of
    [join_gps_fuel] and [compute_state_history] describe, [runs] what a
    sequence of evaluations of the pipeline is, [scenarios] holds concrete
    tables. *)

Module join_spec.

(** The match the docstring of [join_gps_fuel] describes: among the fuel
    events of the vehicle within 30 s of a GPS event, the one nearest in
    time, the earliest on a tie. *)
Definition in_tolerance (g : gps_stream.GPSRow) (f : fuel_stream.FuelRow)
  : bool :=
  String.eqb (gps_stream.vehicle_id g) (fuel_stream.vehicle_id f)
  && (Z.abs (fuel_stream.parsed_time f - gps_stream.parsed_time g) <=? 30)%Z.

Definition closer (g : gps_stream.GPSRow) (f f' : fuel_stream.FuelRow)
  : bool :=
  let d := Z.abs (fuel_stream.parsed_time f - gps_stream.parsed_time g) in
  let d' := Z.abs (fuel_stream.parsed_time f' - gps_stream.parsed_time g) in
  (d <? d')%Z
  || ((d =? d')%Z
      && (fuel_stream.parsed_time f <? fuel_stream.parsed_time f')%Z).

Fixpoint nearest_of (g : gps_stream.GPSRow) (best : fuel_stream.FuelRow)
    (fs : list fuel_stream.FuelRow) : fuel_stream.FuelRow :=
  match fs with
  | [] => best
  | f :: fs' => nearest_of g (if closer g f best then f else best) fs'
  end.

Definition nearest_fuel (g : gps_stream.GPSRow)
    (fuel : list fuel_stream.FuelRow) : option fuel_stream.FuelRow :=
  match List.filter (in_tolerance g) fuel with
  | [] => None
  | f :: fs => Some (nearest_of g f fs)
  end.

End join_spec.

Module runs.

(** The tables one evaluation of the state machine reads. *)
Record Inputs : Type := {
  windowed : Pathway.Table windows.WindowRow;
  risk_scores : Pathway.Table risk_scoring.RiskRow;
  route_alerts : Pathway.Table route_deviation.Alert }.

(** One classification run. *)
Definition run (i : Inputs) : Pathway.Table vehicle_state.StateRow :=
  vehicle_state.compute_vehicle_states
    (windowed i) (risk_scores i) (route_alerts i).

(** The state a run computed for a vehicle, if it has a row. *)
Definition state_of (v : string) (t : Pathway.Table vehicle_state.StateRow)
  : option string :=
  option_map vehicle_state.current_state
    (find (fun r => String.eqb (vehicle_state.vehicle_id r) v) t).

(** [previous_state] tracks the preceding run: every row of the later run
    carries, as [previous_state], the [current_state] the earlier run
    computed for the same vehicle. *)
Definition tracks_previous
    (before after : Pathway.Table vehicle_state.StateRow) : Prop :=
  forall p r,
    In p before -> In r after ->
    vehicle_state.vehicle_id p = vehicle_state.vehicle_id r ->
    vehicle_state.previous_state r = vehicle_state.current_state p.

(** The state history table once the inputs went through the given
    evaluations: a Pathway table is a function of the current content of
    the tables it is computed from. *)
Definition history_after (rs : list Inputs)
  : Pathway.Table vehicle_state.StateTransitionRecord :=
  match rev rs with
  | [] => []
  | i :: _ => vehicle_state.compute_state_history (run i)
  end.

Definition records_of (v : string)
    (h : Pathway.Table vehicle_state.StateTransitionRecord)
  : list vehicle_state.StateTransitionRecord :=
  List.filter (fun r => String.eqb (vehicle_state.h_vehicle_id r) v) h.

End runs.

Module history_spec.

(** The number of changes along a sequence of computed states, starting
    from the state [prev]. *)
Fixpoint state_changes (prev : string) (states : list string) : nat :=
  match states with
  | [] => 0
  | s :: rest =>
      ((if String.eqb s prev then 0 else 1) + state_changes s rest)%nat
  end.

(** The states the runs computed for a vehicle, oldest first. *)
Definition states_of (v : string) (rs : list runs.Inputs) : list string :=
  flat_map
    (fun i =>
       match runs.state_of v (runs.run i) with
       | Some s => [s]
       | None => []
       end) rs.

End history_spec.

Module classifier_spec.
Import vehicle_state.

Definition all_states : list string :=
  [STATE_CRITICAL_RISK; STATE_ROUTE_DEVIATION; STATE_HIGH_EMISSION;
   STATE_IDLE; STATE_EFFICIENT; STATE_NORMAL].

End classifier_spec.

Module counting.

(** The number of rows of a table that belong to a vehicle. *)
Definition rows_of {A : Type} (vehicle_id : A -> string)
    (t : Pathway.Table A) (v : string) : Z :=
  Z.of_nat
    (List.length (List.filter (fun a => String.eqb (vehicle_id a) v) t)).

End counting.

Module scenarios.

Definition gps1 : gps_stream.GPSRow :=
  {| gps_stream.vehicle_id := "V-101";
     gps_stream.latitude := 407128 / 10000;
     gps_stream.longitude := - (740060 / 10000);
     gps_stream.speed := 50;
     gps_stream.parsed_time := 100 |}.

Definition fuel_far : fuel_stream.FuelRow :=
  {| fuel_stream.vehicle_id := "V-101";
     fuel_stream.fuel_liters := 1;
     fuel_stream.distance_km := 8;
     fuel_stream.fuel_type := "diesel";
     fuel_stream.parsed_time := 90 |}.

Definition fuel_near : fuel_stream.FuelRow :=
  {| fuel_stream.vehicle_id := "V-101";
     fuel_stream.fuel_liters := 2;
     fuel_stream.distance_km := 9;
     fuel_stream.fuel_type := "diesel";
     fuel_stream.parsed_time := 105 |}.

Definition telemetry1 : features.Telemetry :=
  {| features.vehicle_id := "V-101";
     features.latitude := 407128 / 10000;
     features.longitude := - (740060 / 10000);
     features.speed := 50;
     features.fuel_liters := 2;
     features.distance_km := 9;
     features.fuel_type := "diesel";
     features.timestamp := 100;
     features.carbon_kg := 536 / 100;
     features.fuel_efficiency := 45 / 10 |}.

Definition telemetry2 : features.Telemetry :=
  {| features.vehicle_id := "V-101";
     features.latitude := 407128 / 10000;
     features.longitude := - (740060 / 10000);
     features.speed := 70;
     features.fuel_liters := 1;
     features.distance_km := 8;
     features.fuel_type := "diesel";
     features.timestamp := 160;
     features.carbon_kg := 268 / 100;
     features.fuel_efficiency := 8 |}.

(** The statistics of the sliding window of V-101 starting at second 60,
    which holds [telemetry1] alone. *)
Definition stats1 : zscore.Stats :=
  zscore.window_stats (("V-101"%string, 60%Z), [telemetry1]).

(** A tumbling-window snapshot of V-101 that consumed [fuel] litres at
    5 km per litre. *)
Definition window_of (fuel : R) : windows.WindowRow :=
  {| windows.vehicle_id := "V-101";
     windows.window_start := 0;
     windows.window_end := 300;
     windows.avg_speed := 50;
     windows.max_speed := 60;
     windows.min_speed := 40;
     windows.total_fuel := fuel;
     windows.total_distance := 5 * fuel;
     windows.data_points := 10;
     windows.carbon_kg := fuel * (268 / 100);
     windows.fuel_efficiency := 5;
     windows.speed_variance := 20 |}.

(** The row of the risk table for the snapshot of 4 litres and no alert. *)
Definition vehicle_stats1 : risk_scoring.VehicleStats :=
  {| risk_scoring.stats_vehicle_id := "V-101";
     risk_scoring.stats_avg_speed := Pathway.reducers.avg [50];
     risk_scoring.stats_avg_efficiency := Pathway.reducers.avg [5];
     risk_scoring.stats_avg_carbon_kg :=
       Pathway.reducers.avg [4 * (268 / 100)];
     risk_scoring.stats_speed_var := Pathway.reducers.avg [20] |}.

Definition risk1 : risk_scoring.RiskRow :=
  risk_scoring.score_row (((vehicle_stats1, 0%Z), 0%Z), 0%Z).

(** A route alert of V-101, some 7 km north of its reference point. *)
Definition route_alert1 : route_deviation.Alert :=
  {| route_deviation.vehicle_id := "V-101";
     route_deviation.anomaly_type := "route_deviation";
     route_deviation.severity := "medium";
     route_deviation.deviation_km :=
       route_deviation._compute_deviation "V-101"
         (407757 / 10000) (- (740060 / 10000));
     route_deviation.latitude := 407757 / 10000;
     route_deviation.longitude := - (740060 / 10000);
     route_deviation.timestamp := 200 |}.

(** The telemetry record that raises it. *)
Definition telemetry_off_route : features.Telemetry :=
  {| features.vehicle_id := "V-101";
     features.latitude := 407757 / 10000;
     features.longitude := - (740060 / 10000);
     features.speed := 60;
     features.fuel_liters := 1;
     features.distance_km := 7;
     features.fuel_type := "diesel";
     features.timestamp := 200;
     features.carbon_kg := 268 / 100;
     features.fuel_efficiency := 7 |}.

(** The tables the state machine reads when the window table and the route
    alerts are the given ones and there is no other alert. *)
Definition inputs_of (windowed : Pathway.Table windows.WindowRow)
    (route_alerts : Pathway.Table route_deviation.Alert) : runs.Inputs :=
  {| runs.windowed := windowed;
     runs.risk_scores :=
       risk_scoring.compute_risk_scores windowed [] [] route_alerts;
     runs.route_alerts := route_alerts |}.

(** V-101 has burnt 4 litres, 10.72 kg of carbon: NORMAL. *)
Definition quiet : runs.Inputs := inputs_of [window_of 4] [].

(** The same window later, at 8 litres, 21.44 kg: HIGH_EMISSION. *)
Definition hot : runs.Inputs := inputs_of [window_of 8] [].

(** Then a route alert arrives: ROUTE_DEVIATION. *)
Definition deviated : runs.Inputs := inputs_of [window_of 8] [route_alert1].

(** The rows of the state table the three inputs give. *)
Definition quiet_row : vehicle_state.StateRow :=
  {| vehicle_state.vehicle_id := "V-101";
     vehicle_state.current_state := vehicle_state.STATE_NORMAL;
     vehicle_state.previous_state := vehicle_state.STATE_NORMAL;
     vehicle_state.risk_level := "low";
     vehicle_state.risk_score := 2865 / 100 |}.

Definition hot_row : vehicle_state.StateRow :=
  {| vehicle_state.vehicle_id := "V-101";
     vehicle_state.current_state := vehicle_state.STATE_HIGH_EMISSION;
     vehicle_state.previous_state := vehicle_state.STATE_NORMAL;
     vehicle_state.risk_level := "high";
     vehicle_state.risk_score := 4025 / 100 |}.

Definition deviated_row : vehicle_state.StateRow :=
  {| vehicle_state.vehicle_id := "V-101";
     vehicle_state.current_state := vehicle_state.STATE_ROUTE_DEVIATION;
     vehicle_state.previous_state := vehicle_state.STATE_NORMAL;
     vehicle_state.risk_level := "high";
     vehicle_state.risk_score := 525 / 10 |}.

End scenarios.

(** * Properties *)

(** ** Python comparisons decide the order of [R] *)

Lemma ltb_spec (a b : R) : reflect (a < b) (Py.ltb a b).
Proof. unfold Py.ltb; destruct (Rlt_dec a b); constructor; assumption. Qed.

Lemma leb_spec (a b : R) : reflect (a <= b) (Py.leb a b).
Proof. unfold Py.leb; destruct (Rle_dec a b); constructor; assumption. Qed.

Lemma gtb_spec (a b : R) : reflect (a > b) (Py.gtb a b).
Proof. unfold Py.gtb, Rgt; apply ltb_spec. Qed.

Lemma geb_spec (a b : R) : reflect (a >= b) (Py.geb a b).
Proof.
  unfold Py.geb; destruct (leb_spec b a); constructor; lra.
Qed.

Lemma py_min_Rmin (a b : R) : Py.min a b = Rmin a b.
Proof.
  unfold Py.min, Rmin; destruct (Rlt_dec b a), (Rle_dec a b); lra.
Qed.

Lemma py_max_Rmax (a b : R) : Py.max a b = Rmax a b.
Proof.
  unfold Py.max, Rmax; destruct (Rlt_dec a b), (Rle_dec a b); lra.
Qed.

Lemma py_abs_Rabs (x : R) : Py.abs x = Rabs x.
Proof. unfold Py.abs, Rabs; destruct (Rlt_dec x 0), (Rcase_abs x); lra. Qed.

(** ** The state classifier *)

Section Classifier.
Import vehicle_state classifier_spec.

Lemma all_states_distinct : NoDup all_states.
Proof.
  unfold all_states.
  repeat (constructor; [ simpl; intuition discriminate | ]).
  constructor.
Qed.

Ltac classify :=
  unfold _determine_state, CRITICAL_RISK_SCORE, CRITICAL_ALERT_COUNT,
    EMISSION_THRESHOLD_KG, IDLE_SPEED_KMH, EFFICIENCY_GOOD_THRESHOLD;
  repeat match goal with
    | |- context [Py.gtb ?a ?b] => destruct (gtb_spec a b)
    | |- context [Py.ltb ?a ?b] => destruct (ltb_spec a b)
    | |- context [(?a >=? ?b)%Z] => destruct (Z.geb_spec a b)
    | |- context [(?a =? ?b)%Z] => destruct (Z.eqb_spec a b)
    end; simpl.

(** C2.  [_determine_state] returns, on every input, one of the six
    (pairwise distinct) states, and the state it returns is that of the first
    rule that holds in the order CRITICAL_RISK, ROUTE_DEVIATION,
    HIGH_EMISSION, IDLE, EFFICIENT, NORMAL, whatever later rules hold as
    well; with risk_score 85, four alerts and no route deviation it is
    CRITICAL_RISK for every carbon, speed and efficiency. *)
Theorem determine_state_total_priority :
  forall (carbon_kg avg_speed fuel_efficiency risk_score : R)
         (alert_count route_deviation : Z),
    let s := _determine_state carbon_kg avg_speed fuel_efficiency risk_score
               alert_count route_deviation in
    let critical := risk_score > 80 \/ (alert_count >= 3)%Z in
    let route := route_deviation = 1%Z in
    let emission := carbon_kg > 15 in
    let idle := avg_speed < 5 in
    let efficient := fuel_efficiency > 7 /\ alert_count = 0%Z in
    (In s all_states /\ NoDup all_states)
    /\ (critical -> s = STATE_CRITICAL_RISK)
    /\ (~ critical -> route -> s = STATE_ROUTE_DEVIATION)
    /\ (~ critical -> ~ route -> emission -> s = STATE_HIGH_EMISSION)
    /\ (~ critical -> ~ route -> ~ emission -> idle -> s = STATE_IDLE)
    /\ (~ critical -> ~ route -> ~ emission -> ~ idle -> efficient ->
        s = STATE_EFFICIENT)
    /\ (~ critical -> ~ route -> ~ emission -> ~ idle -> ~ efficient ->
        s = STATE_NORMAL)
    /\ _determine_state carbon_kg avg_speed fuel_efficiency 85 4 0
       = STATE_CRITICAL_RISK.
Proof.
  intros carbon_kg avg_speed fuel_efficiency risk_score alert_count
    route_deviation s critical route emission idle efficient.
  subst s critical route emission idle efficient.
  split; [ split; [ | exact all_states_distinct ] | ].
  - unfold all_states; classify; tauto.
  - repeat split; intros; classify;
      try reflexivity; try lra; try lia; try tauto; exfalso;
      try (intuition (lra || lia)).
Qed.

End Classifier.

(** ** The temporal join *)

Section Join.
Import joins join_spec scenarios.

Lemma in_tolerance_interval (g : gps_stream.GPSRow) (f : fuel_stream.FuelRow) :
  in_tolerance g f
  = String.eqb (gps_stream.vehicle_id g) (fuel_stream.vehicle_id f)
    && (gps_stream.parsed_time g + -30 <=? fuel_stream.parsed_time f)%Z
    && (fuel_stream.parsed_time f <=? gps_stream.parsed_time g + 30)%Z.
Proof.
  unfold in_tolerance.
  rewrite <- andb_assoc; f_equal.
  destruct (Z.leb_spec (Z.abs (fuel_stream.parsed_time f
                               - gps_stream.parsed_time g)) 30),
    (Z.leb_spec (gps_stream.parsed_time g + -30) (fuel_stream.parsed_time f)),
    (Z.leb_spec (fuel_stream.parsed_time f) (gps_stream.parsed_time g + 30));
    simpl; try reflexivity; lia.
Qed.

(** The records the join emits for one GPS event: one per fuel event of the
    vehicle within 30 s, in arrival order. *)
Lemma join_gps_fuel_matches (g : gps_stream.GPSRow)
    (fuel : list fuel_stream.FuelRow) :
  join_gps_fuel [g] fuel
  = map (fun f => joined_row (g, f)) (List.filter (in_tolerance g) fuel).
Proof.
  unfold join_gps_fuel, Pathway.select, Pathway.interval_join; simpl.
  rewrite app_nil_r, map_map.
  f_equal.
  apply filter_ext; intros f; symmetry; apply in_tolerance_interval.
Qed.

Lemma join_gps_fuel_app (g1 g2 : list gps_stream.GPSRow)
    (fuel : list fuel_stream.FuelRow) :
  join_gps_fuel (g1 ++ g2) fuel
  = join_gps_fuel g1 fuel ++ join_gps_fuel g2 fuel.
Proof.
  unfold join_gps_fuel, Pathway.select, Pathway.interval_join.
  rewrite flat_map_app, map_app; reflexivity.
Qed.

Lemma closer_iff (g : gps_stream.GPSRow) (f f' : fuel_stream.FuelRow) :
  closer g f f' = true
  <-> (Z.abs (fuel_stream.parsed_time f - gps_stream.parsed_time g)
       < Z.abs (fuel_stream.parsed_time f' - gps_stream.parsed_time g)
       \/ (Z.abs (fuel_stream.parsed_time f - gps_stream.parsed_time g)
           = Z.abs (fuel_stream.parsed_time f' - gps_stream.parsed_time g)
           /\ fuel_stream.parsed_time f < fuel_stream.parsed_time f'))%Z.
Proof.
  unfold closer.
  rewrite orb_true_iff, andb_true_iff, !Z.ltb_lt, Z.eqb_eq; reflexivity.
Qed.

(** [nearest_of] picks a candidate that no candidate beats: none is nearer
    in time, and none as near is earlier. *)
Lemma nearest_of_minimal (g : gps_stream.GPSRow) (fs : list fuel_stream.FuelRow)
    (best : fuel_stream.FuelRow) :
  In (nearest_of g best fs) (best :: fs)
  /\ forall f, In f (best :: fs) -> closer g f (nearest_of g best fs) = false.
Proof.
  revert best; induction fs as [ | f0 fs IH ]; intros best; simpl.
  - split; [ tauto | ].
    intros f [<- | []]; apply not_true_is_false; rewrite closer_iff; lia.
  - destruct (IH (if closer g f0 best then f0 else best)) as [Hin Hmin].
    split.
    + destruct (closer g f0 best); simpl in Hin; tauto.
    + intros f Hf.
      assert (Hb : closer g (if closer g f0 best then f0 else best)
                     (nearest_of g (if closer g f0 best then f0 else best) fs)
                   = false) by (apply Hmin; left; reflexivity).
      destruct Hf as [<- | [<- | Hf]];
        [ | | apply Hmin; right; exact Hf ];
        destruct (closer g f0 best) eqn:E;
        try exact Hb;
        apply not_true_is_false; intros C;
        apply not_true_iff_false in Hb; apply Hb;
        rewrite closer_iff in *;
        [ | apply not_true_iff_false in E; rewrite closer_iff in E ]; lia.
Qed.

(** C1.  A GPS event of V-101 at second 100 with two fuel events of V-101 in
    tolerance, at seconds 90 and 105: the nearest is the one at 105, and the
    join emits two records, the first of them matched to the event at 90. *)
Theorem join_gps_fuel_emits_every_match :
  nearest_fuel gps1 [fuel_far; fuel_near] = Some fuel_near
  /\ join_gps_fuel [gps1] [fuel_far; fuel_near]
     = [joined_row (gps1, fuel_far); joined_row (gps1, fuel_near)]
  /\ join_gps_fuel [gps1] [fuel_far; fuel_near]
     <> [joined_row (gps1, fuel_near)].
Proof.
  split; [ reflexivity | ].
  assert (E : join_gps_fuel [gps1] [fuel_far; fuel_near]
              = [joined_row (gps1, fuel_far); joined_row (gps1, fuel_near)])
    by (rewrite join_gps_fuel_matches; reflexivity).
  split; [ exact E | rewrite E; discriminate ].
Qed.

End Join.

(** ** The vehicle state table and its history *)

(** Decide the comparisons of a goal whose operands are numerals, the
    innermost first. *)
Ltac py_decide :=
  unfold Py.gtb, Py.geb, Py.ltb, Py.leb, Py.min, Py.max, Py.abs;
  repeat (match goal with
    | |- context [Rlt_dec ?a ?b] =>
        destruct (Rlt_dec a b); [ | solve [ exfalso; lra ] ]
    | |- context [Rlt_dec ?a ?b] =>
        destruct (Rlt_dec a b); [ solve [ exfalso; lra ] | ]
    | |- context [Rle_dec ?a ?b] =>
        destruct (Rle_dec a b); [ | solve [ exfalso; lra ] ]
    | |- context [Rle_dec ?a ?b] =>
        destruct (Rle_dec a b); [ solve [ exfalso; lra ] | ]
    end; cbv beta iota).

Section States.
Import vehicle_state runs history_spec scenarios.

Lemma avg_singleton (x : R) : Pathway.reducers.avg [x] = x.
Proof.
  unfold Pathway.reducers.avg, Pathway.reducers.sum, Pathway.reducers.count.
  simpl; field.
Qed.

(** Evaluate a run on a one-row window table. *)
Ltac run_eval :=
  unfold run, inputs_of; cbn [windowed risk_scores route_alerts];
  unfold compute_vehicle_states, combined, with_risk, route_flag,
    risk_scoring.compute_risk_scores; simpl;
  rewrite !avg_singleton;
  unfold state_row, _determine_state, risk_scoring.alert_impact_of,
    risk_scoring.efficiency_impact_of, risk_scoring.carbon_impact_of,
    risk_scoring.status_impact_of, Py.float, Pathway.reducers.count,
    CRITICAL_RISK_SCORE, CRITICAL_ALERT_COUNT, EMISSION_THRESHOLD_KG, IDLE_SPEED_KMH, EFFICIENCY_GOOD_THRESHOLD;
  simpl; py_decide; simpl;
  f_equal; f_equal; lra.

Lemma run_quiet : run quiet = [quiet_row].
Proof. unfold quiet, quiet_row; run_eval. Qed.

Lemma run_hot : run hot = [hot_row].
Proof. unfold hot, hot_row; run_eval. Qed.

Lemma run_deviated : run deviated = [deviated_row].
Proof. unfold deviated, deviated_row; run_eval. Qed.

(** Every row of the state table carries NORMAL as its previous state. *)
Lemma previous_state_normal (i : Inputs) (r : StateRow) :
  In r (run i) -> previous_state r = STATE_NORMAL.
Proof.
  unfold run, compute_vehicle_states, Pathway.select.
  intros H; apply in_map_iff in H; destruct H as [c [<- _]]; reflexivity.
Qed.

(** C3, as stated, fails: a run classifies V-101 as HIGH_EMISSION; the
    next run, after a route alert, does not carry HIGH_EMISSION as the
    previous state. *)
Lemma previous_state_does_not_track :
  ~ tracks_previous (run hot) (run deviated).
Proof.
  intros H.
  rewrite run_hot, run_deviated in H.
  specialize (H _ _ (or_introl eq_refl) (or_introl eq_refl) eq_refl).
  discriminate H.
Qed.

(** C3, amended.  After every classification run the row of every vehicle
    carries the default state NORMAL as [previous_state], whatever the
    preceding run computed for the vehicle: it equals the preceding
    [current_state] exactly when that was NORMAL. *)
Theorem previous_state_is_default :
  forall (before after : Inputs) (p r : StateRow),
    In p (run before) -> In r (run after) ->
    vehicle_id p = vehicle_id r ->
    previous_state r = STATE_NORMAL
    /\ (previous_state r = current_state p
        <-> current_state p = STATE_NORMAL).
Proof.
  intros before after p r _ Hr _.
  rewrite (previous_state_normal after r Hr).
  split; [ reflexivity | split; intros H; symmetry; exact H ].
Qed.

Lemma previous_state_is_default_witness :
  In quiet_row (run quiet) /\ In hot_row (run hot)
  /\ vehicle_id quiet_row = vehicle_id hot_row
  /\ previous_state hot_row = STATE_NORMAL
  /\ (previous_state hot_row = current_state quiet_row
      <-> current_state quiet_row = STATE_NORMAL).
Proof.
  assert (Hp : In quiet_row (run quiet))
    by (rewrite run_quiet; left; reflexivity).
  assert (Hr : In hot_row (run hot)) by (rewrite run_hot; left; reflexivity).
  split; [ exact Hp | split; [ exact Hr | split; [ reflexivity | ] ] ].
  exact (previous_state_is_default quiet hot quiet_row hot_row Hp Hr eq_refl).
Defined.

(** The history table has one record per row of the state table. *)
Lemma compute_state_history_length (vs : Pathway.Table StateRow) :
  List.length (compute_state_history vs) = List.length vs.
Proof. unfold compute_state_history, Pathway.select; apply length_map. Qed.

(** C4.  A first run that classifies V-101 as NORMAL, the default: no
    state change, yet the history holds a record of V-101.  Three runs
    that classify it as NORMAL, HIGH_EMISSION and ROUTE_DEVIATION: two
    changes, yet the history holds one record, and the HIGH_EMISSION
    record that was in it after the second run is no longer there. *)
Theorem state_history_is_current_states :
  (state_changes STATE_NORMAL (states_of "V-101" [quiet]) = 0%nat
   /\ List.length (records_of "V-101" (history_after [quiet])) = 1%nat)
  /\ (state_changes STATE_NORMAL (states_of "V-101" [quiet; hot; deviated])
      = 2%nat
      /\ List.length
           (records_of "V-101" (history_after [quiet; hot; deviated]))
         = 1%nat
      /\ (exists h, In h (history_after [quiet; hot])
                    /\ state h = STATE_HIGH_EMISSION)
      /\ forall h, In h (history_after [quiet; hot; deviated]) ->
                   state h <> STATE_HIGH_EMISSION).
Proof.
  unfold states_of, history_after.
  cbn [rev app flat_map].
  rewrite run_hot, run_quiet, run_deviated; simpl.
  repeat split.
  - eexists; split; [ left; reflexivity | reflexivity ].
  - intros h [<- | []]; discriminate.
Qed.

End States.

(** ** Grouping and reducers do not depend on the arrival order *)

Section GroupBy.
Context {A K : Type}.
Variable eqb : K -> K -> bool.
Hypothesis eqb_eq : forall a b, eqb a b = true <-> a = b.

Lemma existsb_eqb_In (k : K) (seen : list K) :
  existsb (eqb k) seen = true <-> In k seen.
Proof.
  rewrite existsb_exists; split.
  - intros [x [Hx E]]; apply eqb_eq in E; subst; assumption.
  - intros H; exists k; split; [ assumption | apply eqb_eq; reflexivity ].
Qed.

Lemma distinct_from_In (k : K) (ks seen : list K) :
  In k (Pathway.distinct_from eqb seen ks) <-> In k ks /\ ~ In k seen.
Proof.
  revert seen; induction ks as [ | k0 ks IH ]; intros seen; simpl.
  - tauto.
  - destruct (existsb (eqb k0) seen) eqn:E.
    + apply existsb_eqb_In in E.
      rewrite IH; split.
      * tauto.
      * intros [[-> | H] Hn]; tauto.
    + assert (Hk0 : ~ In k0 seen).
      { intros H; apply existsb_eqb_In in H; congruence. }
      simpl; rewrite IH; simpl; split.
      * intros [-> | [H Hn]]; [ tauto | ].
        split; [ right; assumption | tauto ].
      * intros [[-> | H] Hn]; [ tauto | ].
        destruct (existsb (eqb k) [k0]) eqn:E0.
        -- apply existsb_eqb_In in E0; destruct E0 as [-> | []]; tauto.
        -- right; split; [ assumption | ].
           intros [-> | Hs]; [ | tauto ].
           assert (In k [k]) as Hin by (left; reflexivity).
           apply existsb_eqb_In in Hin; congruence.
Qed.

Lemma distinct_from_NoDup (ks seen : list K) :
  NoDup (Pathway.distinct_from eqb seen ks).
Proof.
  revert seen; induction ks as [ | k0 ks IH ]; intros seen; simpl.
  - constructor.
  - destruct (existsb (eqb k0) seen); [ apply IH | ].
    constructor; [ | apply IH ].
    rewrite distinct_from_In; simpl; tauto.
Qed.

Lemma distinct_Permutation (ks ks' : list K) :
  Permutation ks ks' ->
  Permutation (Pathway.distinct eqb ks) (Pathway.distinct eqb ks').
Proof.
  intros P; unfold Pathway.distinct.
  apply NoDup_Permutation; try apply distinct_from_NoDup.
  intros k; rewrite !distinct_from_In.
  split; intros [H Hn]; (split; [ | assumption ]).
  - apply (Permutation_in _ P H).
  - apply (Permutation_in _ (Permutation_sym P) H).
Qed.

Lemma filter_Permutation (p : A -> bool) (l l' : list A) :
  Permutation l l' -> Permutation (List.filter p l) (List.filter p l').
Proof.
  induction 1 as [ | x l l' _ IH | x y l | l l' l'' _ IH1 _ IH2 ]; simpl.
  - constructor.
  - destruct (p x); [ constructor | ]; assumption.
  - destruct (p x), (p y); try reflexivity; constructor.
  - etransitivity; eassumption.
Qed.

(** Reducing the groups of a table with a reducer that does not look at the
    order of a group gives the same rows whatever the order of the table. *)
Lemma groupby_reduce_Permutation {B : Type} (key : A -> K)
    (reduce : K * list A -> B) :
  (forall k g g', Permutation g g' -> reduce (k, g) = reduce (k, g')) ->
  forall t t', Permutation t t' ->
    Permutation (map reduce (Pathway.groupby eqb key t))
                (map reduce (Pathway.groupby eqb key t')).
Proof.
  intros Hred t t' P; unfold Pathway.groupby; rewrite !map_map.
  transitivity
    (map (fun k => reduce (k, List.filter (fun a => eqb (key a) k) t))
         (Pathway.distinct eqb (map key t'))).
  - apply Permutation_map, distinct_Permutation, Permutation_map, P.
  - erewrite map_ext; [ reflexivity | ].
    intros k; apply Hred, filter_Permutation, P.
Qed.

End GroupBy.

Lemma window_key_eqb_eq (k k' : string * Z) :
  String.eqb (fst k) (fst k') && (snd k =? snd k')%Z = true <-> k = k'.
Proof.
  destruct k as [s z], k' as [s' z']; simpl.
  rewrite andb_true_iff, String.eqb_eq, Z.eqb_eq.
  split; [ intros [-> ->]; reflexivity | intros E; inversion E; tauto ].
Qed.

Lemma map_windowby {A B : Type} (time : A -> Z) (window : Z -> list Z)
    (instance : A -> string) (reduce : (string * Z) * list A -> B)
    (t : list A) :
  map reduce (Pathway.windowby time window instance t)
  = map (fun kg : (string * Z) * list ((string * Z) * A) =>
           reduce (fst kg, map snd (snd kg)))
      (Pathway.groupby
         (fun k k' : string * Z =>
            String.eqb (fst k) (fst k') && (snd k =? snd k')%Z)
         fst
         (flat_map
            (fun a => map (fun s => ((instance a, s), a)) (window (time a)))
            t)).
Proof.
  unfold Pathway.windowby; rewrite map_map.
  apply map_ext; intros [k g]; reflexivity.
Qed.

Lemma windowby_reduce_Permutation {A B : Type} (time : A -> Z)
    (window : Z -> list Z) (instance : A -> string)
    (reduce : (string * Z) * list A -> B) :
  (forall k g g', Permutation g g' -> reduce (k, g) = reduce (k, g')) ->
  forall t t', Permutation t t' ->
    Permutation (map reduce (Pathway.windowby time window instance t))
                (map reduce (Pathway.windowby time window instance t')).
Proof.
  intros Hred t t' P; rewrite !map_windowby.
  apply (groupby_reduce_Permutation _ window_key_eqb_eq fst
           (fun kg => reduce (fst kg, map snd (snd kg)))).
  - intros k g g' Pg; simpl; apply Hred, Permutation_map, Pg.
  - apply Permutation_flat_map, P.
Qed.

Section Reducers.
Import Pathway.reducers.

Lemma sum_Permutation (xs ys : list R) :
  Permutation xs ys -> sum xs = sum ys.
Proof.
  unfold sum; induction 1; simpl; try lra; congruence.
Qed.

Lemma count_Permutation {A : Type} (xs ys : list A) :
  Permutation xs ys -> count xs = count ys.
Proof. intros P; unfold count; f_equal; apply Permutation_length, P. Qed.

Lemma avg_Permutation (xs ys : list R) :
  Permutation xs ys -> avg xs = avg ys.
Proof.
  intros P; unfold avg.
  rewrite (sum_Permutation _ _ P), (count_Permutation _ _ P); reflexivity.
Qed.

Lemma fold_Rmax_bounds (xs : list R) (x : R) :
  In (fold_left Rmax xs x) (x :: xs)
  /\ forall y, In y (x :: xs) -> y <= fold_left Rmax xs x.
Proof.
  revert x; induction xs as [ | a xs IH ]; intros x; simpl.
  - split; [ tauto | intros y [<- | []]; lra ].
  - destruct (IH (Rmax x a)) as [Hin Hub]; split.
    + destruct Hin as [E | Hin]; [ | tauto ].
      rewrite <- E; unfold Rmax; destruct (Rle_dec x a); tauto.
    + intros y [<- | [<- | Hy]].
      * eapply Rle_trans; [ apply Rbasic_fun.Rmax_l | apply Hub; left; reflexivity ].
      * eapply Rle_trans; [ apply Rbasic_fun.Rmax_r | apply Hub; left; reflexivity ].
      * apply Hub; right; assumption.
Qed.

Lemma fold_Rmin_bounds (xs : list R) (x : R) :
  In (fold_left Rmin xs x) (x :: xs)
  /\ forall y, In y (x :: xs) -> fold_left Rmin xs x <= y.
Proof.
  revert x; induction xs as [ | a xs IH ]; intros x; simpl.
  - split; [ tauto | intros y [<- | []]; lra ].
  - destruct (IH (Rmin x a)) as [Hin Hlb]; split.
    + destruct Hin as [E | Hin]; [ | tauto ].
      rewrite <- E; unfold Rmin; destruct (Rle_dec x a); tauto.
    + intros y [<- | [<- | Hy]].
      * eapply Rle_trans; [ apply Hlb; left; reflexivity | apply Rbasic_fun.Rmin_l ].
      * eapply Rle_trans; [ apply Hlb; left; reflexivity | apply Rbasic_fun.Rmin_r ].
      * apply Hlb; right; assumption.
Qed.

Lemma max_Permutation (xs ys : list R) :
  Permutation xs ys -> max xs = max ys.
Proof.
  intros P; unfold max.
  destruct xs as [ | x xs ], ys as [ | y ys ]; try reflexivity.
  - apply Permutation_nil in P; discriminate.
  - apply Permutation_sym, Permutation_nil in P; discriminate.
  - destruct (fold_Rmax_bounds xs x) as [I1 U1].
    destruct (fold_Rmax_bounds ys y) as [I2 U2].
    apply Rle_antisym.
    + apply U2, (Permutation_in _ P I1).
    + apply U1, (Permutation_in _ (Permutation_sym P) I2).
Qed.

Lemma min_Permutation (xs ys : list R) :
  Permutation xs ys -> min xs = min ys.
Proof.
  intros P; unfold min.
  destruct xs as [ | x xs ], ys as [ | y ys ]; try reflexivity.
  - apply Permutation_nil in P; discriminate.
  - apply Permutation_sym, Permutation_nil in P; discriminate.
  - destruct (fold_Rmin_bounds xs x) as [I1 L1].
    destruct (fold_Rmin_bounds ys y) as [I2 L2].
    apply Rle_antisym.
    + apply L1, (Permutation_in _ (Permutation_sym P) I2).
    + apply L2, (Permutation_in _ P I1).
Qed.

End Reducers.

(** ** Tumbling-window snapshots *)

Section Windows.
Import windows scenarios.

Lemma snapshot_Permutation (duration : Z) (factor : R) (k : string * Z)
    (g g' : list features.Telemetry) :
  Permutation g g' ->
  snapshot duration factor (k, g) = snapshot duration factor (k, g').
Proof.
  intros P; destruct k as [instance start]; unfold snapshot.
  rewrite (avg_Permutation _ _ (Permutation_map features.speed P)).
  rewrite (max_Permutation _ _ (Permutation_map features.speed P)).
  rewrite (min_Permutation _ _ (Permutation_map features.speed P)).
  rewrite (sum_Permutation _ _ (Permutation_map features.fuel_liters P)).
  rewrite (sum_Permutation _ _ (Permutation_map features.distance_km P)).
  rewrite (count_Permutation _ _ P).
  reflexivity.
Qed.

(** C6.  Every snapshot of [compute_rolling_windows] has
    [carbon_kg = total_fuel * emission factor], [fuel_efficiency =
    total_distance / total_fuel] when [total_fuel > 0] and [0] when
    [total_fuel = 0], and [speed_variance = max_speed - min_speed], the
    totals being those of the events of its window; and a telemetry table
    with the same events in another order yields the same snapshots. *)
Theorem rolling_windows_derived_order_free :
  forall t t' : Pathway.Table features.Telemetry,
    Permutation t t' ->
    Permutation (compute_rolling_windows t) (compute_rolling_windows t')
    /\ forall w, In w (compute_rolling_windows t) ->
         carbon_kg w = total_fuel w * config.emission.default_emission_factor
         /\ (total_fuel w > 0 ->
             fuel_efficiency w = total_distance w / total_fuel w)
         /\ (total_fuel w = 0 -> fuel_efficiency w = 0)
         /\ speed_variance w = max_speed w - min_speed w
         /\ exists g,
              In ((vehicle_id w, window_start w), g)
                 (Pathway.windowby features.timestamp
                    (Pathway.temporal.tumbling 300) features.vehicle_id t)
              /\ total_fuel w
                 = Pathway.reducers.sum (map features.fuel_liters g)
              /\ total_distance w
                 = Pathway.reducers.sum (map features.distance_km g)
              /\ max_speed w = Pathway.reducers.max (map features.speed g)
              /\ min_speed w = Pathway.reducers.min (map features.speed g).
Proof.
  intros t t' P; split.
  - unfold compute_rolling_windows, Pathway.select.
    apply windowby_reduce_Permutation; [ | exact P ].
    intros k g g'; apply snapshot_Permutation.
  - intros w Hw.
    unfold compute_rolling_windows, Pathway.select in Hw.
    apply in_map_iff in Hw; destruct Hw as [[[instance start] g] [<- Hg]].
    unfold snapshot; simpl.
    repeat split.
    + intros Hpos; destruct (gtb_spec (Pathway.reducers.sum
                               (map features.fuel_liters g)) 0);
        [ reflexivity | contradiction ].
    + intros Hz; rewrite Hz.
      destruct (gtb_spec 0 0); [ lra | reflexivity ].
    + exists g; repeat split; exact Hg.
Qed.

Lemma rolling_windows_derived_order_free_witness :
  Permutation (compute_rolling_windows [telemetry1; telemetry2])
              (compute_rolling_windows [telemetry2; telemetry1])
  /\ forall w, In w (compute_rolling_windows [telemetry1; telemetry2]) ->
       carbon_kg w = total_fuel w * config.emission.default_emission_factor
       /\ (total_fuel w > 0 ->
           fuel_efficiency w = total_distance w / total_fuel w)
       /\ (total_fuel w = 0 -> fuel_efficiency w = 0)
       /\ speed_variance w = max_speed w - min_speed w
       /\ exists g,
            In ((vehicle_id w, window_start w), g)
               (Pathway.windowby features.timestamp
                  (Pathway.temporal.tumbling 300) features.vehicle_id
                  [telemetry1; telemetry2])
            /\ total_fuel w
               = Pathway.reducers.sum (map features.fuel_liters g)
            /\ total_distance w
               = Pathway.reducers.sum (map features.distance_km g)
            /\ max_speed w = Pathway.reducers.max (map features.speed g)
            /\ min_speed w = Pathway.reducers.min (map features.speed g).
Proof.
  apply (rolling_windows_derived_order_free
           [telemetry1; telemetry2] [telemetry2; telemetry1]).
  apply perm_swap.
Defined.

(** The two events fall in one window, whose snapshot does not depend on
    which arrived first. *)
Example rolling_windows_two_events :
  compute_rolling_windows [telemetry1; telemetry2]
  = [ snapshot 300 (268 / 100) (("V-101"%string, 0%Z), [telemetry1; telemetry2]) ]
  /\ compute_rolling_windows [telemetry2; telemetry1]
     = [ snapshot 300 (268 / 100) (("V-101"%string, 0%Z), [telemetry2; telemetry1]) ].
Proof. split; reflexivity. Qed.

End Windows.

(** ** What a window holds *)

Lemma groupby_rows {A K : Type} (eqb : K -> K -> bool) (key : A -> K)
    (t : list A) (k : K) (g : list A) :
  (forall a b, eqb a b = true <-> a = b) ->
  In (k, g) (Pathway.groupby eqb key t) ->
  g <> [] /\ forall a, In a g <-> In a t /\ key a = k.
Proof.
  intros eqb_eq H; unfold Pathway.groupby in H.
  apply in_map_iff in H; destruct H as [k0 [E Hk]].
  inversion E; subst k0 g; clear E.
  apply (distinct_from_In eqb eqb_eq) in Hk; destruct Hk as [Hk _].
  apply in_map_iff in Hk; destruct Hk as [a [Ea Ha]].
  assert (Hin : forall b, In b (List.filter (fun a0 => eqb (key a0) k) t)
                          <-> In b t /\ key b = k).
  { intros b; rewrite filter_In, eqb_eq; reflexivity. }
  split; [ | exact Hin ].
  intros Hnil; assert (Hf : In a []) by (rewrite <- Hnil; apply Hin; tauto).
  exact Hf.
Qed.

Lemma sliding_covers (duration hop t s : Z) :
  (0 < hop)%Z ->
  In s (Pathway.temporal.sliding duration hop t) ->
  (s <= t < s + duration)%Z.
Proof.
  intros Hhop H; unfold Pathway.temporal.sliding in H.
  apply filter_In in H; destruct H as [H Hlt].
  apply Z.ltb_lt in Hlt; split; [ | exact Hlt ].
  apply in_map_iff in H; destruct H as [i [<- _]].
  pose proof (Z.mul_div_le t hop Hhop).
  nia.
Qed.

(** A sliding window of a vehicle is not empty and holds, in arrival order,
    events of that vehicle whose time lies in the window. *)
Lemma sliding_windows_rows (t : Pathway.Table features.Telemetry)
    (k : string * Z) (g : list features.Telemetry) :
  In (k, g) (zscore.sliding_windows t) ->
  g <> []
  /\ forall r, In r g ->
       In r t /\ features.vehicle_id r = fst k
       /\ (snd k <= features.timestamp r < snd k + 300)%Z.
Proof.
  unfold zscore.sliding_windows, Pathway.windowby; intros H.
  apply in_map_iff in H; destruct H as [[k0 g0] [E H]].
  inversion E; subst k0 g; clear E.
  apply (groupby_rows _ _ _ _ _ window_key_eqb_eq) in H.
  destruct H as [Hne Hin]; split.
  - destruct g0; [ contradiction | discriminate ].
  - intros r Hr; apply in_map_iff in Hr; destruct Hr as [[k1 r1] [E Hr]].
    simpl in E; subst r1.
    apply Hin in Hr; destruct Hr as [Hr Hk]; simpl in Hk; subst k1.
    apply in_flat_map in Hr; destruct Hr as [a [Ha Hr]].
    apply in_map_iff in Hr; destruct Hr as [s [E Hs]].
    inversion E; subst; clear E; simpl.
    split; [ assumption | split; [ reflexivity | ] ].
    apply (sliding_covers _ 60); [ lia | exact Hs ].
Qed.

(** ** The z-score detector *)

Section ZScore.
Import zscore scenarios.

Lemma std_floor (avg_sq avg : R) :
  std avg_sq avg = Rmax (sqrt (Rmax (avg_sq - avg * avg) 0)) (1 / 1000)
  /\ 1 / 1000 <= std avg_sq avg.
Proof.
  unfold std; rewrite !py_max_Rmax; split; [ reflexivity | ].
  apply Rbasic_fun.Rmax_r.
Qed.

Lemma alert_of_zscores (th : R) (s s' : Stats) :
  alert_of th s = alert_of th s' ->
  speed_zscore s = speed_zscore s' /\ carbon_zscore s = carbon_zscore s'.
Proof.
  intros E; split;
    [ exact (f_equal alert_speed_zscore E)
    | exact (f_equal alert_carbon_zscore E) ].
Qed.

(** C7.  Every row of the sliding-window table [zscores] comes from a
    non-empty window of the telemetry table; its standard deviations are
    [sqrt(max(E[x*x] - E[x]^2, 0))] floored at [0.001], hence positive; its
    z-scores are [|latest - mean| / std] with [latest] the value of the event
    of the window that arrived last; and the detector emits the alert of the
    row iff one of the two z-scores exceeds 2.5. *)
Theorem zscore_std_positive_alert_iff :
  forall (t : Pathway.Table features.Telemetry) (s : Stats),
    In s (zscores t) ->
    (exists k g,
        In (k, g) (sliding_windows t)
        /\ g <> []
        /\ mean_speed s = Pathway.reducers.avg (map features.speed g)
        /\ avg_speed_sq s
           = Pathway.reducers.avg
               (map (fun x => x * x) (map features.speed g))
        /\ mean_carbon s = Pathway.reducers.avg (map features.carbon_kg g)
        /\ avg_carbon_sq s
           = Pathway.reducers.avg
               (map (fun x => x * x) (map features.carbon_kg g))
        /\ latest_speed s = last (map features.speed g) 0
        /\ latest_carbon s = last (map features.carbon_kg g) 0)
    /\ std_speed s
       = Rmax (sqrt (Rmax (avg_speed_sq s - mean_speed s * mean_speed s) 0))
              (1 / 1000)
    /\ std_carbon s
       = Rmax (sqrt (Rmax (avg_carbon_sq s - mean_carbon s * mean_carbon s) 0))
              (1 / 1000)
    /\ 0 < std_speed s /\ 0 < std_carbon s
    /\ speed_zscore s = Rabs (latest_speed s - mean_speed s) / std_speed s
    /\ carbon_zscore s
       = Rabs (latest_carbon s - mean_carbon s) / std_carbon s
    /\ (In (alert_of (25 / 10) s) (detect_zscore_anomalies t)
        <-> speed_zscore s > 25 / 10 \/ carbon_zscore s > 25 / 10).
Proof.
  intros t s Hs.
  assert (Hfires : forall s0, is_anomaly (25 / 10) s0 = true
            <-> speed_zscore s0 > 25 / 10 \/ carbon_zscore s0 > 25 / 10).
  { intros s0; unfold is_anomaly; rewrite orb_true_iff.
    destruct (gtb_spec (speed_zscore s0) (25 / 10)),
      (gtb_spec (carbon_zscore s0) (25 / 10)); intuition discriminate. }
  assert (Halert : In (alert_of (25 / 10) s) (detect_zscore_anomalies t)
            <-> speed_zscore s > 25 / 10 \/ carbon_zscore s > 25 / 10).
  { unfold detect_zscore_anomalies, Pathway.select, Pathway.filter,
      config.anomaly.zscore_threshold.
    rewrite in_map_iff; split.
    - intros [s' [E Hs']]; apply filter_In in Hs'.
      destruct (alert_of_zscores _ _ _ E) as [<- <-].
      apply Hfires, Hs'.
    - intros H; exists s; split; [ reflexivity | ].
      apply filter_In; split; [ exact Hs | apply Hfires, H ]. }
  unfold zscores, Pathway.select in Hs.
  apply in_map_iff in Hs; destruct Hs as [[[instance start] g] [<- Hg]].
  unfold window_stats; simpl.
  destruct (std_floor
              (Pathway.reducers.avg
                 (map (fun x => x * x) (map features.speed g)))
              (Pathway.reducers.avg (map features.speed g))) as [Es Ps].
  destruct (std_floor
              (Pathway.reducers.avg
                 (map (fun x => x * x) (map features.carbon_kg g)))
              (Pathway.reducers.avg (map features.carbon_kg g))) as [Ec Pc].
  refine (conj _ (conj Es (conj Ec (conj _ (conj _ (conj _ (conj _ Halert))))))).
  - exists (instance, start), g.
    split; [ exact Hg | ].
    split; [ apply (sliding_windows_rows _ _ _ Hg) | repeat split ].
  - lra.
  - lra.
  - unfold zscore_of; rewrite py_abs_Rabs; reflexivity.
  - unfold zscore_of; rewrite py_abs_Rabs; reflexivity.
Qed.

Lemma zscore_std_positive_alert_iff_witness :
  In stats1 (zscores [telemetry1])
  /\ 0 < std_speed stats1 /\ 0 < std_carbon stats1.
Proof.
  assert (H : In stats1 (zscores [telemetry1])) by (left; reflexivity).
  split; [ exact H | ].
  split; apply (zscore_std_positive_alert_iff [telemetry1] stats1 H).
Defined.

End ZScore.

(** ** The route-deviation detector *)

Section Route.
Import route_deviation scenarios.

Lemma get_default {V : Type} (d : list (string * V)) (key : string)
    (default : V) :
  ~ In key (map fst d) -> get d key default = default.
Proof.
  induction d as [ | [k v] d IH ]; simpl; intros H; [ reflexivity | ].
  destruct (String.eqb_spec k key); [ tauto | apply IH; tauto ].
Qed.

Lemma haversine_km_self (lat lon : R) : haversine_km lat lon lat lon = 0.
Proof.
  unfold haversine_km, math.radians, math.atan2.
  replace ((lat - lat) * PI / 180 / 2) with 0 by lra.
  replace ((lon - lon) * PI / 180 / 2) with 0 by lra.
  rewrite sin_0.
  replace (0 ^ 2 + cos (lat * PI / 180) * cos (lat * PI / 180) * 0 ^ 2)
    with 0 by ring.
  rewrite sqrt_0, Rminus_0_r, sqrt_1.
  destruct (Rlt_dec 0 1); [ | lra ].
  replace (0 / 1) with 0 by lra.
  rewrite atan_0; ring.
Qed.

Lemma sin_half_sq (x : R) : sin (x / 2) ^ 2 = (1 - cos x) / 2.
Proof.
  pose proof (cos_2a_sin (x / 2)) as H.
  replace (2 * (x / 2)) with x in H by lra.
  simpl; lra.
Qed.

(** The haversine of the central angle, and the cosine of that angle by the
    spherical law of cosines. *)
Lemma haversine_arg_dot (p1 p2 l : R) :
  1 - 2 * (sin ((p2 - p1) / 2) ^ 2 + cos p1 * cos p2 * sin (l / 2) ^ 2)
  = sin p1 * sin p2 + cos p1 * cos p2 * cos l.
Proof.
  rewrite !sin_half_sq, cos_minus; field.
Qed.

Lemma dot_bounds (p1 p2 l : R) :
  -1 <= sin p1 * sin p2 + cos p1 * cos p2 * cos l <= 1.
Proof.
  pose proof (sin2_cos2 p1) as H1; pose proof (sin2_cos2 p2) as H2.
  pose proof (COS_bound l) as [Hl Hu].
  unfold Rsqr in H1, H2.
  set (s1 := sin p1) in *; set (c1 := cos p1) in *.
  set (s2 := sin p2) in *; set (c2 := cos p2) in *.
  set (k := cos l) in *.
  assert (K : 0 <= c2 * c2 * (1 - k * k)).
  { apply Rmult_le_pos; [ apply Rle_0_sqr | nra ]. }
  pose proof (Rle_0_sqr (s1 - s2)) as A1.
  pose proof (Rle_0_sqr (c1 - c2 * k)) as A2.
  pose proof (Rle_0_sqr (s1 + s2)) as B1.
  pose proof (Rle_0_sqr (c1 + c2 * k)) as B2.
  unfold Rsqr in A1, A2, B1, B2.
  split; nra.
Qed.

Lemma haversine_arg_range (p1 p2 l : R) :
  0 <= sin ((p2 - p1) / 2) ^ 2 + cos p1 * cos p2 * sin (l / 2) ^ 2 <= 1.
Proof.
  pose proof (haversine_arg_dot p1 p2 l) as E.
  pose proof (dot_bounds p1 p2 l) as B.
  lra.
Qed.

(** [atan2(sqrt a, sqrt (1 - a))] is the arcsine of [sqrt a]. *)
Lemma atan2_sqrt_asin (a : R) :
  0 <= a <= 1 -> math.atan2 (sqrt a) (sqrt (1 - a)) = asin (sqrt a).
Proof.
  intros [H0 H1]; unfold math.atan2.
  destruct (Rle_lt_or_eq_dec a 1 H1) as [Hlt | ->].
  - assert (Hs : 0 < sqrt (1 - a)) by (apply sqrt_lt_R0; lra).
    destruct (Rlt_dec 0 (sqrt (1 - a))); [ | contradiction ].
    assert (Hq : sqrt a < 1).
    { rewrite <- sqrt_1; apply sqrt_lt_1; lra. }
    pose proof (sqrt_pos a).
    rewrite asin_atan by lra.
    rewrite Rsqr_sqrt by lra; reflexivity.
  - replace (1 - 1) with 0 by lra; rewrite sqrt_0, sqrt_1.
    destruct (Rlt_dec 0 0); [ lra | ].
    destruct (Rlt_dec 0 1); [ | lra ].
    symmetry; apply asin_1.
Qed.

Lemma asin_sqrt_range (a : R) :
  0 <= a <= 1 -> 0 <= asin (sqrt a) <= PI / 2.
Proof.
  intros [H0 H1].
  pose proof (asin_bound (sqrt a)) as [Hl Hu].
  split; [ | exact Hu ].
  destruct (Rle_lt_dec 0 (asin (sqrt a))) as [ | Hneg ]; [ assumption | ].
  exfalso.
  assert (Hq : sqrt a <= 1).
  { rewrite <- sqrt_1; apply sqrt_le_1; lra. }
  pose proof (sqrt_pos a).
  pose proof PI_RGT_0.
  assert (S : sin (asin (sqrt a)) < 0) by (apply sin_lt_0_var; lra).
  rewrite sin_asin in S by lra; lra.
Qed.

Lemma two_asin_sqrt (a : R) :
  0 <= a <= 1 -> 2 * asin (sqrt a) = acos (1 - 2 * a).
Proof.
  intros Ha; pose proof (asin_sqrt_range a Ha) as Hr.
  assert (Hq : sqrt a <= 1).
  { rewrite <- sqrt_1; apply sqrt_le_1; lra. }
  pose proof (sqrt_pos a).
  rewrite <- (acos_cos (2 * asin (sqrt a))) by lra.
  f_equal; rewrite cos_2a_sin, sin_asin by lra.
  rewrite Rmult_assoc, sqrt_sqrt by lra; reflexivity.
Qed.

(** What [haversine_km] computes: the haversine formula for the central
    angle, times the radius 6371; it is the great-circle distance, the
    radius times the angle whose cosine the spherical law of cosines
    gives. *)
Lemma haversine_km_great_circle (lat1 lon1 lat2 lon2 : R) :
  haversine_km lat1 lon1 lat2 lon2
  = 6371
    * (2 * asin
             (sqrt
                (sin ((lat2 - lat1) * PI / 180 / 2) ^ 2
                 + cos (lat1 * PI / 180) * cos (lat2 * PI / 180)
                   * sin ((lon2 - lon1) * PI / 180 / 2) ^ 2)))
  /\ haversine_km lat1 lon1 lat2 lon2
     = 6371
       * acos (sin (lat1 * PI / 180) * sin (lat2 * PI / 180)
               + cos (lat1 * PI / 180) * cos (lat2 * PI / 180)
                 * cos ((lon2 - lon1) * PI / 180)).
Proof.
  unfold haversine_km, math.radians; cbv zeta.
  pose proof (haversine_arg_range (lat1 * PI / 180) (lat2 * PI / 180)
                ((lon2 - lon1) * PI / 180)) as Ha.
  pose proof (haversine_arg_dot (lat1 * PI / 180) (lat2 * PI / 180)
                ((lon2 - lon1) * PI / 180)) as Ed.
  replace (lat2 * PI / 180 - lat1 * PI / 180)
    with ((lat2 - lat1) * PI / 180) in Ha, Ed by lra.
  set (a := sin ((lat2 - lat1) * PI / 180 / 2) ^ 2
            + cos (lat1 * PI / 180) * cos (lat2 * PI / 180)
              * sin ((lon2 - lon1) * PI / 180 / 2) ^ 2) in *.
  rewrite (atan2_sqrt_asin a Ha).
  split; [ reflexivity | ].
  rewrite (two_asin_sqrt a Ha), Ed; reflexivity.
Qed.

(** Along a meridian the distance is the difference of latitude, in
    radians, times 6371. *)
Lemma haversine_km_meridian (lat1 lat2 lon : R) :
  -180 <= lat2 - lat1 <= 180 ->
  haversine_km lat1 lon lat2 lon = 6371 * (Rabs (lat2 - lat1) * PI / 180).
Proof.
  intros H; pose proof PI_RGT_0 as Hpi.
  destruct (haversine_km_great_circle lat1 lon lat2 lon) as [_ ->].
  f_equal.
  replace ((lon - lon) * PI / 180) with 0 by lra.
  rewrite cos_0, Rmult_1_r.
  replace (sin (lat1 * PI / 180) * sin (lat2 * PI / 180)
           + cos (lat1 * PI / 180) * cos (lat2 * PI / 180))
    with (cos (Rabs (lat2 - lat1) * PI / 180)).
  - apply acos_cos; unfold Rabs; destruct (Rcase_abs (lat2 - lat1)); nra.
  - unfold Rabs; destruct (Rcase_abs (lat2 - lat1)).
    + replace (- (lat2 - lat1) * PI / 180)
        with (lat1 * PI / 180 - lat2 * PI / 180) by lra.
      rewrite cos_minus; ring.
    + replace ((lat2 - lat1) * PI / 180)
        with (lat2 * PI / 180 - lat1 * PI / 180) by lra.
      rewrite cos_minus; ring.
Qed.

(** C9.  For every telemetry record the detector measures the haversine
    great-circle distance from the record's position to the reference point
    of its vehicle, New York's for a vehicle without an entry: the distance
    [d] is 6371 km times [2 asin (sqrt a)], with [a] the haversine of the
    central angle, which is 6371 km times the angle between the two points
    on the sphere.  The detector emits the alert of the record iff [d]
    exceeds 5 km, once and in the place of the record, with severity
    critical above 15 km, high above 10 km and medium otherwise; the alert
    carries [d] and the vehicle, position and time of the record; and the
    distance of a point to itself is 0. *)
Theorem route_deviation_alert_iff :
  forall (t : Pathway.Table features.Telemetry) (r : features.Telemetry),
    In r t ->
    let expected :=
      get EXPECTED_ROUTES (features.vehicle_id r)
        (407128 / 10000, - (740060 / 10000)) in
    let lat1 := features.latitude r in
    let lon1 := features.longitude r in
    let lat2 := fst expected in
    let lon2 := snd expected in
    let a :=
      sin ((lat2 - lat1) * PI / 180 / 2) ^ 2
      + cos (lat1 * PI / 180) * cos (lat2 * PI / 180)
        * sin ((lon2 - lon1) * PI / 180 / 2) ^ 2 in
    let d := 6371 * (2 * asin (sqrt a)) in
    haversine_km lat1 lon1 lat2 lon2 = d
    /\ d = 6371
           * acos (sin (lat1 * PI / 180) * sin (lat2 * PI / 180)
                   + cos (lat1 * PI / 180) * cos (lat2 * PI / 180)
                     * cos ((lon2 - lon1) * PI / 180))
    /\ (In (alert_of 5 r) (detect_route_deviations t) <-> d > 5)
    /\ (forall t1 t2, t = t1 ++ r :: t2 ->
          (d > 5 ->
           detect_route_deviations t
           = detect_route_deviations t1
             ++ alert_of 5 r :: detect_route_deviations t2)
          /\ (d <= 5 ->
              detect_route_deviations t
              = detect_route_deviations t1 ++ detect_route_deviations t2))
    /\ deviation_km (alert_of 5 r) = d
    /\ vehicle_id (alert_of 5 r) = features.vehicle_id r
    /\ anomaly_type (alert_of 5 r) = "route_deviation"%string
    /\ latitude (alert_of 5 r) = lat1
    /\ longitude (alert_of 5 r) = lon1
    /\ timestamp (alert_of 5 r) = features.timestamp r
    /\ (d > 15 -> severity (alert_of 5 r) = "critical"%string)
    /\ (d <= 15 -> d > 10 -> severity (alert_of 5 r) = "high"%string)
    /\ (d <= 10 -> severity (alert_of 5 r) = "medium"%string)
    /\ (forall v lat lon,
          In (v, (lat, lon))
             [ ("V-101"%string, (407128 / 10000, - (740060 / 10000)));
               ("V-102"%string, (423601 / 10000, - (710589 / 10000)));
               ("V-103"%string, (399526 / 10000, - (751652 / 10000)));
               ("V-104"%string, (407357 / 10000, - (741724 / 10000)));
               ("V-105"%string, (417658 / 10000, - (726734 / 10000)));
               ("V-106"%string, (392904 / 10000, - (766122 / 10000))) ] ->
          features.vehicle_id r = v -> expected = (lat, lon))
    /\ (~ In (features.vehicle_id r)
            [ "V-101"; "V-102"; "V-103"; "V-104"; "V-105"; "V-106" ]%string ->
        expected = (407128 / 10000, - (740060 / 10000)))
    /\ forall lat lon, haversine_km lat lon lat lon = 0.
Proof.
  intros t r Hr expected lat1 lon1 lat2 lon2 a d.
  destruct (haversine_km_great_circle lat1 lon1 lat2 lon2) as [E1 E2].
  fold a in E1; fold d in E1.
  assert (Ed : route_deviation_km r = d) by exact E1.
  split; [ exact E1 | ].
  split; [ rewrite <- E1; exact E2 | ].
  split; [ | split; [ | split; [ exact Ed | ] ] ].
  - unfold detect_route_deviations, Pathway.select, Pathway.filter,
      config.anomaly.route_bounds_km.
    rewrite in_map_iff; split.
    + intros [r' [E Hr']]; apply filter_In in Hr'; destruct Hr' as [_ Hd].
      apply (f_equal deviation_km) in E; simpl in E.
      rewrite <- Ed, <- E.
      destruct (gtb_spec (route_deviation_km r') 5);
        [ assumption | discriminate ].
    + intros Hd; exists r; split; [ reflexivity | ].
      apply filter_In; split; [ exact Hr | ].
      rewrite Ed; destruct (gtb_spec d 5); [ reflexivity | contradiction ].
  - intros t1 t2 ->.
    unfold detect_route_deviations, Pathway.select, Pathway.filter,
      config.anomaly.route_bounds_km.
    rewrite filter_app, map_app; cbn [List.filter]; rewrite Ed.
    destruct (gtb_spec d 5); split; intros; try lra; reflexivity.
  - unfold alert_of; simpl; rewrite Ed.
    repeat split.
    + intros H; destruct (gtb_spec d (5 * 3)); [ reflexivity | lra ].
    + intros H1 H2; destruct (gtb_spec d (5 * 3)); [ lra | ].
      destruct (gtb_spec d (5 * 2)); [ reflexivity | lra ].
    + intros H; destruct (gtb_spec d (5 * 3)); [ lra | ].
      destruct (gtb_spec d (5 * 2)); [ lra | reflexivity ].
    + intros v lat lon Hin Hv; unfold expected; rewrite Hv.
      simpl in Hin.
      repeat (destruct Hin as [Hin | Hin];
              [ inversion Hin; subst; reflexivity | ]).
      contradiction.
    + intros H; apply get_default, H.
    + apply haversine_km_self.
Qed.

(** A record of V-101 some 7 km north of the reference point of V-101: a
    medium alert. *)
Lemma route_deviation_alert_iff_witness :
  In telemetry_off_route [telemetry_off_route]
  /\ In (alert_of 5 telemetry_off_route)
        (detect_route_deviations [telemetry_off_route])
  /\ severity (alert_of 5 telemetry_off_route) = "medium"%string
  /\ 6 < deviation_km (alert_of 5 telemetry_off_route) < 9.
Proof.
  assert (H : In telemetry_off_route [telemetry_off_route])
    by (left; reflexivity).
  split; [ exact H | ].
  pose proof (route_deviation_alert_iff [telemetry_off_route]
                telemetry_off_route H) as T.
  cbv zeta in T.
  destruct T as [E [_ [Hiff [_ [Hd [_ [_ [_ [_ [_ [_ [_ [Hmed _]]]]]]]]]]]]].
  assert (B : 6 < haversine_km (407757 / 10000) (- (740060 / 10000))
                    (407128 / 10000) (- (740060 / 10000)) < 9).
  { rewrite haversine_km_meridian by lra.
    replace (407128 / 10000 - 407757 / 10000) with (- (629 / 10000)) by lra.
    rewrite Rabs_Ropp, Rabs_right by lra.
    pose proof PI2_3_2; pose proof PI_4; lra. }
  simpl in E; rewrite E in B.
  split; [ apply Hiff; simpl; lra | ].
  split; [ apply Hmed; simpl; lra | ].
  rewrite Hd; simpl; exact B.
Defined.

End Route.

(** ** The fuel forecast *)

Section Forecast.
Import predictor.

Lemma round_half_even_below (y : R) (z : Z) :
  IZR z <= y < IZR z + 1 / 2 -> Py.round_half_even y = z.
Proof.
  intros H; unfold Py.round_half_even.
  assert (E : Int_part y = z) by (symmetry; apply Int_part_spec; lra).
  rewrite E.
  destruct (Rlt_dec (y - IZR z) (1 / 2)); [ reflexivity | lra ].
Qed.

(** Rounding to the nearest integer moves a number by at most one half. *)
Lemma round_half_even_error (y : R) :
  - (1 / 2) <= IZR (Py.round_half_even y) - y <= 1 / 2.
Proof.
  unfold Py.round_half_even.
  destruct (base_Int_part y) as [Hle Hgt].
  set (f := Int_part y) in *.
  destruct (Rlt_dec (y - IZR f) (1 / 2)); [ lra | ].
  destruct (Rlt_dec (1 / 2) (y - IZR f)); [ rewrite plus_IZR; lra | ].
  destruct (Z.even f); [ | rewrite plus_IZR ]; lra.
Qed.

(** [round(x, 1)] is within 0.05 of [x]. *)
Lemma round_1_error (x : R) : Rabs (Py.round x 1 - x) <= 5 / 100.
Proof.
  unfold Py.round.
  pose proof (round_half_even_error (x * 10 ^ 1)) as H.
  replace (10 ^ 1) with 10 in * by (simpl; lra).
  apply Rabs_le; lra.
Qed.

(** C8, as stated, fails: with 7 litres consumed in the window the rate is
    1.4 L/min and the function returns 21.4, not 30 / 1.4. *)
Lemma fuel_exhaustion_is_rounded :
  ~ 7 / 5 < 1 / 100
  /\ _fuel_exhaustion_minutes 7 5 50 = 214 / 10
  /\ _fuel_exhaustion_minutes 7 5 50 <> Rmax 0 ((40 - 10) / (7 / 5)).
Proof.
  assert (E : _fuel_exhaustion_minutes 7 5 50 = 214 / 10).
  { unfold _fuel_exhaustion_minutes.
    destruct (ltb_spec (7 / 5) (1 / 100)); [ lra | ].
    rewrite py_max_Rmax, Rmax_right by lra.
    unfold Py.round.
    rewrite (round_half_even_below _ 214); simpl; lra. }
  split; [ lra | split; [ exact E | ] ].
  rewrite E, Rmax_right by lra; lra.
Qed.

(** C8, amended.  With [rate = avg_fuel_consumed / 5], the function returns
    the sentinel [-1] when [rate < 0.01], in particular at rate 0, and
    otherwise [(40 - 10) / rate] floored at 0 and rounded to one decimal
    place, a value within 0.05 of the unrounded one. *)
Theorem fuel_exhaustion_minutes_rounded :
  forall avg_fuel_consumed avg_efficiency avg_speed : R,
    let rate := avg_fuel_consumed / 5 in
    let result :=
      _fuel_exhaustion_minutes avg_fuel_consumed avg_efficiency avg_speed in
    (rate < 1 / 100 -> result = - 1)
    /\ (~ rate < 1 / 100 ->
        result = Py.round (Rmax 0 ((40 - 10) / rate)) 1
        /\ Rabs (result - Rmax 0 ((40 - 10) / rate)) <= 5 / 100)
    /\ _fuel_exhaustion_minutes 0 avg_efficiency avg_speed = - 1.
Proof.
  intros fuel eff speed rate result; subst rate result.
  unfold _fuel_exhaustion_minutes.
  repeat split.
  - intros H; destruct (ltb_spec (fuel / 5) (1 / 100));
      [ reflexivity | contradiction ].
  - destruct (ltb_spec (fuel / 5) (1 / 100)); [ contradiction | ].
    rewrite py_max_Rmax; reflexivity.
  - destruct (ltb_spec (fuel / 5) (1 / 100)); [ contradiction | ].
    rewrite py_max_Rmax; apply round_1_error.
  - destruct (ltb_spec (0 / 5) (1 / 100)); [ reflexivity | lra ].
Qed.

End Forecast.

(** ** The risk score *)

Section Risk.
Import risk_scoring scenarios.

Lemma count_by_vehicle_nonneg {A : Type} (vid : A -> string)
    (t : Pathway.Table A) (kn : string * Z) :
  In kn (count_by_vehicle vid t) -> (0 <= snd kn)%Z.
Proof.
  unfold count_by_vehicle; intros H.
  apply in_map_iff in H; destruct H as [kg [<- _]]; simpl.
  unfold Pathway.reducers.count; lia.
Qed.

Lemma with_count_rows {A : Type} (vid : A -> string)
    (left : Pathway.Table A) (counts : Pathway.Table (string * Z))
    (an : A * Z) :
  (forall kn, In kn counts -> (0 <= snd kn)%Z) ->
  In an (with_count vid left counts) ->
  In (fst an) left /\ (0 <= snd an)%Z.
Proof.
  intros Hc H; unfold with_count, Pathway.select, Pathway.join_left in H.
  apply in_map_iff in H; destruct H as [[a o] [<- H]]; simpl.
  apply in_flat_map in H; destruct H as [a0 [Ha0 H]].
  destruct (List.filter (fun r => String.eqb (vid a0) (fst r)) counts)
    as [ | m ms ] eqn:E.
  - destruct H as [H | []]; inversion H; subst; simpl; split;
      [ assumption | lia ].
  - apply in_map_iff in H; destruct H as [b [H Hb]].
    inversion H; subst; simpl; split; [ assumption | ].
    apply Hc.
    assert (Hf : In b (List.filter
                         (fun r => String.eqb (vid a) (fst r)) counts))
      by (rewrite E; exact Hb).
    apply filter_In in Hf; tauto.
Qed.

(** Every row of the risk table is [score_row] of the statistics of a
    vehicle and three alert counts, none of them negative. *)
Lemma compute_risk_scores_rows
    (windowed : Pathway.Table windows.WindowRow)
    (threshold_alerts : Pathway.Table threshold.Alert)
    (zscore_alerts : Pathway.Table zscore.Alert)
    (route_alerts : Pathway.Table route_deviation.Alert) (r : RiskRow) :
  In r (compute_risk_scores windowed threshold_alerts zscore_alerts
          route_alerts) ->
  exists s tc zc rc,
    r = score_row (((s, tc), zc), rc)
    /\ In s (vehicle_stats windowed)
    /\ (0 <= tc)%Z /\ (0 <= zc)%Z /\ (0 <= rc)%Z.
Proof.
  unfold compute_risk_scores, Pathway.select; intros H.
  apply in_map_iff in H; destruct H as [[[[s tc] zc] rc] [<- H]].
  apply with_count_rows in H;
    [ | intros kn; apply count_by_vehicle_nonneg ].
  destruct H as [H Hrc]; simpl in H, Hrc.
  apply with_count_rows in H;
    [ | intros kn; apply count_by_vehicle_nonneg ].
  destruct H as [H Hzc]; simpl in H, Hzc.
  apply with_count_rows in H;
    [ | intros kn; apply count_by_vehicle_nonneg ].
  destruct H as [H Htc]; simpl in H, Htc.
  exists s, tc, zc, rc; tauto.
Qed.

Lemma efficiency_impact_cases (eff : R) :
  (eff >= 8 -> efficiency_impact_of eff = 10)
  /\ (eff < 8 -> eff >= 6 -> efficiency_impact_of eff = 25)
  /\ (eff < 6 -> eff >= 4 -> efficiency_impact_of eff = 55)
  /\ (eff < 4 -> efficiency_impact_of eff = 85)
  /\ 10 <= efficiency_impact_of eff <= 85.
Proof.
  unfold efficiency_impact_of.
  destruct (geb_spec eff 8), (geb_spec eff 6), (geb_spec eff 4);
    repeat split; intros; lra.
Qed.

Lemma alert_impact_bounds (total : Z) :
  (0 <= total)%Z -> 0 <= alert_impact_of total <= 100.
Proof.
  intros H; apply IZR_le in H.
  unfold alert_impact_of, Py.float; rewrite py_min_Rmin.
  unfold Rmin; destruct (Rle_dec 100 (IZR total * 20)); lra.
Qed.

Lemma carbon_impact_bounds (carbon : R) :
  0 <= carbon -> 0 <= carbon_impact_of carbon <= 100.
Proof.
  intros H; unfold carbon_impact_of; rewrite py_min_Rmin.
  unfold Rmin; destruct (Rle_dec 100 (carbon * 5)); lra.
Qed.

Lemma status_impact_bounds (route_cnt : Z) (speed_var : R) :
  (0 <= route_cnt)%Z -> 10 <= status_impact_of route_cnt speed_var <= 100.
Proof.
  intros H; apply IZR_le in H.
  unfold status_impact_of, Py.float; rewrite py_min_Rmin.
  destruct (gtb_spec speed_var 30); unfold Rmin;
    match goal with |- context [Rle_dec ?a ?b] => destruct (Rle_dec a b) end;
    lra.
Qed.

(** C5.  Every row of the risk table has [risk_score = 0.35 alert_impact +
    0.25 efficiency_impact + 0.25 carbon_impact + 0.15 status_impact], with
    [alert_impact = min(100, 20 total_alerts)], [efficiency_impact] 10, 25,
    55 or 85 by the thresholds 8, 6 and 4 on [avg_efficiency],
    [carbon_impact = min(100, 5 avg_carbon_kg)] and [status_impact =
    min(100, 35 route_alert_count + (35 if speed_var > 30 else 10))]; the
    alert counts are not negative and each impact lies in [0, 100], the
    carbon impact when [avg_carbon_kg] is not negative. *)
Theorem risk_score_formula :
  forall (windowed : Pathway.Table windows.WindowRow)
         (threshold_alerts : Pathway.Table threshold.Alert)
         (zscore_alerts : Pathway.Table zscore.Alert)
         (route_alerts : Pathway.Table route_deviation.Alert)
         (r : RiskRow),
    In r (compute_risk_scores windowed threshold_alerts zscore_alerts
            route_alerts) ->
    risk_score r
    = 35 / 100 * alert_impact r + 25 / 100 * efficiency_impact r
      + 25 / 100 * carbon_impact r + 15 / 100 * status_impact r
    /\ total_alerts r
       = (threshold_alert_count r + zscore_alert_count r
          + route_alert_count r)%Z
    /\ (0 <= total_alerts r)%Z /\ (0 <= route_alert_count r)%Z
    /\ alert_impact r = Rmin 100 (IZR (total_alerts r) * 20)
    /\ (avg_efficiency r >= 8 -> efficiency_impact r = 10)
    /\ (avg_efficiency r < 8 -> avg_efficiency r >= 6 ->
        efficiency_impact r = 25)
    /\ (avg_efficiency r < 6 -> avg_efficiency r >= 4 ->
        efficiency_impact r = 55)
    /\ (avg_efficiency r < 4 -> efficiency_impact r = 85)
    /\ carbon_impact r = Rmin 100 (avg_carbon_kg r * 5)
    /\ (speed_var r > 30 ->
        status_impact r = Rmin 100 (IZR (route_alert_count r) * 35 + 35))
    /\ (~ speed_var r > 30 ->
        status_impact r = Rmin 100 (IZR (route_alert_count r) * 35 + 10))
    /\ 0 <= alert_impact r <= 100
    /\ 0 <= efficiency_impact r <= 100
    /\ (0 <= avg_carbon_kg r -> 0 <= carbon_impact r <= 100)
    /\ 0 <= status_impact r <= 100.
Proof.
  intros windowed ta za ra r Hr.
  apply compute_risk_scores_rows in Hr.
  destruct Hr as [s [tc [zc [rc [-> [_ [Htc [Hzc Hrc]]]]]]]].
  unfold score_row; simpl.
  destruct (efficiency_impact_cases (stats_avg_efficiency s))
    as [E8 [E6 [E4 [E0 Eb]]]].
  pose proof (alert_impact_bounds (tc + zc + rc) ltac:(lia)) as Ab.
  pose proof (status_impact_bounds rc (stats_speed_var s) Hrc) as Sb.
  split; [ reflexivity | ].
  split; [ reflexivity | ].
  split; [ lia | ].
  split; [ exact Hrc | ].
  split; [ unfold alert_impact_of, Py.float; apply py_min_Rmin | ].
  split; [ exact E8 | ].
  split; [ exact E6 | ].
  split; [ exact E4 | ].
  split; [ exact E0 | ].
  split; [ unfold carbon_impact_of; apply py_min_Rmin | ].
  split.
  { intros H; unfold status_impact_of, Py.float; rewrite py_min_Rmin.
    destruct (gtb_spec (stats_speed_var s) 30);
      [ reflexivity | contradiction ]. }
  split.
  { intros H; unfold status_impact_of, Py.float; rewrite py_min_Rmin.
    destruct (gtb_spec (stats_speed_var s) 30);
      [ contradiction | reflexivity ]. }
  split; [ exact Ab | ].
  split; [ lra | ].
  split; [ apply carbon_impact_bounds | lra ].
Qed.

Lemma risk_score_formula_witness :
  In risk1 (compute_risk_scores [window_of 4] [] [] [])
  /\ risk_score risk1
     = 35 / 100 * alert_impact risk1 + 25 / 100 * efficiency_impact risk1
       + 25 / 100 * carbon_impact risk1 + 15 / 100 * status_impact risk1
  /\ 0 <= alert_impact risk1 <= 100.
Proof.
  assert (H : In risk1 (compute_risk_scores [window_of 4] [] [] []))
    by (left; reflexivity).
  split; [ exact H | ].
  split; apply (risk_score_formula [window_of 4] [] [] [] risk1 H).
Defined.

(** C10.  Every row of the risk table whose [avg_carbon_kg] is not negative
    (the alert counts never are) has its [risk_score] in [4, 96.25]: it is
    neither 0 nor 100. *)
Theorem risk_score_range :
  forall (windowed : Pathway.Table windows.WindowRow)
         (threshold_alerts : Pathway.Table threshold.Alert)
         (zscore_alerts : Pathway.Table zscore.Alert)
         (route_alerts : Pathway.Table route_deviation.Alert)
         (r : RiskRow),
    In r (compute_risk_scores windowed threshold_alerts zscore_alerts
            route_alerts) ->
    0 <= avg_carbon_kg r ->
    (0 <= threshold_alert_count r)%Z /\ (0 <= zscore_alert_count r)%Z
    /\ (0 <= route_alert_count r)%Z
    /\ 10 <= efficiency_impact r <= 85
    /\ 10 <= status_impact r
    /\ 4 <= risk_score r <= 9625 / 100
    /\ risk_score r <> 0 /\ risk_score r <> 100.
Proof.
  intros windowed ta za ra r Hr.
  apply compute_risk_scores_rows in Hr.
  destruct Hr as [s [tc [zc [rc [-> [_ [Htc [Hzc Hrc]]]]]]]].
  unfold score_row; simpl; intros Hc.
  pose proof (efficiency_impact_cases (stats_avg_efficiency s))
    as [_ [_ [_ [_ Eb]]]].
  pose proof (alert_impact_bounds (tc + zc + rc) ltac:(lia)) as Ab.
  pose proof (status_impact_bounds rc (stats_speed_var s) Hrc) as Sb.
  pose proof (carbon_impact_bounds _ Hc) as Cb.
  repeat split; try assumption; lra.
Qed.

Lemma risk_score_range_witness :
  In risk1 (compute_risk_scores [window_of 4] [] [] [])
  /\ 0 <= avg_carbon_kg risk1
  /\ 4 <= risk_score risk1 <= 9625 / 100.
Proof.
  assert (H : In risk1 (compute_risk_scores [window_of 4] [] [] []))
    by (left; reflexivity).
  assert (Hc : 0 <= avg_carbon_kg risk1).
  { unfold risk1, score_row, vehicle_stats1; simpl.
    unfold Pathway.reducers.avg, Pathway.reducers.sum,
      Pathway.reducers.count; simpl; lra. }
  split; [ exact H | split; [ exact Hc | ] ].
  apply (risk_score_range [window_of 4] [] [] [] risk1 H Hc).
Defined.

End Risk.

(** * More of the pipeline *)

(** ** Groups partition a table *)

Section GroupByPartition.
Context {A K : Type}.
Variable eqb : K -> K -> bool.
Hypothesis eqb_eq : forall a b, eqb a b = true <-> a = b.
Variable key : A -> K.

Lemma eqb_refl_true (k : K) : eqb k k = true.
Proof. apply eqb_eq; reflexivity. Qed.

Lemma In_distinct (k : K) (ks : list K) :
  In k (Pathway.distinct eqb ks) <-> In k ks.
Proof.
  unfold Pathway.distinct; rewrite (distinct_from_In eqb eqb_eq); simpl; tauto.
Qed.

Lemma groupby_keys (t : list A) :
  map fst (Pathway.groupby eqb key t) = Pathway.distinct eqb (map key t).
Proof.
  unfold Pathway.groupby; rewrite map_map; simpl; apply map_id.
Qed.

Lemma groupby_keys_NoDup (t : list A) :
  NoDup (map fst (Pathway.groupby eqb key t)).
Proof. rewrite groupby_keys; apply distinct_from_NoDup, eqb_eq. Qed.

Lemma groupby_group (t : list A) (k : K) (g : list A) :
  In (k, g) (Pathway.groupby eqb key t) ->
  In k (map key t) /\ g = List.filter (fun a => eqb (key a) k) t.
Proof.
  unfold Pathway.groupby; intros H.
  apply in_map_iff in H; destruct H as [k0 [E Hk]].
  inversion E; subst; split; [ apply In_distinct, Hk | reflexivity ].
Qed.

Lemma filter_or_Permutation (p q : A -> bool) (t : list A) :
  (forall a, p a = true -> q a = false) ->
  Permutation (List.filter p t ++ List.filter q t)
              (List.filter (fun a => p a || q a) t).
Proof.
  intros D; induction t as [ | a t IH ]; simpl; [ constructor | ].
  destruct (p a) eqn:Ep; simpl.
  - rewrite (D a Ep); constructor; exact IH.
  - destruct (q a); [ | exact IH ].
    etransitivity; [ symmetry; apply Permutation_middle | ].
    constructor; exact IH.
Qed.

Lemma concat_groups_Permutation (t : list A) (ks : list K) :
  NoDup ks ->
  Permutation
    (List.concat (map (fun k => List.filter (fun a => eqb (key a) k) t) ks))
    (List.filter (fun a => existsb (eqb (key a)) ks) t).
Proof.
  induction 1 as [ | k ks Hk _ IH ]; simpl.
  - induction t; simpl; [ constructor | assumption ].
  - etransitivity; [ apply Permutation_app_head, IH | ].
    apply filter_or_Permutation.
    intros a E; apply eqb_eq in E; subst k.
    apply not_true_is_false; intros H.
    apply (existsb_eqb_In eqb eqb_eq) in H; contradiction.
Qed.

(** The groups of a table, put end to end, hold the rows of the table:
    none is lost, none appears twice. *)
Lemma groupby_partition (t : list A) :
  Permutation (List.concat (map snd (Pathway.groupby eqb key t))) t.
Proof.
  unfold Pathway.groupby; rewrite map_map; simpl.
  etransitivity;
    [ apply concat_groups_Permutation, distinct_from_NoDup, eqb_eq | ].
  rewrite forallb_filter_id; [ reflexivity | ].
  apply forallb_forall; intros a Ha.
  apply (existsb_eqb_In eqb eqb_eq), In_distinct, in_map, Ha.
Qed.

End GroupByPartition.

(** ** Joining on a key that is unique on the right *)

Lemma filter_none {B : Type} (p : B -> bool) (r : list B) :
  (forall b, In b r -> p b = false) -> List.filter p r = [].
Proof.
  induction r as [ | b r IH ]; simpl; intros H; [ reflexivity | ].
  rewrite (H b (or_introl eq_refl)); apply IH; intros; apply H; tauto.
Qed.

Section UniqueJoin.
Context {A B : Type}.
Variable ka : A -> string.
Variable kb : B -> string.

Lemma filter_unique_key (k : string) (r : list B) :
  NoDup (map kb r) ->
  List.filter (fun b => String.eqb k (kb b)) r
  = match find (fun b => String.eqb k (kb b)) r with
    | Some b => [b]
    | None => []
    end.
Proof.
  induction r as [ | b r IH ]; simpl; intros N; [ reflexivity | ].
  inversion N as [ | ? ? Hnotin N' ]; subst.
  destruct (String.eqb_spec k (kb b)).
  - f_equal; apply filter_none; intros b' Hb'.
    apply String.eqb_neq; intros E; apply Hnotin.
    rewrite <- e, E; apply in_map, Hb'.
  - apply IH, N'.
Qed.

(** With at most one right row per key, [join_left] pairs every left row,
    once, with the right row of its key if there is one. *)
Lemma join_left_unique (l : list A) (r : list B) :
  NoDup (map kb r) ->
  Pathway.join_left (fun a b => String.eqb (ka a) (kb b)) l r
  = map (fun a => (a, find (fun b => String.eqb (ka a) (kb b)) r)) l.
Proof.
  intros N; unfold Pathway.join_left.
  induction l as [ | a l IH ]; [ reflexivity | ].
  cbn [flat_map].
  rewrite IH, (filter_unique_key (ka a) r N).
  destruct (find (fun b => String.eqb (ka a) (kb b)) r) eqn:E;
    simpl; rewrite E; reflexivity.
Qed.

End UniqueJoin.

(** ** Counting the alerts of a vehicle *)

Section Counting.
Import risk_scoring counting.
Context {A : Type}.
Variable vid : A -> string.

Lemma count_by_vehicle_keys (t : list A) :
  map fst (count_by_vehicle vid t) = Pathway.distinct String.eqb (map vid t).
Proof.
  unfold count_by_vehicle; rewrite map_map; simpl.
  apply (groupby_keys String.eqb vid).
Qed.

Lemma count_by_vehicle_NoDup (t : list A) :
  NoDup (map fst (count_by_vehicle vid t)).
Proof.
  rewrite count_by_vehicle_keys.
  apply distinct_from_NoDup, String.eqb_eq.
Qed.

Lemma count_by_vehicle_In (t : list A) (k : string) (n : Z) :
  In (k, n) (count_by_vehicle vid t) -> In k (map vid t) /\ n = rows_of vid t k.
Proof.
  unfold count_by_vehicle; intros H.
  apply in_map_iff in H; destruct H as [[k0 g] [E H]].
  simpl in E; inversion E; subst.
  apply (groupby_group String.eqb String.eqb_eq) in H.
  destruct H as [Hk ->]; split; [ exact Hk | reflexivity ].
Qed.

(** The count a vehicle gets from a table of counts, [0] when it has no
    row there, is the number of its rows in the counted table. *)
Lemma count_by_vehicle_find (t : list A) (v : string) :
  Pathway.coalesce
    (option_map snd
       (find (fun r : string * Z => String.eqb v (fst r))
          (count_by_vehicle vid t))) 0%Z
  = rows_of vid t v.
Proof.
  destruct (find _ _) as [[k n] | ] eqn:E; simpl.
  - apply find_some in E; destruct E as [Hin Hk]; simpl in Hk.
    apply String.eqb_eq in Hk; subst k.
    apply count_by_vehicle_In in Hin; tauto.
  - unfold rows_of.
    assert (F : List.filter (fun a => String.eqb (vid a) v) t = []);
      [ | rewrite F; reflexivity ].
    apply filter_none.
    intros a Ha; apply String.eqb_neq; intros Ev.
    assert (Hk : In v (map fst (count_by_vehicle vid t))).
    { rewrite count_by_vehicle_keys.
      apply (In_distinct String.eqb String.eqb_eq).
      rewrite <- Ev; apply in_map, Ha. }
    apply in_map_iff in Hk; destruct Hk as [[k n] [Ek Hin]]; simpl in Ek.
    subst k; apply (find_none _ _ E) in Hin; simpl in Hin.
    rewrite String.eqb_refl in Hin; discriminate.
Qed.

Lemma with_count_spec {L : Type} (lvid : L -> string) (left : list L)
    (t : list A) :
  with_count lvid left (count_by_vehicle vid t)
  = map (fun a => (a, rows_of vid t (lvid a))) left.
Proof.
  unfold with_count, Pathway.select.
  rewrite (join_left_unique lvid fst) by apply count_by_vehicle_NoDup.
  rewrite map_map; apply map_ext; intros a; simpl.
  rewrite count_by_vehicle_find; reflexivity.
Qed.

Lemma rows_of_nonneg (t : list A) (v : string) : (0 <= rows_of vid t v)%Z.
Proof. unfold rows_of; lia. Qed.

End Counting.

(** ** The shape of the risk table *)

Section RiskTable.
Import risk_scoring counting.

Lemma vehicle_stats_keys (w : Pathway.Table windows.WindowRow) :
  map stats_vehicle_id (vehicle_stats w)
  = Pathway.distinct String.eqb (map windows.vehicle_id w).
Proof.
  unfold vehicle_stats; rewrite map_map; simpl.
  apply (groupby_keys String.eqb windows.vehicle_id).
Qed.

Lemma compute_risk_scores_map
    (w : Pathway.Table windows.WindowRow)
    (ta : Pathway.Table threshold.Alert) (za : Pathway.Table zscore.Alert)
    (ra : Pathway.Table route_deviation.Alert) :
  compute_risk_scores w ta za ra
  = map (fun s =>
           score_row
             (((s, rows_of threshold.vehicle_id ta (stats_vehicle_id s)),
               rows_of zscore.alert_vehicle_id za (stats_vehicle_id s)),
              rows_of route_deviation.vehicle_id ra (stats_vehicle_id s)))
      (vehicle_stats w).
Proof.
  unfold compute_risk_scores, Pathway.select.
  rewrite !with_count_spec, !map_map.
  apply map_ext; intros s; reflexivity.
Qed.

Lemma compute_risk_scores_keys
    (w : Pathway.Table windows.WindowRow)
    (ta : Pathway.Table threshold.Alert) (za : Pathway.Table zscore.Alert)
    (ra : Pathway.Table route_deviation.Alert) :
  map vehicle_id (compute_risk_scores w ta za ra)
  = Pathway.distinct String.eqb (map windows.vehicle_id w).
Proof.
  rewrite compute_risk_scores_map, map_map; simpl.
  apply vehicle_stats_keys.
Qed.

Lemma risk_row_counts
    (w : Pathway.Table windows.WindowRow)
    (ta : Pathway.Table threshold.Alert) (za : Pathway.Table zscore.Alert)
    (ra : Pathway.Table route_deviation.Alert) (r : RiskRow) :
  In r (compute_risk_scores w ta za ra) ->
  threshold_alert_count r = rows_of threshold.vehicle_id ta (vehicle_id r)
  /\ zscore_alert_count r = rows_of zscore.alert_vehicle_id za (vehicle_id r)
  /\ route_alert_count r
     = rows_of route_deviation.vehicle_id ra (vehicle_id r)
  /\ total_alerts r
     = (threshold_alert_count r + zscore_alert_count r
        + route_alert_count r)%Z.
Proof.
  rewrite compute_risk_scores_map; intros H.
  apply in_map_iff in H; destruct H as [s [<- _]]; simpl; tauto.
Qed.

(** X1.  The risk table has exactly one row for each vehicle of the window
    table and no other row, and the alert counts of a row are the numbers of
    rows of that vehicle in the three alert tables. *)
Theorem risk_table_one_row_per_vehicle :
  forall (w : Pathway.Table windows.WindowRow)
         (ta : Pathway.Table threshold.Alert)
         (za : Pathway.Table zscore.Alert)
         (ra : Pathway.Table route_deviation.Alert),
    let rs := compute_risk_scores w ta za ra in
    NoDup (map vehicle_id rs)
    /\ (forall v, In v (map vehicle_id rs) <-> In v (map windows.vehicle_id w))
    /\ forall r, In r rs ->
         threshold_alert_count r
         = rows_of threshold.vehicle_id ta (vehicle_id r)
         /\ zscore_alert_count r
            = rows_of zscore.alert_vehicle_id za (vehicle_id r)
         /\ route_alert_count r
            = rows_of route_deviation.vehicle_id ra (vehicle_id r)
         /\ total_alerts r
            = (rows_of threshold.vehicle_id ta (vehicle_id r)
               + rows_of zscore.alert_vehicle_id za (vehicle_id r)
               + rows_of route_deviation.vehicle_id ra (vehicle_id r))%Z.
Proof.
  intros w ta za ra rs; subst rs.
  rewrite compute_risk_scores_keys.
  split; [ apply distinct_from_NoDup, String.eqb_eq | ].
  split; [ intros v; apply (In_distinct String.eqb String.eqb_eq) | ].
  intros r Hr; destruct (risk_row_counts _ _ _ _ _ Hr) as [T [Z0 [R0 S]]].
  rewrite S, T, Z0, R0; tauto.
Qed.

Lemma risk_score_few_alerts
    (w : Pathway.Table windows.WindowRow)
    (ta : Pathway.Table threshold.Alert) (za : Pathway.Table zscore.Alert)
    (ra : Pathway.Table route_deviation.Alert) (r : RiskRow) :
  In r (compute_risk_scores w ta za ra) ->
  ((total_alerts r <= 2)%Z -> risk_score r <= 7525 / 100)
  /\ (total_alerts r = 0%Z -> risk_score r <= 515 / 10).
Proof.
  intros Hr; apply compute_risk_scores_rows in Hr.
  destruct Hr as [s [tc [zc [rc [-> [_ [Htc [Hzc Hrc]]]]]]]].
  unfold score_row; simpl.
  pose proof (efficiency_impact_cases (stats_avg_efficiency s))
    as [_ [_ [_ [_ Eb]]]].
  pose proof (status_impact_bounds rc (stats_speed_var s) Hrc) as Sb.
  assert (Cb : carbon_impact_of (stats_avg_carbon_kg s) <= 100).
  { unfold carbon_impact_of; rewrite py_min_Rmin; apply Rmin_l. }
  split.
  - intros H2; apply IZR_le in H2.
    assert (Ab : alert_impact_of (tc + zc + rc) <= 40).
    { unfold alert_impact_of, Py.float; rewrite py_min_Rmin.
      eapply Rle_trans; [ apply Rmin_r | lra ]. }
    lra.
  - intros H0.
    assert (rc = 0%Z) by lia; subst rc.
    rewrite H0.
    assert (Ab : alert_impact_of 0 = 0).
    { unfold alert_impact_of, Py.float; rewrite py_min_Rmin.
      unfold Rmin; destruct (Rle_dec 100 (0 * 20)); lra. }
    assert (Sb' : status_impact_of 0 (stats_speed_var s) <= 35).
    { unfold status_impact_of, Py.float; rewrite py_min_Rmin.
      eapply Rle_trans; [ apply Rmin_r | ].
      destruct (gtb_spec (stats_speed_var s) 30); lra. }
    lra.
Qed.

(** X2.  A vehicle with at most two alerts has a risk score of at most
    75.25, and one without alerts at most 51.5: the score exceeds 80 only
    with three alerts or more. *)
Theorem risk_score_above_80_needs_three_alerts :
  forall (w : Pathway.Table windows.WindowRow)
         (ta : Pathway.Table threshold.Alert)
         (za : Pathway.Table zscore.Alert)
         (ra : Pathway.Table route_deviation.Alert) (r : RiskRow),
    In r (compute_risk_scores w ta za ra) ->
    ((total_alerts r <= 2)%Z -> risk_score r <= 7525 / 100)
    /\ (total_alerts r = 0%Z -> risk_score r <= 515 / 10)
    /\ (risk_score r > 80 -> (3 <= total_alerts r)%Z).
Proof.
  intros w ta za ra r Hr.
  destruct (risk_score_few_alerts _ _ _ _ _ Hr) as [H2 H0].
  split; [ exact H2 | split; [ exact H0 | ] ].
  intros H80.
  destruct (Z_le_gt_dec (total_alerts r) 2) as [Hle | Hgt]; [ | lia ].
  specialize (H2 Hle); lra.
Qed.

Lemma risk_score_above_80_needs_three_alerts_witness :
  In scenarios.risk1
     (compute_risk_scores [scenarios.window_of 4] [] [] [])
  /\ risk_score scenarios.risk1 <= 515 / 10.
Proof.
  assert (H : In scenarios.risk1
                (compute_risk_scores [scenarios.window_of 4] [] [] []))
    by (left; reflexivity).
  split; [ exact H | ].
  apply (risk_score_above_80_needs_three_alerts
           [scenarios.window_of 4] [] [] [] scenarios.risk1 H).
  reflexivity.
Defined.

(** X3.  For a row whose average carbon is not negative the four
    contribution percentages are each in [0, 100] and add up to 100. *)
Theorem risk_contributions_sum_to_100 :
  forall (w : Pathway.Table windows.WindowRow)
         (ta : Pathway.Table threshold.Alert)
         (za : Pathway.Table zscore.Alert)
         (ra : Pathway.Table route_deviation.Alert) (r : RiskRow),
    In r (compute_risk_scores w ta za ra) ->
    0 <= avg_carbon_kg r ->
    alert_impact_pct r + efficiency_impact_pct r + carbon_impact_pct r
    + status_impact_pct r = 100
    /\ 0 <= alert_impact_pct r <= 100
    /\ 0 < efficiency_impact_pct r <= 100
    /\ 0 <= carbon_impact_pct r <= 100
    /\ 0 < status_impact_pct r <= 100.
Proof.
  intros w ta za ra r Hr.
  apply compute_risk_scores_rows in Hr.
  destruct Hr as [s [tc [zc [rc [-> [_ [Htc [Hzc Hrc]]]]]]]].
  unfold score_row; simpl; intros Hc.
  pose proof (efficiency_impact_cases (stats_avg_efficiency s))
    as [_ [_ [_ [_ Eb]]]].
  pose proof (alert_impact_bounds (tc + zc + rc) ltac:(lia)) as Ab.
  pose proof (status_impact_bounds rc (stats_speed_var s) Hrc) as Sb.
  pose proof (carbon_impact_bounds _ Hc) as Cb.
  set (a := alert_impact_of (tc + zc + rc)) in *.
  set (e := efficiency_impact_of (stats_avg_efficiency s)) in *.
  set (c := carbon_impact_of (stats_avg_carbon_kg s)) in *.
  set (st := status_impact_of rc (stats_speed_var s)) in *.
  set (risk := 35 / 100 * a + 25 / 100 * e + 25 / 100 * c + 15 / 100 * st).
  assert (Hrisk : 0 < risk) by (unfold risk; lra).
  unfold pct_of.
  destruct (gtb_spec risk 0); [ | lra ].
  assert (Hdiv : forall x, 0 <= x <= risk -> 0 <= x / risk * 100 <= 100).
  { intros x Hx; split.
    - apply Rmult_le_pos; [ apply Rmult_le_pos; [ lra | ] | lra ].
      apply Rlt_le, Rinv_0_lt_compat, Hrisk.
    - assert (x / risk <= 1); [ | lra ].
      apply (Rmult_le_reg_r risk); [ exact Hrisk | ].
      unfold Rdiv; rewrite Rmult_assoc, Rinv_l by lra; lra. }
  assert (Hpos : forall x, 0 < x -> 0 < x / risk * 100).
  { intros x Hx; apply Rmult_lt_0_compat; [ | lra ].
    apply Rdiv_lt_0_compat; assumption. }
  split; [ unfold risk; field; fold risk; lra | ].
  split; [ apply Hdiv; unfold risk; lra | ].
  split; [ split; [ apply Hpos; lra | apply Hdiv; unfold risk; lra ] | ].
  split; [ apply Hdiv; unfold risk; lra | ].
  split; [ apply Hpos; lra | apply Hdiv; unfold risk; lra ].
Qed.

Lemma risk_contributions_sum_to_100_witness :
  In scenarios.risk1
     (compute_risk_scores [scenarios.window_of 4] [] [] [])
  /\ 0 <= avg_carbon_kg scenarios.risk1
  /\ alert_impact_pct scenarios.risk1 + efficiency_impact_pct scenarios.risk1
     + carbon_impact_pct scenarios.risk1 + status_impact_pct scenarios.risk1
     = 100.
Proof.
  assert (H : In scenarios.risk1
                (compute_risk_scores [scenarios.window_of 4] [] [] []))
    by (left; reflexivity).
  assert (Hc : 0 <= avg_carbon_kg scenarios.risk1).
  { unfold scenarios.risk1, score_row, scenarios.vehicle_stats1; simpl.
    unfold Pathway.reducers.avg, Pathway.reducers.sum,
      Pathway.reducers.count; simpl; lra. }
  split; [ exact H | split; [ exact Hc | ] ].
  apply (risk_contributions_sum_to_100
           [scenarios.window_of 4] [] [] [] scenarios.risk1 H Hc).
Defined.

End RiskTable.

(** ** Alerts, risk and the state of a vehicle *)

Lemma rows_of_app {A : Type} (vid : A -> string) (t d : list A) (v : string) :
  counting.rows_of vid (t ++ d) v
  = (counting.rows_of vid t v + counting.rows_of vid d v)%Z.
Proof.
  unfold counting.rows_of; rewrite filter_app, length_app; lia.
Qed.

Lemma Forall2_map_same {A B : Type} (P : B -> B -> Prop) (f g : A -> B)
    (l : list A) :
  (forall x, In x l -> P (f x) (g x)) -> Forall2 P (map f l) (map g l).
Proof.
  induction l as [ | a l IH ]; simpl; intros H; constructor.
  - apply H; left; reflexivity.
  - apply IH; intros; apply H; right; assumption.
Qed.

Lemma find_key_some {B : Type} (kb : B -> string) (k : string) (r : list B) :
  In k (map kb r) ->
  exists b, find (fun b => String.eqb k (kb b)) r = Some b
            /\ In b r /\ kb b = k.
Proof.
  intros H; destruct (find (fun b => String.eqb k (kb b)) r) as [b | ] eqn:E.
  - apply find_some in E; destruct E as [Hin Hk].
    apply String.eqb_eq in Hk; exists b; auto.
  - apply in_map_iff in H; destruct H as [b [Hk Hin]].
    apply (find_none _ _ E) in Hin; simpl in Hin.
    rewrite Hk, String.eqb_refl in Hin; discriminate.
Qed.

Section RiskMonotone.
Import risk_scoring counting.

Lemma alert_impact_mono (n m : Z) :
  (n <= m)%Z -> alert_impact_of n <= alert_impact_of m.
Proof.
  intros H; apply IZR_le in H.
  unfold alert_impact_of, Py.float; rewrite !py_min_Rmin.
  apply Rle_min_compat_l; lra.
Qed.

Lemma status_impact_mono (n m : Z) (sv : R) :
  (n <= m)%Z -> status_impact_of n sv <= status_impact_of m sv.
Proof.
  intros H; apply IZR_le in H.
  unfold status_impact_of, Py.float; rewrite !py_min_Rmin.
  apply Rle_min_compat_l; destruct (Py.gtb sv 30); lra.
Qed.

(** X4.  Alerts that arrive never lower a risk score: when rows are
    appended to the three alert tables, the risk table keeps its vehicles
    and no score decreases. *)
Theorem more_alerts_no_lower_risk :
  forall (w : Pathway.Table windows.WindowRow)
         (ta dta : Pathway.Table threshold.Alert)
         (za dza : Pathway.Table zscore.Alert)
         (ra dra : Pathway.Table route_deviation.Alert),
    Forall2
      (fun r r' =>
         vehicle_id r = vehicle_id r' /\ risk_score r <= risk_score r')
      (compute_risk_scores w ta za ra)
      (compute_risk_scores w (ta ++ dta) (za ++ dza) (ra ++ dra)).
Proof.
  intros; rewrite !compute_risk_scores_map.
  apply Forall2_map_same; intros s _.
  unfold score_row; simpl; split; [ reflexivity | ].
  rewrite !rows_of_app.
  set (v := stats_vehicle_id s).
  pose proof (rows_of_nonneg threshold.vehicle_id dta v).
  pose proof (rows_of_nonneg zscore.alert_vehicle_id dza v).
  pose proof (rows_of_nonneg route_deviation.vehicle_id dra v).
  pose proof (alert_impact_mono
                (rows_of threshold.vehicle_id ta v
                 + rows_of zscore.alert_vehicle_id za v
                 + rows_of route_deviation.vehicle_id ra v)
                (rows_of threshold.vehicle_id ta v
                 + rows_of threshold.vehicle_id dta v
                 + (rows_of zscore.alert_vehicle_id za v
                    + rows_of zscore.alert_vehicle_id dza v)
                 + (rows_of route_deviation.vehicle_id ra v
                    + rows_of route_deviation.vehicle_id dra v))
                ltac:(lia)).
  pose proof (status_impact_mono
                (rows_of route_deviation.vehicle_id ra v)
                (rows_of route_deviation.vehicle_id ra v
                 + rows_of route_deviation.vehicle_id dra v)
                (stats_speed_var s) ltac:(lia)).
  lra.
Qed.

End RiskMonotone.

Section StateTable.
Import vehicle_state counting.

Lemma combined_route_deviation
    (w : Pathway.Table windows.WindowRow)
    (rs : Pathway.Table risk_scoring.RiskRow)
    (ra : Pathway.Table route_deviation.Alert) (c : Combined) :
  In c (combined w rs ra) ->
  route_deviation c = rows_of route_deviation.vehicle_id ra (c_vehicle_id c).
Proof.
  unfold combined, route_flag, Pathway.select.
  rewrite (join_left_unique wr_vehicle_id fst)
    by apply count_by_vehicle_NoDup.
  rewrite map_map; intros H.
  apply in_map_iff in H; destruct H as [l [<- _]]; simpl.
  apply count_by_vehicle_find.
Qed.

Lemma state_not_route (carbon speed eff risk : R) (alerts route : Z) :
  _determine_state carbon speed eff risk alerts route = STATE_ROUTE_DEVIATION
  -> route = 1%Z
     /\ ~ risk > CRITICAL_RISK_SCORE /\ (alerts < CRITICAL_ALERT_COUNT)%Z.
Proof.
  unfold _determine_state.
  destruct (gtb_spec risk CRITICAL_RISK_SCORE); simpl; [ discriminate | ].
  destruct (Z.geb_spec alerts CRITICAL_ALERT_COUNT); simpl;
    [ discriminate | ].
  destruct (Z.eqb_spec route 1); [ tauto | ].
  destruct (Py.gtb carbon EMISSION_THRESHOLD_KG); [ discriminate | ].
  destruct (Py.ltb speed IDLE_SPEED_KMH); [ discriminate | ].
  destruct (Py.gtb eff EFFICIENCY_GOOD_THRESHOLD && (alerts =? 0)%Z);
    discriminate.
Qed.

(** X5.  The state machine reads the number of route alerts of a vehicle
    where its rule tests for the value 1: a vehicle is classified
    ROUTE_DEVIATION only with exactly one route alert, so a vehicle with two
    or more never is. *)
Theorem route_deviation_state_needs_one_alert :
  forall (w : Pathway.Table windows.WindowRow)
         (rs : Pathway.Table risk_scoring.RiskRow)
         (ra : Pathway.Table route_deviation.Alert) (r : StateRow),
    In r (compute_vehicle_states w rs ra) ->
    (current_state r = STATE_ROUTE_DEVIATION ->
     rows_of route_deviation.vehicle_id ra (vehicle_id r) = 1%Z)
    /\ ((2 <= rows_of route_deviation.vehicle_id ra (vehicle_id r))%Z ->
        current_state r <> STATE_ROUTE_DEVIATION).
Proof.
  intros w rs ra r Hr.
  unfold compute_vehicle_states, Pathway.select in Hr.
  apply in_map_iff in Hr; destruct Hr as [c [<- Hc]].
  apply combined_route_deviation in Hc.
  unfold state_row; simpl; rewrite <- Hc.
  assert (H1 : _determine_state (avg_carbon_kg c) (avg_speed c)
                 (avg_efficiency c) (c_risk_score c) (alert_count c)
                 (route_deviation c) = STATE_ROUTE_DEVIATION ->
               route_deviation c = 1%Z)
    by (intros H; apply state_not_route in H; tauto).
  split; [ exact H1 | intros H2 H; apply H1 in H; lia ].
Qed.

End StateTable.

Section StatePipeline.
Import vehicle_state counting.

Lemma route_deviation_state_needs_one_alert_witness :
  In scenarios.deviated_row (runs.run scenarios.deviated)
  /\ (current_state scenarios.deviated_row = STATE_ROUTE_DEVIATION ->
      rows_of route_deviation.vehicle_id [scenarios.route_alert1]
        (vehicle_id scenarios.deviated_row) = 1%Z).
Proof.
  assert (H : In scenarios.deviated_row (runs.run scenarios.deviated))
    by (rewrite run_deviated; left; reflexivity).
  split; [ exact H | ].
  apply (route_deviation_state_needs_one_alert _ _ _ _ H).
Defined.

Lemma Forall2_map_r {A B : Type} (P : A -> B -> Prop) (g : A -> B)
    (l : list A) :
  (forall x, In x l -> P x (g x)) -> Forall2 P l (map g l).
Proof.
  induction l as [ | a l IH ]; simpl; intros H; constructor.
  - apply H; left; reflexivity.
  - apply IH; intros; apply H; right; assumption.
Qed.

Lemma with_risk_pipeline
    (w : Pathway.Table windows.WindowRow)
    (ta : Pathway.Table threshold.Alert) (za : Pathway.Table zscore.Alert)
    (ra : Pathway.Table route_deviation.Alert) :
  Forall2
    (fun (wr : windows.WindowRow) (x : WithRisk) =>
       wr_vehicle_id x = windows.vehicle_id wr
       /\ wr_avg_carbon_kg x = windows.carbon_kg wr
       /\ wr_avg_speed x = windows.avg_speed wr
       /\ wr_avg_efficiency x = windows.fuel_efficiency wr
       /\ wr_alert_count x
          = (rows_of threshold.vehicle_id ta (windows.vehicle_id wr)
             + rows_of zscore.alert_vehicle_id za (windows.vehicle_id wr)
             + rows_of route_deviation.vehicle_id ra (windows.vehicle_id wr))%Z
       /\ (wr_risk_score x > 80 -> (3 <= wr_alert_count x)%Z))
    w (with_risk w (risk_scoring.compute_risk_scores w ta za ra)).
Proof.
  unfold with_risk, Pathway.select.
  rewrite (join_left_unique windows.vehicle_id risk_scoring.vehicle_id).
  2:{ rewrite compute_risk_scores_keys.
      apply distinct_from_NoDup, String.eqb_eq. }
  rewrite map_map.
  apply Forall2_map_r; intros wr Hwr; simpl.
  destruct (find_key_some risk_scoring.vehicle_id (windows.vehicle_id wr)
              (risk_scoring.compute_risk_scores w ta za ra))
    as [r [-> [Hr Hk]]].
  { rewrite compute_risk_scores_keys.
    apply (In_distinct String.eqb String.eqb_eq), in_map, Hwr. }
  simpl.
  destruct (risk_row_counts _ _ _ _ _ Hr) as [T [Z0 [R0 S]]].
  pose proof (risk_score_few_alerts _ _ _ _ _ Hr) as [H2 _].
  rewrite Hk in T, Z0, R0.
  repeat split; try reflexivity.
  - rewrite S, T, Z0, R0; reflexivity.
  - intros H80.
    destruct (Z_le_gt_dec (risk_scoring.total_alerts r) 2) as [Hle | Hgt];
      [ specialize (H2 Hle); lra | lia ].
Qed.

Lemma Forall2_In_r {A B : Type} (P : A -> B -> Prop) (l : list A)
    (l' : list B) (b : B) :
  Forall2 P l l' -> In b l' -> exists a, In a l /\ P a b.
Proof.
  induction 1 as [ | a0 b0 l l' H0 _ IH ]; simpl; [ tauto | ].
  intros [<- | Hb].
  - exists a0; tauto.
  - destruct (IH Hb) as [a [Ha Pa]]; exists a; tauto.
Qed.

Lemma critical_iff (carbon speed eff risk : R) (alerts route : Z) :
  _determine_state carbon speed eff risk alerts route = STATE_CRITICAL_RISK
  <-> risk > 80 \/ (3 <= alerts)%Z.
Proof.
  unfold _determine_state, CRITICAL_RISK_SCORE, CRITICAL_ALERT_COUNT.
  destruct (gtb_spec risk 80); simpl; [ tauto | ].
  destruct (Z.geb_spec alerts 3); simpl; [ split; [ lia | reflexivity ] | ].
  split; [ | intros [Hx | Hx]; [ lra | lia ] ].
  destruct (route =? 1)%Z; [ discriminate | ].
  destruct (Py.gtb carbon EMISSION_THRESHOLD_KG); [ discriminate | ].
  destruct (Py.ltb speed IDLE_SPEED_KMH); [ discriminate | ].
  destruct (Py.gtb eff EFFICIENCY_GOOD_THRESHOLD && (alerts =? 0)%Z);
    discriminate.
Qed.

(** X6.  When the state machine reads the risk table computed from the same
    window and alert tables, it gives one state row per window snapshot, in
    the order of the snapshots, and a vehicle is CRITICAL_RISK exactly when
    it has three alerts or more over the three alert tables: the risk score
    never decides alone. *)
Theorem critical_state_iff_three_alerts :
  forall (w : Pathway.Table windows.WindowRow)
         (ta : Pathway.Table threshold.Alert)
         (za : Pathway.Table zscore.Alert)
         (ra : Pathway.Table route_deviation.Alert),
    let states :=
      compute_vehicle_states w
        (risk_scoring.compute_risk_scores w ta za ra) ra in
    map vehicle_id states = map windows.vehicle_id w
    /\ forall r, In r states ->
         (current_state r = STATE_CRITICAL_RISK
          <-> (3 <= rows_of threshold.vehicle_id ta (vehicle_id r)
                    + rows_of zscore.alert_vehicle_id za (vehicle_id r)
                    + rows_of route_deviation.vehicle_id ra (vehicle_id r))%Z).
Proof.
  intros w ta za ra states; subst states.
  pose proof (with_risk_pipeline w ta za ra) as F.
  unfold compute_vehicle_states, combined, route_flag, Pathway.select.
  rewrite (join_left_unique wr_vehicle_id fst)
    by apply count_by_vehicle_NoDup.
  rewrite !map_map; simpl.
  split.
  - induction F as [ | wr x l l' [E _] _ IH ]; simpl; [ reflexivity | ].
    rewrite E, IH; reflexivity.
  - intros r Hr; apply in_map_iff in Hr; destruct Hr as [x [<- Hx]].
    destruct (Forall2_In_r _ _ _ _ F Hx) as [wr [_ [E [_ [_ [_ [Ha H80]]]]]]].
    unfold state_row; simpl.
    rewrite critical_iff, E, Ha; split; [ intros [H | H] | ]; auto.
    rewrite <- Ha; apply H80, H.
Qed.

End StatePipeline.

(** ** What the windows hold, and how often *)

Lemma windowby_rows {A : Type} (time : A -> Z) (window : Z -> list Z)
    (instance : A -> string) (t : list A) (k : string * Z) (g : list A) :
  In (k, g) (Pathway.windowby time window instance t) ->
  g <> []
  /\ forall r, In r g <->
       In r t /\ instance r = fst k /\ In (snd k) (window (time r)).
Proof.
  unfold Pathway.windowby; intros H.
  apply in_map_iff in H; destruct H as [[k0 g0] [E H]].
  inversion E; subst k0 g; clear E.
  apply (groupby_rows _ _ _ _ _ window_key_eqb_eq) in H.
  destruct H as [Hne Hin]; split.
  - destruct g0; [ contradiction | discriminate ].
  - intros r; rewrite in_map_iff; split.
    + intros [[k1 r1] [E Hr]]; simpl in E; subst r1.
      apply Hin in Hr; destruct Hr as [Hr Hk]; simpl in Hk; subst k1.
      apply in_flat_map in Hr; destruct Hr as [a [Ha Hr]].
      apply in_map_iff in Hr; destruct Hr as [s [E Hs]].
      inversion E; subst; simpl; tauto.
    + intros [Hr [Hi Hs]]; exists (k, r); split; [ reflexivity | ].
      apply Hin; split; [ | reflexivity ].
      apply in_flat_map; exists r; split; [ exact Hr | ].
      apply in_map_iff; exists (snd k); split; [ | exact Hs ].
      destruct k; simpl in *; subst; reflexivity.
Qed.

Lemma windowby_partition {A : Type} (time : A -> Z) (window : Z -> list Z)
    (instance : A -> string) (t : list A) :
  Permutation
    (List.concat (map snd (Pathway.windowby time window instance t)))
    (flat_map (fun a => map (fun _ => a) (window (time a))) t).
Proof.
  set (expand :=
         fun a : A => map (fun s => ((instance a, s), a)) (window (time a))).
  set (keq := fun k k' : string * Z =>
                String.eqb (fst k) (fst k') && (snd k =? snd k')%Z).
  assert (E1 : map snd (Pathway.windowby time window instance t)
               = map (map snd)
                   (map snd (Pathway.groupby keq fst (flat_map expand t)))).
  { unfold Pathway.windowby; rewrite !map_map.
    apply map_ext; intros [k g]; reflexivity. }
  rewrite E1, <- concat_map.
  etransitivity;
    [ apply Permutation_map, (groupby_partition keq window_key_eqb_eq) | ].
  assert (E2 : map snd (flat_map expand t)
               = flat_map (fun a => map (fun _ => a) (window (time a))) t).
  { clear E1; induction t as [ | a t IH ]; [ reflexivity | ].
    cbn [flat_map]; rewrite map_app, IH; f_equal.
    unfold expand; rewrite map_map; reflexivity. }
  rewrite E2; reflexivity.
Qed.

Lemma tumbling_iff (d t s : Z) :
  (0 < d)%Z -> (s mod d = 0)%Z ->
  In s (Pathway.temporal.tumbling d t) <-> (s <= t < s + d)%Z.
Proof.
  intros Hd Hs; unfold Pathway.temporal.tumbling; simpl.
  pose proof (Z.mul_div_le t d Hd).
  pose proof (Z.mul_succ_div_gt t d Hd).
  apply Z.mod_divide in Hs; [ | lia ]; destruct Hs as [q ->].
  split.
  - intros [E | []]; lia.
  - intros [H1 H2]; left.
    assert (t / d = q)%Z; [ | subst; reflexivity ].
    symmetry; apply (Z.div_unique_pos t d q (t - q * d)%Z); lia.
Qed.

Lemma sum_app (xs ys : list R) :
  Pathway.reducers.sum (xs ++ ys)
  = Pathway.reducers.sum xs + Pathway.reducers.sum ys.
Proof.
  unfold Pathway.reducers.sum; induction xs; simpl; lra.
Qed.

Lemma sum_concat_map {A : Type} (f : A -> R) (gs : list (list A)) :
  Pathway.reducers.sum
    (map (fun g => Pathway.reducers.sum (map f g)) gs)
  = Pathway.reducers.sum (map f (List.concat gs)).
Proof.
  induction gs as [ | g gs IH ]; simpl; [ reflexivity | ].
  rewrite map_app, sum_app, <- IH; reflexivity.
Qed.

Lemma sum_int_counts {A : Type} (gs : list (list A)) :
  Pathway.reducers.sum_int (map (@Pathway.reducers.count A) gs)
  = Z.of_nat (List.length (List.concat gs)).
Proof.
  unfold Pathway.reducers.sum_int, Pathway.reducers.count.
  induction gs as [ | g gs IH ]; simpl; [ reflexivity | ].
  rewrite length_app, IH; lia.
Qed.

Lemma tumbling_expand {A : Type} (time : A -> Z) (d : Z) (t : list A) :
  flat_map (fun a => map (fun _ => a) (Pathway.temporal.tumbling d (time a)))
    t = t.
Proof.
  induction t as [ | a t IH ]; [ reflexivity | ].
  cbn [flat_map]; unfold Pathway.temporal.tumbling at 1.
  cbn [map app]; f_equal; exact IH.
Qed.

Lemma sum_all_le (xs : list R) (M : R) :
  (forall x, In x xs -> x <= M) ->
  Pathway.reducers.sum xs <= INR (List.length xs) * M.
Proof.
  unfold Pathway.reducers.sum.
  induction xs as [ | a xs IH ]; intros H; [ simpl; lra | ].
  rewrite length_cons, S_INR; simpl fold_right.
  pose proof (H a (or_introl eq_refl)).
  assert (fold_right Rplus 0 xs <= INR (List.length xs) * M)
    by (apply IH; intros; apply H; right; assumption).
  lra.
Qed.

Lemma sum_all_ge (xs : list R) (m : R) :
  (forall x, In x xs -> m <= x) ->
  INR (List.length xs) * m <= Pathway.reducers.sum xs.
Proof.
  unfold Pathway.reducers.sum.
  induction xs as [ | a xs IH ]; intros H; [ simpl; lra | ].
  rewrite length_cons, S_INR; simpl fold_right.
  pose proof (H a (or_introl eq_refl)).
  assert (INR (List.length xs) * m <= fold_right Rplus 0 xs)
    by (apply IH; intros; apply H; right; assumption).
  lra.
Qed.

Lemma count_INR {A : Type} (g : list A) :
  IZR (Pathway.reducers.count g) = INR (List.length g).
Proof. unfold Pathway.reducers.count; symmetry; apply INR_IZR_INZ. Qed.

(** The average of a non-empty column lies between its minimum and its
    maximum. *)
Lemma avg_between (xs : list R) :
  xs <> [] ->
  Pathway.reducers.min xs <= Pathway.reducers.avg xs
  <= Pathway.reducers.max xs.
Proof.
  intros Hne; destruct xs as [ | x xs ]; [ contradiction | ].
  unfold Pathway.reducers.avg, Pathway.reducers.min, Pathway.reducers.max.
  rewrite count_INR.
  destruct (fold_Rmax_bounds xs x) as [_ Hmax].
  destruct (fold_Rmin_bounds xs x) as [_ Hmin].
  pose proof (sum_all_le (x :: xs) _ Hmax) as Hle.
  pose proof (sum_all_ge (x :: xs) _ Hmin) as Hge.
  assert (Hn : 0 < INR (List.length (x :: xs)))
    by (apply lt_0_INR; simpl; lia).
  set (n := INR (List.length (x :: xs))) in *.
  split.
  - apply (Rmult_le_reg_l n); [ exact Hn | ].
    unfold Rdiv; rewrite (Rmult_comm (Pathway.reducers.sum _)),
      <- Rmult_assoc, Rinv_r, Rmult_1_l by lra; exact Hge.
  - apply (Rmult_le_reg_l n); [ exact Hn | ].
    unfold Rdiv; rewrite (Rmult_comm (Pathway.reducers.sum _)),
      <- Rmult_assoc, Rinv_r, Rmult_1_l by lra; exact Hle.
Qed.

(** The rows of one tumbling window, as a filter of the table. *)
Lemma flat_map_singleton {A B : Type} (f : A -> B) (t : list A) :
  flat_map (fun a => [f a]) t = map f t.
Proof.
  induction t as [ | a t IH ]; [ reflexivity | ].
  cbn [flat_map map app]; rewrite IH; reflexivity.
Qed.

Lemma filter_keyed {A K : Type} (key : A -> K) (p : K -> bool) (t : list A) :
  map snd (List.filter (fun x : K * A => p (fst x))
             (map (fun a => (key a, a)) t))
  = List.filter (fun a => p (key a)) t.
Proof.
  induction t as [ | a t IH ]; [ reflexivity | ].
  cbn [map List.filter fst]; destruct (p (key a)); cbn [map snd];
    rewrite IH; reflexivity.
Qed.

Lemma windowby_tumbling_group {A : Type} (time : A -> Z) (d : Z)
    (instance : A -> string) (t : list A) (k : string * Z) (g : list A) :
  In (k, g) (Pathway.windowby time (Pathway.temporal.tumbling d) instance t) ->
  g = List.filter
        (fun a => String.eqb (instance a) (fst k)
                  && (time a / d * d =? snd k)%Z) t.
Proof.
  unfold Pathway.windowby, Pathway.groupby; intros H.
  apply in_map_iff in H; destruct H as [[k0 g0] [E H]].
  inversion E; subst k0 g; clear E.
  apply in_map_iff in H; destruct H as [k1 [E _]].
  inversion E; subst k1 g0; clear E.
  unfold Pathway.temporal.tumbling; cbn [map].
  rewrite (flat_map_singleton
             (fun a => ((instance a, (time a / d * d)%Z), a))).
  apply (filter_keyed (fun a => (instance a, (time a / d * d)%Z))
           (fun k' => String.eqb (fst k') (fst k) && (snd k' =? snd k)%Z)).
Qed.

Lemma tumbling_test (d t s : Z) :
  (0 < d)%Z -> (s mod d = 0)%Z ->
  (t / d * d =? s)%Z = ((s <=? t)%Z && (t <? s + d)%Z).
Proof.
  intros Hd Hs; apply eq_true_iff_eq.
  rewrite andb_true_iff, Z.eqb_eq, Z.leb_le, Z.ltb_lt.
  pose proof (tumbling_iff d t s Hd Hs) as T.
  unfold Pathway.temporal.tumbling in T; simpl in T; tauto.
Qed.

Section WindowFacts.
Import windows.

(** X7.  Every tumbling-window snapshot covers five minutes starting at a
    multiple of 300 s and has [min_speed <= avg_speed <= max_speed], so that
    [speed_variance] is not negative.  Its rows are the rows of the
    telemetry table of its vehicle whose time falls in the window, each
    counted as often as it occurs in the table: [data_points] is the number
    of these rows, at least one, and the fuel, the distance and the average
    speed are their totals and their average. *)
Theorem rolling_window_invariants :
  forall (t : Pathway.Table features.Telemetry) (w : WindowRow),
    In w (compute_rolling_windows t) ->
    let g :=
      List.filter
        (fun r =>
           String.eqb (features.vehicle_id r) (vehicle_id w)
           && (window_start w <=? features.timestamp r)%Z
           && (features.timestamp r <? window_end w)%Z) t in
    window_end w = (window_start w + 300)%Z
    /\ (window_start w mod 300 = 0)%Z
    /\ (1 <= data_points w)%Z
    /\ min_speed w <= avg_speed w <= max_speed w
    /\ 0 <= speed_variance w
    /\ data_points w = Z.of_nat (List.length g)
    /\ total_fuel w
       = fold_right Rplus 0 (map features.fuel_liters g)
    /\ total_distance w
       = fold_right Rplus 0 (map features.distance_km g)
    /\ avg_speed w
       = fold_right Rplus 0 (map features.speed g)
         / IZR (Z.of_nat (List.length g))
    /\ forall r, In r g <->
         In r t /\ features.vehicle_id r = vehicle_id w
         /\ (window_start w <= features.timestamp r < window_end w)%Z.
Proof.
  intros t w Hw.
  unfold compute_rolling_windows, Pathway.select in Hw.
  apply in_map_iff in Hw; destruct Hw as [[[instance start] g0] [<- Hg]].
  pose proof (windowby_tumbling_group _ _ _ _ _ _ Hg) as Eg.
  apply windowby_rows in Hg; destruct Hg as [Hne Hin]; cbn [fst snd] in *.
  assert (Hmap : map features.speed g0 <> [])
    by (destruct g0; [ contradiction | discriminate ]).
  pose proof (avg_between _ Hmap) as Hb.
  assert (Hstart : (start mod 300 = 0)%Z).
  { destruct g0 as [ | r g0 ]; [ contradiction | ].
    destruct (proj1 (Hin r) (or_introl eq_refl)) as [_ [_ [<- | []]]].
    unfold config.window.window_duration_sec.
    apply Z.mod_mul; lia. }
  unfold config.window.window_duration_sec in *.
  unfold snapshot;
    cbn [vehicle_id window_start window_end data_points total_fuel
         total_distance avg_speed min_speed max_speed speed_variance].
  assert (Ef : List.filter
                 (fun r =>
                    String.eqb (features.vehicle_id r) instance
                    && (start <=? features.timestamp r)%Z
                    && (features.timestamp r <? start + 300)%Z) t = g0).
  { rewrite Eg; apply filter_ext; intros r.
    rewrite (tumbling_test 300 _ start) by (lia || exact Hstart).
    symmetry; apply andb_assoc. }
  cbv zeta; rewrite Ef.
  split; [ reflexivity | ].
  split; [ exact Hstart | ].
  split.
  { unfold Pathway.reducers.count.
    destruct g0; [ contradiction | simpl; lia ]. }
  split; [ exact Hb | ].
  split; [ lra | ].
  split; [ reflexivity | ].
  split; [ reflexivity | ].
  split; [ reflexivity | ].
  split.
  { unfold Pathway.reducers.avg, Pathway.reducers.sum,
      Pathway.reducers.count; rewrite length_map; reflexivity. }
  intros r; rewrite Hin.
  rewrite (tumbling_iff 300 _ start) by (lia || exact Hstart).
  reflexivity.
Qed.

(** The window of two events of V-101 at 100 s and 160 s: two data
    points. *)
Lemma rolling_window_invariants_witness :
  In (snapshot 300 (268 / 100)
        (("V-101"%string, 0%Z), [scenarios.telemetry1; scenarios.telemetry2]))
     (compute_rolling_windows [scenarios.telemetry1; scenarios.telemetry2])
  /\ data_points
       (snapshot 300 (268 / 100)
          (("V-101"%string, 0%Z),
           [scenarios.telemetry1; scenarios.telemetry2])) = 2%Z
  /\ min_speed
       (snapshot 300 (268 / 100)
          (("V-101"%string, 0%Z),
           [scenarios.telemetry1; scenarios.telemetry2]))
     <= avg_speed
          (snapshot 300 (268 / 100)
             (("V-101"%string, 0%Z),
              [scenarios.telemetry1; scenarios.telemetry2])).
Proof.
  assert (H : In (snapshot 300 (268 / 100)
                    (("V-101"%string, 0%Z),
                     [scenarios.telemetry1; scenarios.telemetry2]))
                (compute_rolling_windows
                   [scenarios.telemetry1; scenarios.telemetry2]))
    by (left; reflexivity).
  split; [ exact H | ].
  pose proof (rolling_window_invariants _ _ H) as T; cbv zeta in T.
  destruct T as [_ [_ [_ [Hb [_ [Hn _]]]]]].
  split; [ rewrite Hn; reflexivity | apply Hb ].
Defined.

(** X8.  Tumbling windows neither lose nor repeat an event: over all
    snapshots, the event counts add up to the number of telemetry rows, the
    fuel and distance totals to the fuel and distance of the table, and the
    carbon to 2.68 kg per litre of that fuel. *)
Theorem rolling_windows_conserve_totals :
  forall t : Pathway.Table features.Telemetry,
    Pathway.reducers.sum_int (map data_points (compute_rolling_windows t))
    = Z.of_nat (List.length t)
    /\ Pathway.reducers.sum (map total_fuel (compute_rolling_windows t))
       = Pathway.reducers.sum (map features.fuel_liters t)
    /\ Pathway.reducers.sum (map total_distance (compute_rolling_windows t))
       = Pathway.reducers.sum (map features.distance_km t)
    /\ Pathway.reducers.sum (map carbon_kg (compute_rolling_windows t))
       = 268 / 100 * Pathway.reducers.sum (map features.fuel_liters t).
Proof.
  intros t.
  pose proof (windowby_partition features.timestamp
                (Pathway.temporal.tumbling 300) features.vehicle_id t) as P.
  rewrite tumbling_expand in P.
  unfold compute_rolling_windows, Pathway.select,
    config.window.window_duration_sec, config.emission.default_emission_factor.
  set (ws := Pathway.windowby features.timestamp
               (Pathway.temporal.tumbling 300) features.vehicle_id t) in *.
  rewrite !map_map.
  assert (Ec : map (fun x => data_points (snapshot 300 (268 / 100) x)) ws
               = map (@Pathway.reducers.count _) (map snd ws)).
  { rewrite map_map; apply map_ext; intros [[i s] g]; reflexivity. }
  assert (Ef : map (fun x => total_fuel (snapshot 300 (268 / 100) x)) ws
               = map (fun g => Pathway.reducers.sum
                                 (map features.fuel_liters g)) (map snd ws)).
  { rewrite map_map; apply map_ext; intros [[i s] g]; reflexivity. }
  assert (Ed : map (fun x => total_distance (snapshot 300 (268 / 100) x)) ws
               = map (fun g => Pathway.reducers.sum
                                 (map features.distance_km g)) (map snd ws)).
  { rewrite map_map; apply map_ext; intros [[i s] g]; reflexivity. }
  assert (Ek : map (fun x => carbon_kg (snapshot 300 (268 / 100) x)) ws
               = map (fun x => 268 / 100 * x)
                   (map (fun g => Pathway.reducers.sum
                                    (map features.fuel_liters g))
                      (map snd ws))).
  { rewrite !map_map; apply map_ext; intros [[i s] g]; simpl; lra. }
  assert (Hf : Pathway.reducers.sum
                 (map (fun g => Pathway.reducers.sum
                                  (map features.fuel_liters g)) (map snd ws))
               = Pathway.reducers.sum (map features.fuel_liters t)).
  { rewrite sum_concat_map.
    apply sum_Permutation, Permutation_map, P. }
  rewrite Ec, Ef, Ed, Ek, sum_int_counts.
  split; [ f_equal; apply Permutation_length, P | ].
  split; [ exact Hf | ].
  split.
  - rewrite sum_concat_map; apply sum_Permutation, Permutation_map, P.
  - rewrite <- Hf.
    generalize (map (fun g => Pathway.reducers.sum
                                (map features.fuel_liters g)) (map snd ws)).
    unfold Pathway.reducers.sum; induction l; simpl; lra.
Qed.

End WindowFacts.

(** ** Sliding windows and the z-score *)

Lemma sliding_count (t : Z) :
  List.length (Pathway.temporal.sliding 300 60 t) = 5%nat.
Proof.
  unfold Pathway.temporal.sliding.
  change (seq 0 (S (Z.to_nat (300 / 60)))) with [0; 1; 2; 3; 4; 5]%nat.
  pose proof (Z.mul_div_le t 60 ltac:(lia)).
  pose proof (Z.mul_succ_div_gt t 60 ltac:(lia)).
  set (q := (t / 60)%Z) in *.
  cbn [map List.filter Z.of_nat].
  repeat match goal with
    | |- context [(?a <? ?b)%Z] => destruct (Z.ltb_spec a b); try lia
    end.
  reflexivity.
Qed.

Lemma avg_const (xs : list R) (v : R) :
  xs <> [] -> (forall x, In x xs -> x = v) ->
  Pathway.reducers.avg xs = v /\ Pathway.reducers.latest xs = v.
Proof.
  intros Hne Hall; split.
  - unfold Pathway.reducers.avg; rewrite count_INR.
    assert (Hn : 0 < INR (List.length xs)).
    { apply lt_0_INR; destruct xs; [ contradiction | simpl; lia ]. }
    assert (Hs : Pathway.reducers.sum xs = INR (List.length xs) * v).
    { apply Rle_antisym.
      - apply sum_all_le; intros x Hx; rewrite (Hall x Hx); lra.
      - apply sum_all_ge; intros x Hx; rewrite (Hall x Hx); lra. }
    rewrite Hs; field; lra.
  - unfold Pathway.reducers.latest.
    destruct (exists_last Hne) as [ys [y E]]; subst xs.
    rewrite last_last; apply Hall, in_or_app; right; left; reflexivity.
Qed.

Section ZScoreFacts.
Import zscore.

(** X9.  Every event is counted in exactly five sliding windows: the event
    counts of the rows of [zscores] add up to five times the number of
    telemetry rows. *)
Theorem sliding_windows_count_each_event_five_times :
  forall t : Pathway.Table features.Telemetry,
    Pathway.reducers.sum_int (map count (zscores t))
    = (5 * Z.of_nat (List.length t))%Z.
Proof.
  intros t; unfold zscores, sliding_windows, Pathway.select,
    config.window.window_duration_sec.
  pose proof (windowby_partition features.timestamp
                (Pathway.temporal.sliding 300 60) features.vehicle_id t) as P.
  set (ws := Pathway.windowby features.timestamp
               (Pathway.temporal.sliding 300 60) features.vehicle_id t) in *.
  rewrite map_map.
  assert (Ec : map (fun x => count (window_stats x)) ws
               = map (@Pathway.reducers.count _) (map snd ws)).
  { rewrite map_map; apply map_ext; intros [[i s] g]; reflexivity. }
  rewrite Ec, sum_int_counts, (Permutation_length P).
  clear; induction t as [ | a t IH ]; [ reflexivity | ].
  cbn [flat_map]; rewrite length_app, length_map, sliding_count.
  rewrite Nat2Z.inj_add, IH; simpl List.length; lia.
Qed.

Lemma zscore_zero (v std : R) : zscore_of v v std = 0.
Proof.
  unfold zscore_of; rewrite py_abs_Rabs.
  replace (v - v) with 0 by lra; rewrite Rabs_R0; unfold Rdiv; lra.
Qed.

(** X10.  A telemetry table in which every event has the same speed and the
    same carbon raises no z-score alert: in every window the latest value is
    the mean. *)
Theorem zscore_constant_signal_silent :
  forall (t : Pathway.Table features.Telemetry) (v c : R),
    (forall r, In r t -> features.speed r = v /\ features.carbon_kg r = c) ->
    detect_zscore_anomalies t = [].
Proof.
  intros t v c Hall.
  unfold detect_zscore_anomalies, Pathway.select, Pathway.filter.
  rewrite filter_none; [ reflexivity | ].
  intros s Hs; unfold zscores, Pathway.select in Hs.
  apply in_map_iff in Hs; destruct Hs as [[[i st] g] [<- Hg]].
  apply sliding_windows_rows in Hg; destruct Hg as [Hne Hin].
  assert (Hs : map features.speed g <> [])
    by (destruct g; [ contradiction | discriminate ]).
  assert (Hc : map features.carbon_kg g <> [])
    by (destruct g; [ contradiction | discriminate ]).
  destruct (avg_const _ v Hs) as [Es Ls].
  { intros x Hx; apply in_map_iff in Hx; destruct Hx as [r [<- Hr]].
    apply Hall, Hin, Hr. }
  destruct (avg_const _ c Hc) as [Ec Lc].
  { intros x Hx; apply in_map_iff in Hx; destruct Hx as [r [<- Hr]].
    apply Hall, Hin, Hr. }
  unfold is_anomaly, window_stats; simpl.
  rewrite Es, Ls, Ec, Lc, !zscore_zero.
  unfold config.anomaly.zscore_threshold.
  destruct (gtb_spec 0 (25 / 10)); [ lra | reflexivity ].
Qed.

Lemma zscore_constant_signal_silent_witness :
  (forall r, In r [scenarios.telemetry1] ->
             features.speed r = 50 /\ features.carbon_kg r = 536 / 100)
  /\ detect_zscore_anomalies [scenarios.telemetry1] = [].
Proof.
  assert (H : forall r, In r [scenarios.telemetry1] ->
                features.speed r = 50 /\ features.carbon_kg r = 536 / 100)
    by (intros r [<- | []]; split; reflexivity).
  split; [ exact H | ].
  apply (zscore_constant_signal_silent [scenarios.telemetry1] 50
           (536 / 100) H).
Defined.

End ZScoreFacts.

(** ** A bound on the z-score of the latest value *)

Lemma cauchy_schwarz_sum (xs : list R) :
  Pathway.reducers.sum xs * Pathway.reducers.sum xs
  <= INR (List.length xs)
     * Pathway.reducers.sum (map (fun x => x * x) xs).
Proof.
  unfold Pathway.reducers.sum.
  induction xs as [ | a xs IH ]; [ simpl; lra | ].
  rewrite length_cons, S_INR; cbn [map fold_right].
  set (s := fold_right Rplus 0 xs) in *.
  set (q := fold_right Rplus 0 (map (fun x => x * x) xs)) in *.
  pose proof (pos_INR (List.length xs)) as Hk.
  set (k := INR (List.length xs)) in *.
  destruct (Rle_lt_or_eq_dec 0 k Hk) as [Hpos | Hz].
  - assert (Hq : 0 <= k * (k * (a * a) - 2 * a * s + q)).
    { replace (k * (k * (a * a) - 2 * a * s + q))
        with ((k * a - s) * (k * a - s) + (k * q - s * s)) by ring.
      pose proof (Rle_0_sqr (k * a - s)) as Hsq; unfold Rsqr in Hsq; lra. }
    assert (0 <= k * (a * a) - 2 * a * s + q).
    { apply (Rmult_le_reg_l k); [ exact Hpos | ]; lra. }
    lra.
  - assert (Hxs : xs = []).
    { destruct xs; [ reflexivity | ].
      subst k; rewrite length_cons, S_INR in Hz.
      pose proof (pos_INR (List.length xs)); lra. }
    subst xs; subst s q k; simpl; lra.
Qed.

(** In a column of [n] values, the last value is within [sqrt(n - 1)]
    standard deviations of the mean: squared, its distance to the mean is at
    most [n - 1] times the variance. *)
Lemma latest_deviation_bound (xs : list R) :
  xs <> [] ->
  let n := INR (List.length xs) in
  let m := Pathway.reducers.avg xs in
  let q := Pathway.reducers.avg (map (fun x => x * x) xs) in
  (Pathway.reducers.latest xs - m) * (Pathway.reducers.latest xs - m)
  <= (n - 1) * (q - m * m).
Proof.
  intros Hne n m q; subst n m q.
  destruct (exists_last Hne) as [ys [x E]]; subst xs.
  unfold Pathway.reducers.latest, Pathway.reducers.avg.
  rewrite last_last, map_app, !sum_app, !count_INR, !length_app, length_map.
  cbn [map List.length]; rewrite Nat.add_1_r, S_INR.
  assert (S1 : forall y, Pathway.reducers.sum [y] = y)
    by (intros y; unfold Pathway.reducers.sum; simpl; lra).
  rewrite !S1.
  pose proof (cauchy_schwarz_sum ys) as CS.
  pose proof (pos_INR (List.length ys)) as Hk.
  set (k := INR (List.length ys)) in *.
  set (s := Pathway.reducers.sum ys) in *.
  set (q := Pathway.reducers.sum (map (fun x => x * x) ys)) in *.
  assert (E : (k + 1 - 1) * ((q + x * x) / (k + 1)
                             - (s + x) / (k + 1) * ((s + x) / (k + 1)))
              - (x - (s + x) / (k + 1)) * (x - (s + x) / (k + 1))
              = (k * q - s * s) / (k + 1))
    by (field; lra).
  assert (0 <= (k * q - s * s) / (k + 1)).
  { apply Rmult_le_pos; [ lra | ].
    apply Rlt_le, Rinv_0_lt_compat; lra. }
  lra.
Qed.

Section ZScoreBound.
Import zscore.

Lemma zscore_sq_bound (xs : list R) :
  xs <> [] ->
  let m := Pathway.reducers.avg xs in
  let q := Pathway.reducers.avg (map (fun x => x * x) xs) in
  let z := zscore_of (Pathway.reducers.latest xs) m (std q m) in
  0 <= z /\ z * z <= INR (List.length xs) - 1.
Proof.
  intros Hne m q z; subst z.
  unfold zscore_of; rewrite py_abs_Rabs.
  pose proof (latest_deviation_bound xs Hne) as B; cbv zeta in B.
  fold m q in B.
  destruct (std_floor q m) as [Es Ps].
  set (d := Pathway.reducers.latest xs - m) in *.
  set (sd := std q m) in *.
  assert (Hsd : 0 < sd) by lra.
  assert (Hn : 0 <= INR (List.length xs) - 1).
  { destruct xs; [ contradiction | ].
    rewrite length_cons, S_INR; pose proof (pos_INR (List.length xs)); lra. }
  assert (Hvar : q - m * m <= sd * sd).
  { destruct (Rle_dec (q - m * m) 0) as [Hle | Hgt].
    - pose proof (Rle_0_sqr sd) as H; unfold Rsqr in H; lra.
    - assert (Hv : 0 <= q - m * m) by lra.
      assert (Hsq : sqrt (q - m * m) <= sd).
      { rewrite Es, (Rmax_left (q - m * m) 0) by lra.
        apply Rbasic_fun.Rmax_l. }
      pose proof (sqrt_pos (q - m * m)).
      rewrite <- (sqrt_sqrt (q - m * m) Hv).
      apply Rmult_le_compat; assumption. }
  split.
  - apply Rmult_le_pos; [ apply Rabs_pos | ].
    apply Rlt_le, Rinv_0_lt_compat, Hsd.
  - replace (Rabs d / sd * (Rabs d / sd)) with (d * d / (sd * sd)).
    2:{ assert (Habs : Rabs d * Rabs d = d * d).
        { rewrite <- Rabs_mult; apply Rabs_pos_eq.
          pose proof (Rle_0_sqr d) as H; unfold Rsqr in H; exact H. }
        transitivity (Rabs d * Rabs d / (sd * sd));
          [ rewrite Habs; reflexivity | field; lra ]. }
    assert (Hss : 0 < sd * sd) by (apply Rmult_lt_0_compat; assumption).
    apply (Rmult_le_reg_r (sd * sd)); [ exact Hss | ].
    replace (d * d / (sd * sd) * (sd * sd)) with (d * d) by (field; lra).
    eapply Rle_trans; [ exact B | ].
    apply Rmult_le_compat_l; [ exact Hn | exact Hvar ].
Qed.

(** X11.  In a sliding window of [n] events neither z-score exceeds
    [sqrt(n - 1)]; a window of seven events or fewer therefore raises no
    z-score alert. *)
Theorem zscore_needs_eight_events :
  forall (t : Pathway.Table features.Telemetry) (s : Stats),
    In s (zscores t) ->
    speed_zscore s * speed_zscore s <= IZR (count s) - 1
    /\ carbon_zscore s * carbon_zscore s <= IZR (count s) - 1
    /\ ((count s <= 7)%Z ->
        is_anomaly config.anomaly.zscore_threshold s = false).
Proof.
  intros t s Hs; unfold zscores, Pathway.select in Hs.
  apply in_map_iff in Hs; destruct Hs as [[[i st] g] [<- Hg]].
  apply sliding_windows_rows in Hg; destruct Hg as [Hne _].
  assert (Hsp : map features.speed g <> [])
    by (destruct g; [ contradiction | discriminate ]).
  assert (Hcb : map features.carbon_kg g <> [])
    by (destruct g; [ contradiction | discriminate ]).
  pose proof (zscore_sq_bound _ Hsp) as [Zs Bs].
  pose proof (zscore_sq_bound _ Hcb) as [Zc Bc].
  rewrite length_map in Bs, Bc.
  unfold window_stats; simpl; rewrite count_INR.
  split; [ exact Bs | split; [ exact Bc | ] ].
  intros H7; apply IZR_le in H7; rewrite count_INR in H7.
  unfold is_anomaly, config.anomaly.zscore_threshold; simpl.
  set (zs := zscore_of
               (Pathway.reducers.latest (map features.speed g)) _ _) in *.
  set (zc := zscore_of
               (Pathway.reducers.latest (map features.carbon_kg g)) _ _) in *.
  destruct (gtb_spec zs (25 / 10)) as [Hs | _]; [ nra | ].
  destruct (gtb_spec zc (25 / 10)) as [Hc | _]; [ nra | reflexivity ].
Qed.

Lemma zscore_needs_eight_events_witness :
  In scenarios.stats1 (zscores [scenarios.telemetry1])
  /\ is_anomaly config.anomaly.zscore_threshold scenarios.stats1 = false.
Proof.
  assert (H : In scenarios.stats1 (zscores [scenarios.telemetry1]))
    by (left; reflexivity).
  split; [ exact H | ].
  apply (zscore_needs_eight_events [scenarios.telemetry1] scenarios.stats1 H).
  vm_compute; discriminate.
Defined.

End ZScoreBound.

(** ** Micro-windows, idle windows and the carbon of a window *)

Lemma max_attained (xs : list R) :
  xs <> [] ->
  In (Pathway.reducers.max xs) xs
  /\ forall y, In y xs -> y <= Pathway.reducers.max xs.
Proof.
  destruct xs as [ | x xs ]; [ contradiction | intros _ ].
  apply fold_Rmax_bounds.
Qed.

Lemma min_attained (xs : list R) :
  xs <> [] ->
  In (Pathway.reducers.min xs) xs
  /\ forall y, In y xs -> Pathway.reducers.min xs <= y.
Proof.
  destruct xs as [ | x xs ]; [ contradiction | intros _ ].
  apply fold_Rmin_bounds.
Qed.

Section Derived.
Import derived.

(** X12.  A 10-second micro-window never has a negative speed delta, and it
    is flagged as an acceleration spike exactly when two events of the
    vehicle in that window differ in speed by more than 15 km/h. *)
Theorem acceleration_spike_iff_two_events :
  forall (t : Pathway.Table features.Telemetry) (m : MicroWindow),
    In m (detect_acceleration_spikes t) ->
    0 <= speed_delta m
    /\ (is_acceleration_spike m = true
        <-> exists r1 r2,
              In r1 t /\ In r2 t
              /\ features.vehicle_id r1 = vehicle_id m
              /\ features.vehicle_id r2 = vehicle_id m
              /\ (window_time m <= features.timestamp r1
                  < window_time m + 10)%Z
              /\ (window_time m <= features.timestamp r2
                  < window_time m + 10)%Z
              /\ features.speed r1 - features.speed r2 > 15).
Proof.
  intros t m Hm.
  unfold detect_acceleration_spikes, Pathway.select in Hm.
  apply in_map_iff in Hm; destruct Hm as [[[i st] g] [<- Hg]].
  apply windowby_rows in Hg; destruct Hg as [Hne Hin]; cbn [fst snd] in Hin.
  assert (Hst : (st mod 10 = 0)%Z).
  { destruct g as [ | r g ]; [ contradiction | ].
    destruct (proj1 (Hin r) (or_introl eq_refl)) as [_ [_ [<- | []]]].
    apply Z.mod_mul; lia. }
  assert (Hmem : forall r, In r g <->
            In r t /\ features.vehicle_id r = i
            /\ (st <= features.timestamp r < st + 10)%Z).
  { intros r; rewrite Hin, (tumbling_iff 10 _ st) by (lia || exact Hst).
    reflexivity. }
  assert (Hs : map features.speed g <> [])
    by (destruct g; [ contradiction | discriminate ]).
  destruct (max_attained _ Hs) as [Imax Umax].
  destruct (min_attained _ Hs) as [Imin Lmin].
  cbn [speed_delta is_acceleration_spike vehicle_id window_time fst snd].
  unfold config.anomaly.max_acceleration_kmh_per_sec.
  split.
  - pose proof (Umax _ Imin); lra.
  - destruct (gtb_spec (Pathway.reducers.max (map features.speed g)
                        - Pathway.reducers.min (map features.speed g)) 15)
      as [Hgt | Hle]; split; try discriminate; try reflexivity.
    + intros _.
      apply in_map_iff in Imax; destruct Imax as [r1 [E1 H1]].
      apply in_map_iff in Imin; destruct Imin as [r2 [E2 H2]].
      exists r1, r2; rewrite E1, E2.
      apply Hmem in H1, H2; tauto.
    + intros [r1 [r2 [H1 [H2 [V1 [V2 [T1 [T2 Hd]]]]]]]].
      assert (G1 : In r1 g) by (apply Hmem; tauto).
      assert (G2 : In r2 g) by (apply Hmem; tauto).
      pose proof (Umax _ (in_map features.speed _ _ G1)).
      pose proof (Lmin _ (in_map features.speed _ _ G2)).
      lra.
Qed.

Lemma acceleration_spike_iff_two_events_witness :
  exists m, In m (detect_acceleration_spikes [scenarios.telemetry1])
            /\ 0 <= speed_delta m.
Proof.
  eexists; split; [ left; reflexivity | ].
  apply (acceleration_spike_iff_two_events [scenarios.telemetry1] _
           (or_introl eq_refl)).
Defined.

(** X13.  A 10-minute window is flagged idle exactly when it counts at
    least three events and their average speed is below 5 km/h; one of its
    events then has a speed below 5 km/h. *)
Theorem idle_window_has_slow_event :
  forall (t : Pathway.Table features.Telemetry) (c : IdleCheck),
    In c (detect_idle_vehicles t) ->
    (is_idle c = true <-> avg_speed c < 5 /\ (3 <= data_points c)%Z)
    /\ (is_idle c = true ->
        exists r, In r t /\ features.vehicle_id r = idle_vehicle_id c
                  /\ (idle_window_time c <= features.timestamp r
                      < idle_window_time c + 600)%Z
                  /\ features.speed r < 5).
Proof.
  intros t c Hc.
  unfold detect_idle_vehicles, Pathway.select in Hc.
  apply in_map_iff in Hc; destruct Hc as [[[i st] g] [<- Hg]].
  apply windowby_rows in Hg; destruct Hg as [Hne Hin]; cbn [fst snd] in Hin.
  unfold config.anomaly.max_idle_duration_sec in Hin.
  assert (Hst : (st mod 600 = 0)%Z).
  { destruct g as [ | r g ]; [ contradiction | ].
    destruct (proj1 (Hin r) (or_introl eq_refl)) as [_ [_ [<- | []]]].
    apply Z.mod_mul; lia. }
  assert (Hs : map features.speed g <> [])
    by (destruct g; [ contradiction | discriminate ]).
  destruct (min_attained _ Hs) as [Imin _].
  pose proof (avg_between _ Hs) as [Hlo _].
  cbn [is_idle avg_speed data_points idle_vehicle_id idle_window_time
       fst snd].
  assert (Hiff : Py.ltb (Pathway.reducers.avg (map features.speed g)) 5
                 && (Pathway.reducers.count g >=? 3)%Z = true
                 <-> Pathway.reducers.avg (map features.speed g) < 5
                     /\ (3 <= Pathway.reducers.count g)%Z).
  { rewrite andb_true_iff.
    destruct (ltb_spec (Pathway.reducers.avg (map features.speed g)) 5),
      (Z.geb_spec (Pathway.reducers.count g) 3);
      intuition (discriminate || lia). }
  split; [ exact Hiff | ].
  intros H; apply Hiff in H; destruct H as [Hslow _].
  apply in_map_iff in Imin; destruct Imin as [r [E Hr]].
  exists r.
  apply Hin in Hr; destruct Hr as [Hr [Hv Hw]].
  apply (tumbling_iff 600 _ st) in Hw; [ | lia | exact Hst ].
  rewrite E; repeat split; try tauto; lra.
Qed.

Lemma idle_window_has_slow_event_witness :
  exists c, In c (detect_idle_vehicles [scenarios.telemetry1])
            /\ (is_idle c = true <-> avg_speed c < 5 /\ (3 <= data_points c)%Z).
Proof.
  eexists; split; [ left; reflexivity | ].
  apply (idle_window_has_slow_event [scenarios.telemetry1] _
           (or_introl eq_refl)).
Defined.

End Derived.

Section WindowCarbon.
Import windows.

Lemma carbon_gap (g : list features.Telemetry) :
  (forall r, In r g ->
     features.carbon_kg r
     = features.carbon_emission (features.fuel_type r)
         (features.fuel_liters r)) ->
  Pathway.reducers.sum (map features.fuel_liters g) * (268 / 100)
  = Pathway.reducers.sum (map features.carbon_kg g)
    + 37 / 100
      * Pathway.reducers.sum
          (map features.fuel_liters
             (List.filter
                (fun r => String.eqb (features.fuel_type r) "gasoline") g)).
Proof.
  unfold Pathway.reducers.sum.
  induction g as [ | r g IH ]; intros H; [ simpl; lra | ].
  cbn [map fold_right List.filter].
  rewrite (H r (or_introl eq_refl)).
  assert (IH' := IH (fun r0 Hr0 => H r0 (or_intror Hr0))).
  unfold features.carbon_emission, config.emission.diesel_emission_factor,
    config.emission.gasoline_emission_factor,
    config.emission.default_emission_factor.
  destruct (String.eqb_spec (features.fuel_type r) "diesel") as [Ed | _].
  - rewrite Ed; simpl; lra.
  - destruct (String.eqb (features.fuel_type r) "gasoline");
      cbn [map fold_right]; lra.
Qed.

(** X14.  The carbon of a window applies the default factor 2.68 to all its
    fuel, whereas each event applies the factor of its fuel type: the
    window's [carbon_kg] exceeds the sum of its events' [carbon_kg] by
    0.37 kg per litre of gasoline, and equals it when the window has no
    gasoline event. *)
Theorem window_carbon_vs_event_carbon :
  forall (j : Pathway.Table joins.TelemetryRecord) (w : WindowRow),
    In w (compute_rolling_windows (features.compute_features j)) ->
    exists g,
      In ((vehicle_id w, window_start w), g)
         (Pathway.windowby features.timestamp
            (Pathway.temporal.tumbling 300) features.vehicle_id
            (features.compute_features j))
      /\ carbon_kg w
         = Pathway.reducers.sum (map features.carbon_kg g)
           + 37 / 100
             * Pathway.reducers.sum
                 (map features.fuel_liters
                    (List.filter
                       (fun r =>
                          String.eqb (features.fuel_type r) "gasoline") g))
      /\ ((forall r, In r g -> features.fuel_type r <> "gasoline"%string) ->
          carbon_kg w = Pathway.reducers.sum (map features.carbon_kg g)).
Proof.
  intros j w Hw.
  unfold compute_rolling_windows, Pathway.select in Hw.
  apply in_map_iff in Hw; destruct Hw as [[[i st] g] [<- Hg]].
  exists g; split; [ exact Hg | ].
  apply windowby_rows in Hg; destruct Hg as [_ Hin].
  assert (Hc : forall r, In r g ->
            features.carbon_kg r
            = features.carbon_emission (features.fuel_type r)
                (features.fuel_liters r)).
  { intros r Hr; apply Hin in Hr; destruct Hr as [Hr _].
    unfold features.compute_features, Pathway.select in Hr.
    apply in_map_iff in Hr; destruct Hr as [x [<- _]]; reflexivity. }
  pose proof (carbon_gap g Hc) as G.
  unfold snapshot, config.emission.default_emission_factor; simpl.
  split; [ exact G | ].
  intros Hng; rewrite G, filter_none; [ simpl; unfold Pathway.reducers.sum; simpl; lra | ].
  intros r Hr; apply String.eqb_neq, Hng, Hr.
Qed.

End WindowCarbon.

Section WindowCarbonWitness.
Import windows.

Lemma window_carbon_vs_event_carbon_witness :
  exists w,
    In w (compute_rolling_windows
            (features.compute_features
               [joins.joined_row (scenarios.gps1, scenarios.fuel_near)]))
    /\ exists g,
         In ((vehicle_id w, window_start w), g)
            (Pathway.windowby features.timestamp
               (Pathway.temporal.tumbling 300) features.vehicle_id
               (features.compute_features
                  [joins.joined_row (scenarios.gps1, scenarios.fuel_near)]))
         /\ carbon_kg w
            = Pathway.reducers.sum (map features.carbon_kg g)
              + 37 / 100
                * Pathway.reducers.sum
                    (map features.fuel_liters
                       (List.filter
                          (fun r =>
                             String.eqb (features.fuel_type r) "gasoline")
                          g))
         /\ ((forall r, In r g ->
                features.fuel_type r <> "gasoline"%string) ->
             carbon_kg w = Pathway.reducers.sum (map features.carbon_kg g)).
Proof.
  eexists; split; [ left; reflexivity | ].
  apply (window_carbon_vs_event_carbon
           [joins.joined_row (scenarios.gps1, scenarios.fuel_near)] _
           (or_introl eq_refl)).
Defined.

End WindowCarbonWitness.

(** ** The joins *)

Section JoinFacts.
Import joins.

(** X15.  The GPS-fuel join is an inner join on the tolerance: a record is
    emitted exactly for the pairs of a GPS event and a fuel event of the
    same vehicle at most 30 s apart, and a GPS event without such a fuel
    event, or a fuel event without such a GPS event, leaves no record. *)
Theorem join_gps_fuel_sound_complete :
  forall (gps : Pathway.Table gps_stream.GPSRow)
         (fuel : Pathway.Table fuel_stream.FuelRow)
         (r : TelemetryRecord),
    In r (join_gps_fuel gps fuel)
    <-> exists g f,
          In g gps /\ In f fuel
          /\ gps_stream.vehicle_id g = fuel_stream.vehicle_id f
          /\ (Z.abs (fuel_stream.parsed_time f - gps_stream.parsed_time g)
              <= 30)%Z
          /\ r = joined_row (g, f).
Proof.
  intros gps fuel r.
  unfold join_gps_fuel, Pathway.select, Pathway.interval_join.
  rewrite in_map_iff; split.
  - intros [[g f] [<- H]].
    apply in_flat_map in H; destruct H as [g0 [Hg H]].
    apply in_map_iff in H; destruct H as [f0 [E Hf]].
    inversion E; subst; clear E.
    apply filter_In in Hf; destruct Hf as [Hf Hb].
    rewrite <- in_tolerance_interval in Hb.
    unfold join_spec.in_tolerance in Hb.
    apply andb_true_iff in Hb; destruct Hb as [Hv Ht].
    apply String.eqb_eq in Hv; apply Z.leb_le in Ht.
    exists g, f; tauto.
  - intros [g [f [Hg [Hf [Hv [Ht ->]]]]]].
    exists (g, f); split; [ reflexivity | ].
    apply in_flat_map; exists g; split; [ exact Hg | ].
    apply in_map_iff; exists f; split; [ reflexivity | ].
    apply filter_In; split; [ exact Hf | ].
    rewrite <- in_tolerance_interval; unfold join_spec.in_tolerance.
    apply andb_true_iff; split;
      [ apply String.eqb_eq, Hv | apply Z.leb_le, Ht ].
Qed.

Lemma latest_shipments_keys
    (shipments : Pathway.Table shipment_stream.ShipmentRow) :
  map ls_vehicle_id (latest_shipments shipments)
  = Pathway.distinct String.eqb (map shipment_stream.vehicle_id shipments).
Proof.
  unfold latest_shipments.
  rewrite <- (groupby_keys String.eqb shipment_stream.vehicle_id).
  assert (Hne : forall kg,
            In kg (Pathway.groupby String.eqb shipment_stream.vehicle_id
                     shipments) -> snd kg <> []).
  { intros [k g] H; apply groupby_rows in H; [ tauto | apply String.eqb_eq ]. }
  induction (Pathway.groupby String.eqb shipment_stream.vehicle_id shipments)
    as [ | [k g] l IH ]; [ reflexivity | ].
  cbn [flat_map map fst snd].
  destruct g as [ | s0 g ].
  - exfalso; apply (Hne (k, [])); [ left; reflexivity | reflexivity ].
  - cbn [app map ls_vehicle_id]; f_equal.
    apply IH; intros kg Hkg; apply Hne; right; exact Hkg.
Qed.

Lemma last_is_head_of_rev {A : Type} (s0 : A) (g : list A) :
  exists tl, rev (s0 :: g) = last g s0 :: tl.
Proof.
  destruct (@exists_last _ (s0 :: g) ltac:(discriminate)) as [ys [y E]].
  exists (rev ys).
  rewrite E, rev_app_distr; simpl; f_equal.
  assert (L : last (s0 :: g) s0 = y) by (rewrite E; apply last_last).
  rewrite <- L; destruct g; reflexivity.
Qed.

Lemma latest_shipments_In
    (shipments : Pathway.Table shipment_stream.ShipmentRow)
    (l : LatestShipment) :
  In l (latest_shipments shipments) ->
  exists s tl,
    rev (List.filter
           (fun s => String.eqb (shipment_stream.vehicle_id s)
                       (ls_vehicle_id l)) shipments) = s :: tl
    /\ ls_shipment_id l = shipment_stream.shipment_id s
    /\ ls_status l = shipment_stream.status s
    /\ ls_is_delayed l = shipment_stream.is_delayed s.
Proof.
  unfold latest_shipments; intros H.
  apply in_flat_map in H; destruct H as [[k g] [Hg H]].
  apply (groupby_group String.eqb String.eqb_eq) in Hg.
  destruct Hg as [_ Eg]; cbn [snd fst] in H.
  destruct g as [ | s0 g ]; [ destruct H | ].
  destruct H as [<- | []]; cbn [ls_vehicle_id ls_shipment_id ls_status
                                 ls_is_delayed].
  destruct (last_is_head_of_rev s0 g) as [tl E].
  exists (last g s0), tl; rewrite <- Eg, E; tauto.
Qed.

(** X16.  Enriching with shipments neither drops nor repeats a telemetry
    record.  The shipment columns of a record are null exactly when its
    vehicle has no shipment event; otherwise they are those of the vehicle's
    shipment event that arrived last, whatever the times of the events. *)
Theorem join_all_streams_latest_shipment :
  forall (gps : Pathway.Table gps_stream.GPSRow)
         (fuel : Pathway.Table fuel_stream.FuelRow)
         (shipments : Pathway.Table shipment_stream.ShipmentRow),
    map telemetry (join_all_streams gps fuel shipments)
    = join_gps_fuel gps fuel
    /\ forall e, In e (join_all_streams gps fuel shipments) ->
         match
           rev (List.filter
                  (fun s => String.eqb (shipment_stream.vehicle_id s)
                              (vehicle_id (telemetry e))) shipments)
         with
         | [] =>
             shipment_id e = None /\ shipment_status e = None
             /\ is_delayed e = None
         | s :: _ =>
             shipment_id e = Some (shipment_stream.shipment_id s)
             /\ shipment_status e = Some (shipment_stream.status s)
             /\ is_delayed e
                = Some (String.eqb (shipment_stream.status s) "delayed")
         end.
Proof.
  intros gps fuel shipments.
  unfold join_all_streams, Pathway.select.
  rewrite (join_left_unique vehicle_id ls_vehicle_id).
  2:{ rewrite latest_shipments_keys.
      apply distinct_from_NoDup, String.eqb_eq. }
  rewrite !map_map; cbn [telemetry fst]; split; [ apply map_id | ].
  intros e He; apply in_map_iff in He; destruct He as [t [<- _]].
  cbn [telemetry shipment_id shipment_status is_delayed fst snd].
  destruct (find _ (latest_shipments shipments)) as [l | ] eqn:E.
  - apply find_some in E; destruct E as [Hl Hk].
    apply String.eqb_eq in Hk.
    destruct (latest_shipments_In _ _ Hl) as [s [tl [Er [E1 [E2 E3]]]]].
    rewrite Hk, Er; simpl; rewrite E1, E2, E3; tauto.
  - rewrite filter_none; [ simpl; tauto | ].
    intros s Hs; apply String.eqb_neq; intros Ev.
    assert (Hk : In (vehicle_id t)
                   (map ls_vehicle_id (latest_shipments shipments))).
    { rewrite latest_shipments_keys.
      apply (In_distinct String.eqb String.eqb_eq).
      rewrite <- Ev; apply in_map, Hs. }
    apply in_map_iff in Hk; destruct Hk as [l [Ek Hl]].
    apply (find_none _ _ E) in Hl; simpl in Hl.
    rewrite Ek, String.eqb_refl in Hl; discriminate.
Qed.

End JoinFacts.

(** ** The haversine distance *)

Section Haversine.
Import route_deviation.

Lemma haversine_arg_sym (lat1 lon1 lat2 lon2 : R) :
  sin (math.radians (lat2 - lat1) / 2) ^ 2
  + cos (math.radians lat1) * cos (math.radians lat2)
    * sin (math.radians (lon2 - lon1) / 2) ^ 2
  = sin (math.radians (lat1 - lat2) / 2) ^ 2
    + cos (math.radians lat2) * cos (math.radians lat1)
      * sin (math.radians (lon1 - lon2) / 2) ^ 2.
Proof.
  unfold math.radians.
  replace ((lat1 - lat2) * PI / 180 / 2)
    with (- ((lat2 - lat1) * PI / 180 / 2)) by lra.
  replace ((lon1 - lon2) * PI / 180 / 2)
    with (- ((lon2 - lon1) * PI / 180 / 2)) by lra.
  rewrite !sin_neg; ring.
Qed.

(** X17.  The haversine distance does not depend on the order of the two
    points. *)
Theorem haversine_km_symmetric :
  forall lat1 lon1 lat2 lon2 : R,
    haversine_km lat1 lon1 lat2 lon2 = haversine_km lat2 lon2 lat1 lon1.
Proof.
  intros; unfold haversine_km; cbv zeta.
  rewrite (haversine_arg_sym lat1 lon1 lat2 lon2); reflexivity.
Qed.

Lemma haversine_arg_bounds (lat1 lon1 lat2 lon2 : R) :
  -90 <= lat1 <= 90 -> -90 <= lat2 <= 90 ->
  0 <= sin (math.radians (lat2 - lat1) / 2) ^ 2
       + cos (math.radians lat1) * cos (math.radians lat2)
         * sin (math.radians (lon2 - lon1) / 2) ^ 2
    <= 1.
Proof.
  intros H1 H2.
  pose proof PI_RGT_0 as Hpi.
  assert (C1 : 0 <= cos (math.radians lat1)).
  { apply cos_ge_0; unfold math.radians; nra. }
  assert (C2 : 0 <= cos (math.radians lat2)).
  { apply cos_ge_0; unfold math.radians; nra. }
  rewrite !sin_half_sq.
  replace (math.radians (lat2 - lat1))
    with (math.radians lat2 - math.radians lat1)
    by (unfold math.radians; lra).
  rewrite cos_minus.
  pose proof (cos_plus (math.radians lat2) (math.radians lat1)) as Hplus.
  pose proof (COS_bound (math.radians lat2 + math.radians lat1)) as Bp.
  pose proof (COS_bound (math.radians lat2 - math.radians lat1)) as Bm.
  rewrite cos_minus in Bm.
  pose proof (COS_bound (math.radians (lon2 - lon1))) as Bl.
  set (c1 := cos (math.radians lat1)) in *.
  set (c2 := cos (math.radians lat2)) in *.
  set (s1 := sin (math.radians lat1)) in *.
  set (s2 := sin (math.radians lat2)) in *.
  set (cl := cos (math.radians (lon2 - lon1))) in *.
  assert (P : 0 <= c1 * c2) by (apply Rmult_le_pos; assumption).
  assert (0 <= c1 * c2 * ((1 - cl) / 2) <= c1 * c2) by nra.
  lra.
Qed.

Lemma atan2_quadrant (y x : R) :
  0 <= y -> 0 <= x -> 0 <= math.atan2 y x <= PI / 2.
Proof.
  intros Hy Hx; pose proof PI_RGT_0 as Hpi; unfold math.atan2.
  destruct (Rlt_dec 0 x) as [Hpos | Hn].
  - pose proof (atan_bound (y / x)) as [_ Hub].
    split; [ | lra ].
    destruct (Rle_lt_or_eq_dec 0 y Hy) as [Hy' | <-].
    + rewrite <- atan_0; apply Rlt_le, atan_increasing.
      apply Rdiv_lt_0_compat; assumption.
    + replace (0 / x) with 0 by (unfold Rdiv; lra); rewrite atan_0; lra.
  - destruct (Rlt_dec x 0); [ lra | ].
    destruct (Rlt_dec 0 y); [ lra | ].
    destruct (Rlt_dec y 0); lra.
Qed.

(** X18.  For latitudes between -90 and 90 degrees the haversine distance is
    never negative and never more than half the circumference of the
    Earth, [6371 * PI] km. *)
Theorem haversine_km_bounds :
  forall lat1 lon1 lat2 lon2 : R,
    -90 <= lat1 <= 90 -> -90 <= lat2 <= 90 ->
    0 <= haversine_km lat1 lon1 lat2 lon2 <= 6371 * PI.
Proof.
  intros lat1 lon1 lat2 lon2 H1 H2.
  unfold haversine_km; cbv zeta.
  pose proof (haversine_arg_bounds lat1 lon1 lat2 lon2 H1 H2) as Ha.
  set (a := sin (math.radians (lat2 - lat1) / 2) ^ 2
            + cos (math.radians lat1) * cos (math.radians lat2)
              * sin (math.radians (lon2 - lon1) / 2) ^ 2) in *.
  pose proof (atan2_quadrant (sqrt a) (sqrt (1 - a))
                (sqrt_pos a) (sqrt_pos (1 - a))).
  lra.
Qed.

Lemma haversine_km_bounds_witness :
  -90 <= 0 <= 90 /\ -90 <= 45 <= 90
  /\ 0 <= haversine_km 0 0 45 10 <= 6371 * PI.
Proof.
  assert (H1 : -90 <= 0 <= 90) by lra.
  assert (H2 : -90 <= 45 <= 90) by lra.
  split; [ exact H1 | split; [ exact H2 | ] ].
  apply (haversine_km_bounds 0 0 45 10 H1 H2).
Defined.

End Haversine.

(** ** Per-event features and the threshold detector *)

Section Threshold.
Import threshold.

Lemma threshold_fires (r : features.Telemetry) :
  is_speed_anomaly r || is_efficiency_anomaly r = true
  <-> features.speed r > 120
      \/ 0 < features.fuel_efficiency r < 3.
Proof.
  unfold is_speed_anomaly, is_efficiency_anomaly,
    config.anomaly.max_speed_kmh,
    config.anomaly.min_fuel_efficiency_km_per_l.
  rewrite orb_true_iff.
  destruct (gtb_spec (features.speed r) 120),
    (gtb_spec (features.fuel_efficiency r) 0),
    (ltb_spec (features.fuel_efficiency r) 3);
    intuition (discriminate || lra).
Qed.

(** X19.  Every alert of the threshold detector comes from a telemetry row
    whose speed exceeds 120 km/h or whose efficiency lies strictly between 0
    and 3 km/L, and every such row gives an alert.  A speed above 140 makes
    it a critical speed alert, a speed above 120 a high speed alert even
    when the efficiency is low as well, and only otherwise is it a medium
    efficiency alert; an efficiency of 0 never raises one. *)
Theorem threshold_alerts_characterised :
  forall t : Pathway.Table features.Telemetry,
    (forall a, In a (detect_threshold_anomalies t) ->
       exists r,
         In r t /\ vehicle_id a = features.vehicle_id r
         /\ speed a = features.speed r
         /\ fuel_efficiency a = features.fuel_efficiency r
         /\ timestamp a = features.timestamp r
         /\ (speed a > 120 \/ 0 < fuel_efficiency a < 3))
    /\ (forall a, In a (detect_threshold_anomalies t) ->
          (speed a > 140 ->
           severity a = "critical"%string
           /\ anomaly_type a = "speed_threshold"%string)
          /\ (speed a > 120 -> speed a <= 140 ->
              severity a = "high"%string
              /\ anomaly_type a = "speed_threshold"%string)
          /\ (speed a <= 120 ->
              severity a = "medium"%string
              /\ anomaly_type a = "efficiency_threshold"%string))
    /\ (forall r, In r t ->
          features.speed r > 120 \/ 0 < features.fuel_efficiency r < 3 ->
          exists a,
            In a (detect_threshold_anomalies t)
            /\ vehicle_id a = features.vehicle_id r
            /\ speed a = features.speed r
            /\ fuel_efficiency a = features.fuel_efficiency r
            /\ timestamp a = features.timestamp r)
    /\ List.length (detect_threshold_anomalies t)
       = List.length
           (List.filter
              (fun r => is_speed_anomaly r || is_efficiency_anomaly r) t).
Proof.
  intros t; unfold detect_threshold_anomalies, Pathway.select, Pathway.filter.
  split; [ | split; [ | split ] ].
  - intros a Ha; apply in_map_iff in Ha; destruct Ha as [r [<- Hr]].
    apply filter_In in Hr; destruct Hr as [Hr Hf].
    exists r; simpl; repeat split; try assumption.
    apply threshold_fires, Hf.
  - intros a Ha; apply in_map_iff in Ha; destruct Ha as [r [<- Hr]].
    simpl; unfold is_speed_anomaly, config.anomaly.max_speed_kmh.
    destruct (gtb_spec (features.speed r) 120),
      (gtb_spec (features.speed r) 140);
      simpl; repeat split; intros; try reflexivity; lra.
  - intros r Hr Hf; eexists; split.
    + apply in_map_iff; exists r; split; [ reflexivity | ].
      apply filter_In; split; [ exact Hr | apply threshold_fires, Hf ].
    + simpl; tauto.
  - apply length_map.
Qed.

(** X20.  Per-event features.  The carbon of an event lies between 2.31 and
    2.68 kg per litre when its fuel is not negative; its efficiency is 0
    when the fuel is not positive, and otherwise the distance divided by the
    fuel.  An event without fuel whose speed is at most 120 km/h raises no
    threshold alert: the efficiency 0 that replaces the division is not
    read as a low efficiency. *)
Theorem features_guard_division :
  forall (j : Pathway.Table joins.TelemetryRecord) (r : features.Telemetry),
    In r (features.compute_features j) ->
    (0 <= features.fuel_liters r ->
     231 / 100 * features.fuel_liters r <= features.carbon_kg r
     <= 268 / 100 * features.fuel_liters r)
    /\ (features.fuel_liters r <= 0 -> features.fuel_efficiency r = 0)
    /\ (features.fuel_liters r > 0 ->
        features.fuel_efficiency r * features.fuel_liters r
        = features.distance_km r)
    /\ (features.fuel_liters r <= 0 -> features.speed r <= 120 ->
        detect_threshold_anomalies [r] = []).
Proof.
  intros j r Hr.
  unfold features.compute_features, Pathway.select in Hr.
  apply in_map_iff in Hr; destruct Hr as [x [<- _]]; simpl.
  assert (E0 : joins.fuel_liters x <= 0 ->
               features.efficiency (joins.distance_km x)
                 (joins.fuel_liters x) = 0).
  { intros H; unfold features.efficiency.
    destruct (gtb_spec (joins.fuel_liters x) 0); [ lra | reflexivity ]. }
  split; [ | split; [ exact E0 | split ] ].
  - intros H.
    unfold features.carbon_emission, config.emission.diesel_emission_factor,
      config.emission.gasoline_emission_factor,
      config.emission.default_emission_factor.
    destruct (String.eqb (joins.fuel_type x) "diesel"); [ lra | ].
    destruct (String.eqb (joins.fuel_type x) "gasoline"); lra.
  - intros H; unfold features.efficiency.
    destruct (gtb_spec (joins.fuel_liters x) 0); [ field; lra | lra ].
  - intros Hf Hs.
    unfold detect_threshold_anomalies, Pathway.select, Pathway.filter.
    cbn [List.filter].
    unfold is_speed_anomaly, is_efficiency_anomaly,
      config.anomaly.max_speed_kmh; simpl.
    rewrite (E0 Hf).
    destruct (gtb_spec (joins.speed x) 120); [ lra | ].
    destruct (gtb_spec 0 0); [ lra | reflexivity ].
Qed.

Lemma features_guard_division_witness :
  exists r,
    In r (features.compute_features
            [joins.joined_row (scenarios.gps1, scenarios.fuel_near)])
    /\ (features.fuel_liters r > 0 ->
        features.fuel_efficiency r * features.fuel_liters r
        = features.distance_km r).
Proof.
  eexists; split; [ left; reflexivity | ].
  apply (features_guard_division
           [joins.joined_row (scenarios.gps1, scenarios.fuel_near)] _
           (or_introl eq_refl)).
Defined.

End Threshold.

(** ** Rounding keeps a value on its side of a grid point *)

Lemma round_half_even_ge (y : R) (z : Z) :
  IZR z <= y -> (z <= Py.round_half_even y)%Z.
Proof.
  intros H; unfold Py.round_half_even.
  destruct (base_Int_part y) as [Hle Hgt].
  assert (Hz : (z <= Int_part y)%Z).
  { apply Z.lt_succ_r, lt_IZR; rewrite succ_IZR; lra. }
  destruct (Rlt_dec (y - IZR (Int_part y)) (1 / 2)); [ exact Hz | ].
  destruct (Rlt_dec (1 / 2) (y - IZR (Int_part y))); [ lia | ].
  destruct (Z.even (Int_part y)); lia.
Qed.

Lemma round_half_even_le (y : R) (z : Z) :
  y <= IZR z -> (Py.round_half_even y <= z)%Z.
Proof.
  intros H; unfold Py.round_half_even.
  destruct (base_Int_part y) as [Hle Hgt].
  assert (Hz : (Int_part y <= z)%Z) by (apply le_IZR; lra).
  destruct (Rlt_dec (y - IZR (Int_part y)) (1 / 2)) as [ | Hhalf ];
    [ exact Hz | ].
  assert (Hlt : (Int_part y < z)%Z).
  { destruct (Z.eq_dec (Int_part y) z) as [E | ]; [ | lia ].
    rewrite E in Hhalf; lra. }
  destruct (Rlt_dec (1 / 2) (y - IZR (Int_part y))); [ lia | ].
  destruct (Z.even (Int_part y)); lia.
Qed.

Lemma pow10_pos (n : nat) : 0 < 10 ^ n.
Proof. apply pow_lt; lra. Qed.

(** [round(x, n)] of a value at or above a multiple of [10^-n] is at or
    above it, and likewise below. *)
Lemma round_ge (x : R) (n : nat) (z : Z) :
  IZR z / 10 ^ n <= x -> IZR z / 10 ^ n <= Py.round x n.
Proof.
  intros H; pose proof (pow10_pos n) as Hp; unfold Py.round.
  apply Rmult_le_compat_r; [ apply Rlt_le, Rinv_0_lt_compat, Hp | ].
  apply IZR_le, round_half_even_ge.
  apply (Rmult_le_compat_r (10 ^ n)) in H; [ | lra ].
  unfold Rdiv in H; rewrite Rmult_assoc, Rinv_l, Rmult_1_r in H by lra.
  exact H.
Qed.

Lemma round_le (x : R) (n : nat) (z : Z) :
  x <= IZR z / 10 ^ n -> Py.round x n <= IZR z / 10 ^ n.
Proof.
  intros H; pose proof (pow10_pos n) as Hp; unfold Py.round.
  apply Rmult_le_compat_r; [ apply Rlt_le, Rinv_0_lt_compat, Hp | ].
  apply IZR_le, round_half_even_le.
  apply (Rmult_le_compat_r (10 ^ n)) in H; [ | lra ].
  unfold Rdiv in H; rewrite Rmult_assoc, Rinv_l, Rmult_1_r in H by lra.
  exact H.
Qed.

Lemma round_between (x : R) (n : nat) (lo hi : Z) :
  IZR lo <= x <= IZR hi -> IZR lo <= Py.round x n <= IZR hi.
Proof.
  intros [Hlo Hhi]; pose proof (pow10_pos n) as Hp.
  assert (Elo : IZR lo = IZR (lo * 10 ^ Z.of_nat n) / 10 ^ n).
  { rewrite mult_IZR, <- pow_IZR; field; lra. }
  assert (Ehi : IZR hi = IZR (hi * 10 ^ Z.of_nat n) / 10 ^ n).
  { rewrite mult_IZR, <- pow_IZR; field; lra. }
  split.
  - rewrite Elo; apply round_ge; rewrite <- Elo; exact Hlo.
  - rewrite Ehi; apply round_le; rewrite <- Ehi; exact Hhi.
Qed.

Lemma round_exact (z : Z) (n : nat) : Py.round (IZR z) n = IZR z.
Proof.
  pose proof (round_between (IZR z) n z z ltac:(lra)); lra.
Qed.

Section Forecasts.
Import predictor.

(** X21.  The carbon forecast lies in [0, 200] for every input; it is 0 for
    a window without carbon and saturates at 200 as soon as the window's
    carbon reaches 200/3 kg, whatever the speed and the efficiency. *)
Theorem predict_carbon_bounds :
  forall avg_carbon_kg avg_efficiency avg_speed : R,
    0 <= _predict_carbon_10min avg_carbon_kg avg_efficiency avg_speed <= 200
    /\ (avg_carbon_kg = 0 ->
        _predict_carbon_10min avg_carbon_kg avg_efficiency avg_speed = 0)
    /\ (200 / 3 <= avg_carbon_kg ->
        _predict_carbon_10min avg_carbon_kg avg_efficiency avg_speed = 200).
Proof.
  intros c e s; unfold _predict_carbon_10min; cbv zeta.
  rewrite !py_max_Rmax, py_min_Rmin.
  set (sf := 1 + Rmax (s - 60) 0 / 100).
  set (pen := Rmax 0 ((5 - e) / 5)).
  assert (Hsf : 1 <= sf).
  { unfold sf; pose proof (Rbasic_fun.Rmax_r (s - 60) 0); lra. }
  assert (Hpen : 0 <= pen) by (unfold pen; apply Rbasic_fun.Rmax_l).
  set (p := c + c / 5 * sf * (1 + pen * (3 / 10)) * 10).
  assert (Hb : 0 <= Rmax 0 (Rmin 200 p) <= 200).
  { split; [ apply Rbasic_fun.Rmax_l | ].
    apply Rmax_lub; [ lra | apply Rmin_l ]. }
  split; [ apply (round_between _ 2 0 200), Hb | ].
  split.
  - intros ->.
    assert (E : p = 0) by (unfold p; lra).
    rewrite E.
    rewrite Rmin_right, Rmax_left by lra.
    apply (round_exact 0).
  - intros Hc.
    assert (Hp : 200 <= p).
    { unfold p.
      assert (1 <= sf * (1 + pen * (3 / 10))) by nra.
      assert (0 <= c) by lra.
      nra. }
    fold p; rewrite Rmin_left, Rmax_right by lra.
    apply (round_exact 200).
Qed.

(** X22.  The risk forecast lies in [0, 100] for every input, and it is 100
    whenever the weighted sum it rounds reaches 100. *)
Theorem predict_risk_bounds :
  forall (current_risk : R) (alert_count : Z) (avg_carbon_kg avg_speed : R),
    0 <= _predict_risk_score current_risk alert_count avg_carbon_kg avg_speed
      <= 100
    /\ (100 <= current_risk * (55 / 100) + Rmin (IZR alert_count * 8) 30
               + Rmin (avg_carbon_kg * (5 / 10)) 20
               + Rmax 0 ((avg_speed - 90) * (25 / 100)) ->
        _predict_risk_score current_risk alert_count avg_carbon_kg avg_speed
        = 100).
Proof.
  intros r a c s; unfold _predict_risk_score, Py.float; cbv zeta.
  rewrite !py_max_Rmax, !py_min_Rmin.
  set (raw := r * (55 / 100) + Rmin (IZR a * 8) 30 + Rmin (c * (5 / 10)) 20
              + Rmax 0 ((s - 90) * (25 / 100))).
  assert (Hb : 0 <= Rmin 100 (Rmax 0 raw) <= 100).
  { split; [ | apply Rmin_l ].
    apply Rmin_glb; [ lra | apply Rbasic_fun.Rmax_l ]. }
  split; [ apply (round_between _ 1 0 100), Hb | ].
  intros H; rewrite (Rmax_right 0 raw), Rmin_left by lra.
  apply (round_exact 100).
Qed.

Lemma sigmoid_bounds (x : R) :
  0 < 1 / (1 + exp (- x)) < 1
  /\ (0 <= x -> 1 / 2 <= 1 / (1 + exp (- x)))
  /\ (x <= 0 -> 1 / (1 + exp (- x)) <= 1 / 2).
Proof.
  pose proof (exp_pos (- x)) as He.
  set (e := exp (- x)) in *.
  assert (Hd : 0 < 1 + e) by lra.
  assert (Hinv : 0 < / (1 + e)) by (apply Rinv_0_lt_compat, Hd).
  assert (E : (1 + e) * / (1 + e) = 1) by (apply Rinv_r; lra).
  split; [ split; [ lra | nra ] | ].
  split; intros Hx.
  - assert (e <= 1).
    { unfold e; rewrite <- exp_0.
      destruct (Rle_lt_or_eq_dec 0 x Hx) as [Hlt | <-].
      - apply Rlt_le, exp_increasing; lra.
      - rewrite Ropp_0; lra. }
    nra.
  - assert (1 <= e).
    { unfold e; rewrite <- exp_0.
      destruct (Rle_lt_or_eq_dec x 0 Hx) as [Hlt | ->].
      - apply Rlt_le, exp_increasing; lra.
      - rewrite Ropp_0; lra. }
    nra.
Qed.

(** X23.  The escalation probability lies in [0, 1]; it is at least 0.5 when
    the forecast risk plus the alert pressure [min(5 alert_count, 25)] is
    not below the current risk, and at most 0.5 when it is not above. *)
Theorem risk_escalation_probability_bounds :
  forall (current_risk predicted_risk : R) (alert_count : Z),
    let p :=
      _risk_escalation_probability current_risk predicted_risk alert_count in
    let pressure := IZR (Z.min (alert_count * 5) 25) in
    0 <= p <= 1
    /\ (current_risk <= predicted_risk + pressure -> 1 / 2 <= p)
    /\ (predicted_risk + pressure <= current_risk -> p <= 1 / 2).
Proof.
  intros r pr a p pressure; subst p pressure.
  unfold _risk_escalation_probability, Py.float; cbv zeta.
  set (x := 8 / 100 * (pr - r + IZR (Z.min (a * 5) 25))).
  replace (- (8 / 100) * (pr - r + IZR (Z.min (a * 5) 25))) with (- x)
    by (unfold x; lra).
  destruct (sigmoid_bounds x) as [[H0 H1] [Hge Hle]].
  split; [ apply (round_between _ 3 0 1); lra | ].
  split; intros H.
  - replace (1 / 2) with (IZR 500 / 10 ^ 3) by (simpl; lra).
    apply round_ge.
    replace (IZR 500 / 10 ^ 3) with (1 / 2) by (simpl; lra).
    apply Hge; unfold x; lra.
  - replace (1 / 2) with (IZR 500 / 10 ^ 3) by (simpl; lra).
    apply round_le.
    replace (IZR 500 / 10 ^ 3) with (1 / 2) by (simpl; lra).
    apply Hle; unfold x; lra.
Qed.

(** X24.  The fuel forecast is either the sentinel -1 or a number of minutes
    between 0 and 3000; it is -1 exactly when the window consumed less than
    0.05 litres. *)
Theorem fuel_exhaustion_range :
  forall avg_fuel_consumed avg_efficiency avg_speed : R,
    let m :=
      _fuel_exhaustion_minutes avg_fuel_consumed avg_efficiency avg_speed in
    (avg_fuel_consumed < 5 / 100 -> m = - 1)
    /\ (5 / 100 <= avg_fuel_consumed -> 0 <= m <= 3000).
Proof.
  intros f e s m; subst m; unfold _fuel_exhaustion_minutes; cbv zeta.
  destruct (ltb_spec (f / 5) (1 / 100)) as [Hlt | Hge].
  - split; [ reflexivity | lra ].
  - split; [ lra | intros _ ].
    rewrite py_max_Rmax.
    apply (round_between _ 1 0 3000).
    assert (Hr : 0 < f / 5) by lra.
    assert (Hq : (40 - 10) / (f / 5) <= 3000).
    { apply (Rmult_le_reg_r (f / 5)); [ exact Hr | ].
      unfold Rdiv at 1; rewrite Rmult_assoc, Rinv_l by lra; lra. }
    split; [ apply Rbasic_fun.Rmax_l | apply Rmax_lub; lra ].
Qed.

End Forecasts.

(** ** Per-vehicle totals: rankings, leaderboard, sustainability *)

Lemma sum_Z_app (xs ys : list Z) :
  Pathway.reducers.sum_int (xs ++ ys)
  = (Pathway.reducers.sum_int xs + Pathway.reducers.sum_int ys)%Z.
Proof.
  unfold Pathway.reducers.sum_int; induction xs; simpl; lia.
Qed.

Lemma sum_Z_Permutation (xs ys : list Z) :
  Permutation xs ys ->
  Pathway.reducers.sum_int xs = Pathway.reducers.sum_int ys.
Proof.
  unfold Pathway.reducers.sum_int; induction 1; simpl; lia.
Qed.

Lemma sum_Z_concat_map {A : Type} (f : A -> Z) (gs : list (list A)) :
  Pathway.reducers.sum_int
    (map (fun g => Pathway.reducers.sum_int (map f g)) gs)
  = Pathway.reducers.sum_int (map f (List.concat gs)).
Proof.
  induction gs as [ | g gs IH ]; simpl; [ reflexivity | ].
  rewrite map_app, sum_Z_app, <- IH; reflexivity.
Qed.

Section GroupTotals.
Context {A : Type}.
Variable vid : A -> string.

(** Summing a column group by group gives the sum of the column. *)
Lemma groupby_sum (f : A -> R) (t : list A) :
  Pathway.reducers.sum
    (map (fun kg : string * list A =>
            Pathway.reducers.sum (map f (snd kg)))
       (Pathway.groupby String.eqb vid t))
  = Pathway.reducers.sum (map f t).
Proof.
  rewrite <- (map_map snd (fun g => Pathway.reducers.sum (map f g))).
  rewrite sum_concat_map.
  apply sum_Permutation, Permutation_map.
  apply (groupby_partition String.eqb String.eqb_eq).
Qed.

Lemma groupby_sum_int (f : A -> Z) (t : list A) :
  Pathway.reducers.sum_int
    (map (fun kg : string * list A =>
            Pathway.reducers.sum_int (map f (snd kg)))
       (Pathway.groupby String.eqb vid t))
  = Pathway.reducers.sum_int (map f t).
Proof.
  rewrite <- (map_map snd (fun g => Pathway.reducers.sum_int (map f g))).
  rewrite sum_Z_concat_map.
  apply sum_Z_Permutation, Permutation_map.
  apply (groupby_partition String.eqb String.eqb_eq).
Qed.

Lemma groupby_count (t : list A) :
  Pathway.reducers.sum_int
    (map (fun kg : string * list A => Pathway.reducers.count (snd kg))
       (Pathway.groupby String.eqb vid t))
  = Z.of_nat (List.length t).
Proof.
  rewrite <- (map_map snd (@Pathway.reducers.count A)).
  rewrite sum_int_counts; f_equal.
  apply Permutation_length, (groupby_partition String.eqb String.eqb_eq).
Qed.

Lemma groupby_nonempty (t : list A) (kg : string * list A) :
  In kg (Pathway.groupby String.eqb vid t) ->
  (1 <= Pathway.reducers.count (snd kg))%Z.
Proof.
  destruct kg as [k g]; intros H.
  apply groupby_rows in H; [ | apply String.eqb_eq ].
  destruct H as [Hne _]; unfold Pathway.reducers.count; simpl.
  destruct g; [ contradiction | simpl; lia ].
Qed.

End GroupTotals.

Section Services.

(** X25.  The carbon leaderboard has one entry per vehicle; its carbon,
    distance and window counts add up to those of the window table; an
    entry's [carbon_per_km] is its carbon divided by its distance, and 0
    when the distance is not positive. *)
Theorem leaderboard_conserves_totals :
  forall w : Pathway.Table windows.WindowRow,
    let lb := leaderboard.compute_carbon_leaderboard w in
    NoDup (map leaderboard.vehicle_id lb)
    /\ (forall v, In v (map leaderboard.vehicle_id lb)
                  <-> In v (map windows.vehicle_id w))
    /\ Pathway.reducers.sum (map leaderboard.total_carbon_kg lb)
       = Pathway.reducers.sum (map windows.carbon_kg w)
    /\ Pathway.reducers.sum (map leaderboard.total_distance_km lb)
       = Pathway.reducers.sum (map windows.total_distance w)
    /\ Pathway.reducers.sum_int (map leaderboard.windows_counted lb)
       = Z.of_nat (List.length w)
    /\ forall e, In e lb ->
         (1 <= leaderboard.windows_counted e)%Z
         /\ (leaderboard.total_distance_km e > 0 ->
             leaderboard.carbon_per_km e * leaderboard.total_distance_km e
             = leaderboard.total_carbon_kg e)
         /\ (leaderboard.total_distance_km e <= 0 ->
             leaderboard.carbon_per_km e = 0).
Proof.
  intros w lb; subst lb; unfold leaderboard.compute_carbon_leaderboard.
  rewrite !map_map; cbn [leaderboard.vehicle_id leaderboard.total_carbon_kg
                          leaderboard.total_distance_km
                          leaderboard.windows_counted].
  rewrite <- (map_map fst (fun k : string => k)), map_id.
  split; [ apply groupby_keys_NoDup, String.eqb_eq | ].
  split.
  { intros v; rewrite (groupby_keys String.eqb windows.vehicle_id).
    apply (In_distinct String.eqb String.eqb_eq). }
  split; [ apply groupby_sum | ].
  split; [ apply groupby_sum | ].
  split; [ apply groupby_count | ].
  intros e He; apply in_map_iff in He; destruct He as [kg [<- Hkg]].
  cbn [leaderboard.windows_counted leaderboard.total_distance_km
       leaderboard.carbon_per_km leaderboard.total_carbon_kg].
  split; [ apply (groupby_nonempty windows.vehicle_id w), Hkg | ].
  set (d := Pathway.reducers.sum (map windows.total_distance (snd kg))).
  destruct (gtb_spec d 0); split; intros; try lra; field; lra.
Qed.


Import sustainability.





End Services.

(** ** The fleet report and the forecast table *)

Section FleetReport.
Import fleet_report counting.

Lemma sustainability_keys_NoDup (w : Pathway.Table windows.WindowRow) :
  NoDup (map sustainability.vehicle_id
           (sustainability.compute_sustainability_scores w)).
Proof.
  unfold sustainability.compute_sustainability_scores; rewrite map_map.
  cbn [sustainability.vehicle_id sustainability.score_of].
  rewrite <- (map_map fst (fun k : string => k)), map_id.
  apply groupby_keys_NoDup, String.eqb_eq.
Qed.

Lemma risk_lookup (w : Pathway.Table windows.WindowRow)
    (ta : Pathway.Table threshold.Alert) (za : Pathway.Table zscore.Alert)
    (ra : Pathway.Table route_deviation.Alert) (wr : windows.WindowRow) :
  In wr w ->
  exists r,
    find (fun r => String.eqb (windows.vehicle_id wr)
                     (risk_scoring.vehicle_id r))
      (risk_scoring.compute_risk_scores w ta za ra) = Some r
    /\ risk_scoring.total_alerts r
       = (rows_of threshold.vehicle_id ta (windows.vehicle_id wr)
          + rows_of zscore.alert_vehicle_id za (windows.vehicle_id wr)
          + rows_of route_deviation.vehicle_id ra (windows.vehicle_id wr))%Z.
Proof.
  intros Hwr.
  destruct (find_key_some risk_scoring.vehicle_id (windows.vehicle_id wr)
              (risk_scoring.compute_risk_scores w ta za ra))
    as [r [E [Hr Hk]]].
  { rewrite compute_risk_scores_keys.
    apply (In_distinct String.eqb String.eqb_eq), in_map, Hwr. }
  exists r; split; [ exact E | ].
  destruct (risk_row_counts _ _ _ _ _ Hr) as [T [Z0 [R0 S]]].
  rewrite Hk in T, Z0, R0.
  rewrite S, T, Z0, R0; reflexivity.
Qed.

(** The table the fleet aggregation reads, column by column. *)
Lemma with_sustainability_columns (w : Pathway.Table windows.WindowRow)
    (ta : Pathway.Table threshold.Alert) (za : Pathway.Table zscore.Alert)
    (ra : Pathway.Table route_deviation.Alert) :
  let ws :=
    with_sustainability
      (with_risk w (risk_scoring.compute_risk_scores w ta za ra))
      (sustainability.compute_sustainability_scores w) in
  map ws_vehicle_id ws = map windows.vehicle_id w
  /\ map ws_avg_carbon_kg ws = map windows.carbon_kg w
  /\ map ws_alert_count ws
     = map (fun wr =>
              (rows_of threshold.vehicle_id ta (windows.vehicle_id wr)
               + rows_of zscore.alert_vehicle_id za (windows.vehicle_id wr)
               + rows_of route_deviation.vehicle_id ra
                   (windows.vehicle_id wr))%Z) w.
Proof.
  intros ws; subst ws.
  unfold with_sustainability, with_risk, Pathway.select.
  rewrite (join_left_unique windows.vehicle_id risk_scoring.vehicle_id).
  2:{ rewrite compute_risk_scores_keys.
      apply distinct_from_NoDup, String.eqb_eq. }
  rewrite (join_left_unique wr_vehicle_id sustainability.vehicle_id).
  2:{ apply sustainability_keys_NoDup. }
  rewrite !map_map.
  repeat split; apply map_ext_in; intros wr Hwr; cbn; try reflexivity.
  destruct (risk_lookup w ta za ra wr Hwr) as [r [E T]].
  rewrite E; cbn; exact T.
Qed.

Lemma distinct_nonempty (ks : list string) :
  ks <> [] -> Pathway.distinct String.eqb ks <> [].
Proof.
  destruct ks as [ | k ks ]; [ congruence | intros _ ].
  unfold Pathway.distinct; simpl; discriminate.
Qed.

Lemma fleet_health_cases (n : Z) :
  (fleet_health_of n = "critical"%string <-> (10 < n)%Z)
  /\ (fleet_health_of n = "degraded"%string <-> (5 < n <= 10)%Z)
  /\ (fleet_health_of n = "healthy"%string <-> (n <= 5)%Z).
Proof.
  unfold fleet_health_of.
  destruct (Z.gtb_spec n 10), (Z.gtb_spec n 5);
    repeat split; intros; first [ reflexivity | discriminate | lia ].
Qed.

(** X28.  Without window rows there is no fleet report.  With window rows
    there is exactly one, the same in both returned tables: its carbon is
    the sum of the carbon of all window rows, its vehicle count the number
    of distinct vehicles, and its alert total adds a vehicle's alert count
    once for every window row of the vehicle; the health is critical above
    10 alerts, degraded from 6 to 10, healthy up to 5. *)
Theorem fleet_report_totals :
  forall (A : Type) (all_alerts : Pathway.Table A)
         (w : Pathway.Table windows.WindowRow)
         (ta : Pathway.Table threshold.Alert)
         (za : Pathway.Table zscore.Alert)
         (ra : Pathway.Table route_deviation.Alert),
    let risk := risk_scoring.compute_risk_scores w ta za ra in
    let sus := sustainability.compute_sustainability_scores w in
    (w = [] -> compute_fleet_reports w all_alerts risk sus = ([], []))
    /\ (w <> [] ->
        exists rep,
          compute_fleet_reports w all_alerts risk sus = ([rep], [rep])
          /\ total_carbon rep
             = Pathway.reducers.sum (map windows.carbon_kg w)
          /\ active_vehicles rep
             = Z.of_nat (List.length
                           (Pathway.distinct String.eqb
                              (map windows.vehicle_id w)))
          /\ total_alerts rep
             = Pathway.reducers.sum_int
                 (map (fun wr =>
                         (rows_of threshold.vehicle_id ta
                            (windows.vehicle_id wr)
                          + rows_of zscore.alert_vehicle_id za
                              (windows.vehicle_id wr)
                          + rows_of route_deviation.vehicle_id ra
                              (windows.vehicle_id wr))%Z) w)
          /\ (fleet_health rep = "critical"%string
              <-> (10 < total_alerts rep)%Z)
          /\ (fleet_health rep = "degraded"%string
              <-> (5 < total_alerts rep <= 10)%Z)
          /\ (fleet_health rep = "healthy"%string
              <-> (total_alerts rep <= 5)%Z)).
Proof.
  intros A all_alerts w ta za ra risk sus; subst risk sus.
  split; [ intros ->; reflexivity | intros Hne ].
  destruct (with_sustainability_columns w ta za ra) as [Hv [Hc Ha]].
  unfold compute_fleet_reports, Pathway.select; rewrite map_id.
  set (ws := with_sustainability _ _) in *.
  assert (Hk : map vehicle_id (fleet_agg ws)
               = Pathway.distinct String.eqb (map windows.vehicle_id w)).
  { unfold fleet_agg; rewrite map_map; cbn [vehicle_id].
    rewrite <- (map_map fst (fun k : string => k)), map_id.
    rewrite (groupby_keys String.eqb ws_vehicle_id), Hv; reflexivity. }
  assert (Hcar : Pathway.reducers.sum (map agg_total_carbon (fleet_agg ws))
                 = Pathway.reducers.sum (map windows.carbon_kg w)).
  { unfold fleet_agg; rewrite map_map; cbn [agg_total_carbon].
    rewrite (groupby_sum ws_vehicle_id ws_avg_carbon_kg), Hc; reflexivity. }
  assert (Hal : Pathway.reducers.sum_int (map alert_count (fleet_agg ws))
                = Pathway.reducers.sum_int (map ws_alert_count ws)).
  { unfold fleet_agg; rewrite map_map; cbn [alert_count].
    apply (groupby_sum_int ws_vehicle_id ws_alert_count). }
  assert (Hlen : Pathway.reducers.count (fleet_agg ws)
                 = Z.of_nat (List.length
                               (Pathway.distinct String.eqb
                                  (map windows.vehicle_id w)))).
  { unfold Pathway.reducers.count; rewrite <- Hk, length_map; reflexivity. }
  destruct (fleet_agg ws) as [ | a agg ] eqn:Eagg.
  { exfalso; apply (distinct_nonempty (map windows.vehicle_id w)).
    - destruct w; [ congruence | discriminate ].
    - rewrite <- Hk; reflexivity. }
  unfold fleet_summary.
  eexists; split; [ reflexivity | ].
  cbn [total_carbon active_vehicles total_alerts fleet_health].
  split; [ exact Hcar | ].
  split; [ exact Hlen | ].
  split; [ rewrite Hal, Ha; reflexivity | ].
  apply fleet_health_cases.
Qed.

End FleetReport.

Section ForecastTable.
Import predictor.

(** X29.  With the risk table of the pipeline there is one forecast per
    window row, in the order of the window rows, for the vehicle of that
    row; every forecast has its carbon in [0, 200], its risk in [0, 100] and
    its probability in [0, 1], and its fuel forecast is the sentinel -1
    exactly when the window row consumed less than 0.05 litres. *)
Theorem predictions_one_per_window :
  forall (w : Pathway.Table windows.WindowRow)
         (ta : Pathway.Table threshold.Alert)
         (za : Pathway.Table zscore.Alert)
         (ra : Pathway.Table route_deviation.Alert),
    Forall2
      (fun (wr : windows.WindowRow) (p : Prediction) =>
         vehicle_id p = windows.vehicle_id wr
         /\ 0 <= predicted_carbon_10min p <= 200
         /\ 0 <= predicted_risk_score p <= 100
         /\ 0 <= risk_escalation_probability p <= 1
         /\ (fuel_exhaustion_minutes p = - 1
             <-> windows.total_fuel wr < 5 / 100))
      w
      (compute_predictions w (risk_scoring.compute_risk_scores w ta za ra)).
Proof.
  intros w ta za ra.
  unfold compute_predictions, base, Pathway.select.
  rewrite (join_left_unique windows.vehicle_id risk_scoring.vehicle_id).
  2:{ rewrite compute_risk_scores_keys.
      apply distinct_from_NoDup, String.eqb_eq. }
  rewrite !map_map.
  apply Forall2_map_r; intros wr _.
  unfold predict;
    cbn [vehicle_id predicted_carbon_10min predicted_risk_score
         risk_escalation_probability fuel_exhaustion_minutes
         b_vehicle_id avg_carbon_kg avg_efficiency avg_speed
         avg_fuel_consumed alert_count risk_score].
  split; [ reflexivity | ].
  split.
  { unfold _predict_carbon_10min; cbv zeta.
    rewrite (py_max_Rmax 0 (Py.min _ _)), py_min_Rmin.
    apply (round_between _ 2 0 200).
    split; [ apply Rbasic_fun.Rmax_l | ].
    apply Rmax_lub; [ lra | apply Rmin_l ]. }
  split.
  { unfold _predict_risk_score; cbv zeta.
    rewrite (py_min_Rmin 100), (py_max_Rmax 0).
    apply (round_between _ 1 0 100).
    split; [ | apply Rmin_l ].
    apply Rmin_glb; [ lra | apply Rbasic_fun.Rmax_l ]. }
  split.
  { unfold _risk_escalation_probability; cbv zeta.
    match goal with
    | |- context [exp ?y] =>
        replace y with (- (- y)) by lra;
        destruct (sigmoid_bounds (- y)) as [[H0 H1] _]
    end.
    apply (round_between _ 3 0 1); lra. }
  unfold _fuel_exhaustion_minutes; cbv zeta.
  destruct (ltb_spec (windows.total_fuel wr / 5) (1 / 100)) as [Hlt | Hge].
  - split; [ lra | reflexivity ].
  - split; [ intros E | lra ].
    exfalso.
    assert (B : 0 <= Py.round
                       (Py.max 0 ((40 - 10) / (windows.total_fuel wr / 5)))
                       1).
    { apply (round_between _ 1 0 3000).
      rewrite py_max_Rmax.
      assert (Hr : 0 < windows.total_fuel wr / 5) by lra.
      assert (Hq : (40 - 10) / (windows.total_fuel wr / 5) <= 3000).
      { apply (Rmult_le_reg_r (windows.total_fuel wr / 5)); [ exact Hr | ].
        unfold Rdiv at 1; rewrite Rmult_assoc, Rinv_l by lra; lra. }
      split; [ apply Rbasic_fun.Rmax_l | apply Rmax_lub; lra ]. }
    lra.
Qed.

End ForecastTable.
